(** * RTGL1 vertex collector: a shallow embedding of
      Source/VertexCollector.cpp and the properties of its specification.

    Conventions.
    - [uint32_t] values are [Z] with the wrap-around written out ([u32]);
      [size_t], [VkDeviceSize] and [VkDeviceAddress] are 64-bit ([u64]).
    - [filters] (a map from filter key to filter bucket) is a [gmap Z _].
    - An [assert] that fails, or an access the code guards by one, makes the
      operation return [None]; so does a [memcpy] that would write past the
      end of its staging buffer or read past the end of the caller's array
      (undefined behaviour): [None] is a call without a result.
    - Mapped staging memory is a finite map from element index to element,
      written only inside the size of the buffer it maps.
    - The command buffer is the list of commands recorded so far.
    - [debug::Error] is kept as the [AddOutcome] the call ends with.
    - Fields of [ShGeometryInstance] that hold floats (model matrices,
      roughness, metallicity, emission) are left out of the record. *)

From Stdlib Require Import ZArith List Bool Lia.
From stdpp Require Import base option list gmap fin_maps.

Local Open Scope Z_scope.

(** ** Machine integers *)

Definition UINT32_MAX : Z := 4294967295.

Definition u32 (x : Z) : Z := x mod 2 ^ 32.
Definition u64 (x : Z) : Z := x mod 2 ^ 64.

Definition is_u32 (x : Z) : Prop := 0 <= x < 2 ^ 32.

(** ** Generated/ShaderCommonC.h *)

Definition MAX_STATIC_VERTEX_COUNT : Z := 1048576.
Definition MAX_DYNAMIC_VERTEX_COUNT : Z := 2097152.
Definition MAX_INDEXED_PRIMITIVE_COUNT : Z := 1048576.
Definition MAX_BOTTOM_LEVEL_GEOMETRIES_COUNT : Z := 4096.

(** [sizeof( ShVertex )]: three [float[4]], one [float[2]], two [uint32_t]. *)
Definition sizeof_ShVertex : Z := 64.
Definition sizeof_uint32_t : Z := 4.
(** [sizeof( VkTransformMatrixKHR )]: [float[3][4]]. *)
Definition sizeof_VkTransformMatrixKHR : Z := 48.
(** [offsetof( ShVertex, position )]: the first member. *)
Definition offsetof_ShVertex_position : Z := 0.

Definition INDEX_BUFFER_SIZE : Z :=
  u32 (MAX_INDEXED_PRIMITIVE_COUNT * 3 * sizeof_uint32_t).
Definition TRANSFORM_BUFFER_SIZE : Z :=
  u32 (MAX_BOTTOM_LEVEL_GEOMETRIES_COUNT * sizeof_VkTransformMatrixKHR).

(** ** Declarations the collector is compiled against

    The filter-type header, the RTGL1 API types and the unique-id helper are
    not part of the translated sources; the collector is parametric in them. *)

Record RgMeshPrimitiveInfo (Vtx Tr : Type) := mkPrimitive {
  pVertices : list Vtx;            (* [nullptr] or empty: [[]] *)
  vertexCount : Z;
  pIndices : option (list Z);      (* [nullptr]: [None] *)
  indexCount : Z;
  transform : Tr;
}.
Arguments mkPrimitive {Vtx Tr}.
Arguments pVertices {Vtx Tr}.
Arguments vertexCount {Vtx Tr}.
Arguments pIndices {Vtx Tr}.
Arguments indexCount {Vtx Tr}.
Arguments transform {Vtx Tr}.

Record Platform := mkPlatform {
  RgPrimitiveVertex : Type;        (* layout-identical to [ShVertex] *)
  RgTransform : Type;              (* layout-identical to [VkTransformMatrixKHR] *)
  RgMeshInfo : Type;
  CF_STATIC_NON_MOVABLE : Z;
  CF_STATIC_MOVABLE : Z;
  CF_DYNAMIC : Z;
  PT_OPAQUE : Z;
  VertexCollectorFilterTypeFlags_GetForGeometry :
    RgMeshInfo -> RgMeshPrimitiveInfo RgPrimitiveVertex RgTransform -> Z;
  VertexCollectorFilterTypeFlags_GetAmountInGlobalArray : Z -> Z;
  (* the flags [VertexCollectorFilterTypeFlags_IterateOverFlags] passes to
     its callback, in order *)
  VertexCollectorFilterTypeFlags_IterateOverFlags : list Z;
  UniqueID_MakeForPrimitive :
    RgMeshInfo -> RgMeshPrimitiveInfo RgPrimitiveVertex RgTransform -> Z;
  GeomInfoManager_GetPrimitiveFlags :
    RgMeshPrimitiveInfo RgPrimitiveVertex RgTransform -> Z;
}.

(** ** Vulkan structures the collector fills *)

Inductive VkGeometryFlagsKHR :=
| VK_GEOMETRY_OPAQUE_BIT_KHR
| VK_GEOMETRY_NO_DUPLICATE_ANY_HIT_INVOCATION_BIT_KHR.

Inductive VkIndexType := VK_INDEX_TYPE_NONE_KHR | VK_INDEX_TYPE_UINT32.

Record VkAccelerationStructureGeometryKHR := mkGeometry {
  geometry_flags : VkGeometryFlagsKHR;
  vertexData_deviceAddress : Z;
  vertexStride : Z;
  maxVertex : Z;
  indexType : VkIndexType;
  indexData_deviceAddress : Z;
  transformData_deviceAddress : Z;
}.

Record VkAccelerationStructureBuildRangeInfoKHR := mkRangeInfo {
  primitiveCount : Z;
  primitiveOffset : Z;
  firstVertex : Z;
  transformOffset : Z;
}.

Inductive VkAccessFlagBits :=
| VK_ACCESS_TRANSFER_WRITE_BIT
| VK_ACCESS_SHADER_READ_BIT
| VK_ACCESS_SHADER_WRITE_BIT
| VK_ACCESS_ACCELERATION_STRUCTURE_READ_BIT_KHR.

Inductive VkPipelineStageFlagBits :=
| VK_PIPELINE_STAGE_TRANSFER_BIT
| VK_PIPELINE_STAGE_COMPUTE_SHADER_BIT
| VK_PIPELINE_STAGE_ACCELERATION_STRUCTURE_BUILD_BIT_KHR
| VK_PIPELINE_STAGE_RAY_TRACING_SHADER_BIT_KHR.

(** The six buffers of a collector. *)
Inductive BufferId :=
| stagingVertBuffer | stagingIndexBuffer | stagingTransformsBuffer
| vertBuffer | indexBuffer | transformsBuffer.

Record VkBufferCopy := mkBufferCopy {
  srcOffset : Z;
  dstOffset : Z;
  copy_size : Z;
}.

Record VkBufferMemoryBarrier := mkBarrier {
  srcAccessMask : list VkAccessFlagBits;
  dstAccessMask : list VkAccessFlagBits;
  barrier_buffer : BufferId;
  barrier_offset : Z;
  barrier_size : Z;
}.

Inductive Command :=
| vkCmdCopyBuffer (src dst : BufferId) (regions : list VkBufferCopy)
| vkCmdPipelineBarrier (srcStage dstStage : list VkPipelineStageFlagBits)
    (bufferBarriers : list VkBufferMemoryBarrier).

Definition VkCommandBuffer := list Command.

Definition is_copy (c : Command) : bool :=
  match c with vkCmdCopyBuffer _ _ _ => true | _ => false end.

(** ** Shader-visible geometry record (integer fields) *)

Record MaterialTextures := mkTextures { indices : Z * Z * Z }.

Definition tex0 (t : MaterialTextures) : Z := fst (fst (indices t)).
Definition tex1 (t : MaterialTextures) : Z := snd (fst (indices t)).
Definition tex2 (t : MaterialTextures) : Z := snd (indices t).

Record Layers (A : Type) := mkLayers {
  layer0 : A; layer1 : A; layer2 : A; layer3 : A;
}.
Arguments mkLayers {A}.
Arguments layer0 {A}.
Arguments layer1 {A}.
Arguments layer2 {A}.
Arguments layer3 {A}.

Record ShGeometryInstance := mkGeomInfo {
  flags : Z;
  base_textureA : Z;
  base_textureB : Z;
  base_textureC : Z;
  base_color : Z;
  layer1_texture : Z;
  layer1_color : Z;
  layer2_texture : Z;
  layer2_color : Z;
  lightmap_texture : Z;
  lightmap_color : Z;
  baseVertexIndex : Z;
  baseIndexIndex : Z;
  prevBaseVertexIndex : Z;         (* set later *)
  prevBaseIndexIndex : Z;          (* set later *)
  gi_vertexCount : Z;
  gi_indexCount : Z;
}.

(** ** Filter bucket *)

(** Modelled from the spec: the class [VertexCollectorFilter] (its source is
    not among the translated files).  A bucket owns three parallel ordered
    sequences; [PushGeometry] returns the zero-based local index it assigns,
    [PushRangeInfo] and [PushPrimitiveCount] append in lock-step,
    [GetGeometryCount] returns the current length and [Reset] clears the
    three sequences. *)
Record VertexCollectorFilter := mkFilter {
  filter : Z;
  asGeometries : list VkAccelerationStructureGeometryKHR;
  asBuildRangeInfos : list VkAccelerationStructureBuildRangeInfoKHR;
  primitiveCounts : list Z;
}.

Module Filter.

Definition create (filterGroup : Z) : VertexCollectorFilter :=
  mkFilter filterGroup [] [] [].

Definition GetFilter (f : VertexCollectorFilter) : Z := filter f.

Definition GetGeometryCount (f : VertexCollectorFilter) : Z :=
  u32 (Z.of_nat (length (asGeometries f))).

Definition PushGeometry (f : VertexCollectorFilter)
    (geom : VkAccelerationStructureGeometryKHR) : Z * VertexCollectorFilter :=
  (u32 (Z.of_nat (length (asGeometries f))),
   mkFilter (filter f) (asGeometries f ++ [geom])
     (asBuildRangeInfos f) (primitiveCounts f)).

Definition PushRangeInfo (f : VertexCollectorFilter)
    (rangeInfo : VkAccelerationStructureBuildRangeInfoKHR)
    : VertexCollectorFilter :=
  mkFilter (filter f) (asGeometries f)
    (asBuildRangeInfos f ++ [rangeInfo]) (primitiveCounts f).

Definition PushPrimitiveCount (f : VertexCollectorFilter) (primCount : Z)
    : VertexCollectorFilter :=
  mkFilter (filter f) (asGeometries f) (asBuildRangeInfos f)
    (primitiveCounts f ++ [primCount]).

Definition Reset (f : VertexCollectorFilter) : VertexCollectorFilter :=
  mkFilter (filter f) [] [] [].

End Filter.

(** ** Geometry-info registry *)

(** Modelled from the spec: the external geometry-info registry
    ([GeomInfoManager], not among the translated files).  It receives
    [(frameIndex, uniquePrimitiveId, localBLASIndex, filterKey, record)] and
    exposes [GetCount(frameIndex)], the number of records it holds for that
    frame.  The registry is kept as the list of records handed to it, newest
    last. *)
Record GeomInfoEntry := mkEntry {
  e_frameIndex : Z;
  e_uniqueID : Z;
  e_localIndex : Z;
  e_flags : Z;
  e_geomInfo : ShGeometryInstance;
}.

Definition GeomInfoManager := list GeomInfoEntry.

Module GeomInfoMgr.

Definition GetCount (mgr : GeomInfoManager) (frameIndex : Z) : Z :=
  u32 (Z.of_nat
    (length (List.filter (fun e => e_frameIndex e =? frameIndex) mgr))).

Definition WriteGeomInfo (mgr : GeomInfoManager)
    (frameIndex uniqueID localIndex flags : Z) (geomInfo : ShGeometryInstance)
    : GeomInfoManager :=
  mgr ++ [mkEntry frameIndex uniqueID localIndex flags geomInfo].

End GeomInfoMgr.

(** ** The collector *)

Section Collector.

Context (P : Platform).

Local Abbreviation Vertex := (RgPrimitiveVertex P).
Local Abbreviation Transform := (RgTransform P).
Local Abbreviation Primitive := (RgMeshPrimitiveInfo (RgPrimitiveVertex P) (RgTransform P)).

Record VertexCollector := mkCollector {
  filtersFlags : Z;
  (* device-local buffers: [GetSize()] of the vertex buffer and the three
     [GetAddress()] values *)
  vertBuffer_size : Z;
  vertBuffer_address : Z;
  indexBuffer_address : Z;
  transformsBuffer_address : Z;
  curVertexCount : Z;
  curIndexCount : Z;
  curPrimitiveCount : Z;
  curTransformCount : Z;
  mappedVertexData : gmap Z Vertex;
  mappedIndexData : gmap Z Z;
  mappedTransformData : gmap Z Transform;
  filters : gmap Z VertexCollectorFilter;
}.

Definition with_counters (vc : VertexCollector) (v i p t : Z) : VertexCollector :=
  mkCollector (filtersFlags vc) (vertBuffer_size vc) (vertBuffer_address vc)
    (indexBuffer_address vc) (transformsBuffer_address vc)
    v i p t
    (mappedVertexData vc) (mappedIndexData vc) (mappedTransformData vc)
    (filters vc).

Definition with_staging (vc : VertexCollector)
    (mv : gmap Z Vertex) (mi : gmap Z Z) (mt : gmap Z Transform)
    : VertexCollector :=
  mkCollector (filtersFlags vc) (vertBuffer_size vc) (vertBuffer_address vc)
    (indexBuffer_address vc) (transformsBuffer_address vc)
    (curVertexCount vc) (curIndexCount vc) (curPrimitiveCount vc)
    (curTransformCount vc)
    mv mi mt
    (filters vc).

Definition with_filters (vc : VertexCollector)
    (fs : gmap Z VertexCollectorFilter) : VertexCollector :=
  mkCollector (filtersFlags vc) (vertBuffer_size vc) (vertBuffer_address vc)
    (indexBuffer_address vc) (transformsBuffer_address vc)
    (curVertexCount vc) (curIndexCount vc) (curPrimitiveCount vc)
    (curTransformCount vc)
    (mappedVertexData vc) (mappedIndexData vc) (mappedTransformData vc)
    fs.

(** [memcpy( dst + off, src, n * sizeof( T ) )] on a mapped buffer of [size]
    bytes seen as an array of [T], [elem] bytes each: the first [n] elements
    of [src] land at [off], [off + 1], ...  The copy has a result only when
    the [n] elements written end inside the buffer and the array [src] holds
    the [n] elements read. *)
Fixpoint store {A : Type} (dst : gmap Z A) (off : Z) (src : list A) : gmap Z A :=
  match src with
  | [] => dst
  | x :: rest => store (<[off := x]> dst) (off + 1) rest
  end.

Definition in_buffer (size elem off n : Z) : bool := (off + n) * elem <=? size.

Definition memcpy {A : Type} (size elem : Z) (dst : gmap Z A) (off : Z)
    (src : list A) (n : Z) : option (gmap Z A) :=
  if in_buffer size elem off n && (n <=? Z.of_nat (length src))
  then Some (store dst off (take (Z.to_nat n) src))
  else None.                                     (* out of bounds *)

(** *** Construction *)

Definition AddFilter (fs : gmap Z VertexCollectorFilter) (filterGroup : Z)
    : option (gmap Z VertexCollectorFilter) :=
  if filterGroup =? 0 then Some fs
  else
    match fs !! filterGroup with
    | Some _ => None                      (* assert( find == end ) *)
    | None => Some (<[filterGroup := Filter.create filterGroup]> fs)
    end.

Fixpoint InitFilters_loop (fs : gmap Z VertexCollectorFilter) (flags : Z)
    (pairs : list Z) : option (gmap Z VertexCollectorFilter) :=
  match pairs with
  | [] => Some fs
  | f :: rest =>
      if Z.land flags f =? f
      then fs' ← AddFilter fs f; InitFilters_loop fs' flags rest
      else InitFilters_loop fs flags rest
  end.

Definition InitFilters (flags : Z) : option (gmap Z VertexCollectorFilter) :=
  InitFilters_loop ∅ flags (VertexCollectorFilterTypeFlags_IterateOverFlags P).

(** The primary constructor.  [_geomInfoManager] is the registry pointer:
    [None] for a null pointer, [Some mgr] for a pointer to a registry that
    holds the records [mgr]; the collector keeps the pointer, and each
    [AddPrimitive] is given what the registry holds at the time of the call.
    [_bufferSize] is the requested vertex-buffer size; the three addresses
    are the ones the allocator gave the device-local buffers.  The four
    asserts after the first are those of [InitStagingBuffers]; the staging
    buffers it creates have the sizes of the device-local ones. *)
Definition VertexCollector_new (_geomInfoManager : option GeomInfoManager)
    (_bufferSize : Z) (vaddr iaddr taddr : Z)
    (_filters : Z) : option VertexCollector :=
  if _filters =? 0 then None                                  (* assert *)
  else if negb ((0 <? _bufferSize) && (0 <? INDEX_BUFFER_SIZE)
                && (0 <? TRANSFORM_BUFFER_SIZE)) then None    (* asserts *)
  else if negb (bool_decide (is_Some _geomInfoManager)) then None   (* assert *)
  else
    fs ← InitFilters _filters;
    Some (mkCollector _filters _bufferSize vaddr iaddr taddr 0 0 0 0 ∅ ∅ ∅ fs).

(** The constructor of a view that shares the device-local buffers of
    [_src] and owns fresh staging buffers, counters and buckets.  Of the
    asserts of [InitStagingBuffers], those on the index buffer, the
    transforms buffer and the registry pointer held when [_src] was
    constructed, and the view takes all three from [_src]. *)
Definition VertexCollector_view (_src : VertexCollector) : option VertexCollector :=
  if negb (0 <? vertBuffer_size _src) then None               (* assert *)
  else
    fs ← InitFilters (filtersFlags _src);
    Some (mkCollector (filtersFlags _src) (vertBuffer_size _src)
            (vertBuffer_address _src) (indexBuffer_address _src)
            (transformsBuffer_address _src) 0 0 0 0 ∅ ∅ ∅ fs).

(** *** Bucket access *)

Definition GetGeometryCount (vc : VertexCollector) (type : Z) : option Z :=
  f ← filters vc !! type;                                     (* assert *)
  Some (Filter.GetGeometryCount f).

Definition PushGeometry (vc : VertexCollector) (type : Z)
    (geom : VkAccelerationStructureGeometryKHR) : option (Z * VertexCollector) :=
  f ← filters vc !! type;                                     (* assert *)
  let '(localIndex, f') := Filter.PushGeometry f geom in
  Some (localIndex, with_filters vc (<[type := f']> (filters vc))).

Definition PushRangeInfo (vc : VertexCollector) (type : Z)
    (rangeInfo : VkAccelerationStructureBuildRangeInfoKHR)
    : option VertexCollector :=
  f ← filters vc !! type;                                     (* assert *)
  Some (with_filters vc (<[type := Filter.PushRangeInfo f rangeInfo]> (filters vc))).

Definition PushPrimitiveCount (vc : VertexCollector) (type : Z) (primCount : Z)
    : option VertexCollector :=
  f ← filters vc !! type;                                     (* assert *)
  Some (with_filters vc
          (<[type := Filter.PushPrimitiveCount f primCount]> (filters vc))).

Definition GetAllGeometryCount (vc : VertexCollector) : Z :=
  fold_left (fun count kf => u32 (count + Filter.GetGeometryCount (snd kf)))
    (map_to_list (filters vc)) 0.

Definition GetCurrentVertexCount (vc : VertexCollector) : Z := curVertexCount vc.
Definition GetCurrentIndexCount (vc : VertexCollector) : Z := curIndexCount vc.

Definition GetPrimitiveCounts (vc : VertexCollector) (type : Z) : option (list Z) :=
  f ← filters vc !! type; Some (primitiveCounts f).

Definition GetASGeometries (vc : VertexCollector) (type : Z)
    : option (list VkAccelerationStructureGeometryKHR) :=
  f ← filters vc !! type; Some (asGeometries f).

Definition GetASBuildRangeInfos (vc : VertexCollector) (type : Z)
    : option (list VkAccelerationStructureBuildRangeInfoKHR) :=
  f ← filters vc !! type; Some (asBuildRangeInfos f).

Fixpoint AreGeometriesEmpty_loop (fs : list (Z * VertexCollectorFilter))
    (flags : Z) : bool :=
  match fs with
  | [] => true
  | p :: rest =>
      let f := snd p in
      if negb (Z.land (Filter.GetFilter f) flags =? 0)
         && (0 <? Filter.GetGeometryCount f)
      then false
      else AreGeometriesEmpty_loop rest flags
  end.

Definition AreGeometriesEmpty (vc : VertexCollector) (flags : Z) : bool :=
  AreGeometriesEmpty_loop (map_to_list (filters vc)) flags.

(** *** Reset *)

Definition Reset (vc : VertexCollector) : VertexCollector :=
  with_filters (with_counters vc 0 0 0 0) (Filter.Reset <$> filters vc).

(** *** AddPrimitive *)

Definition AlignUpBy3 (x : Z) : Z := u32 (u32 (u32 (x + 2) / 3) * 3).

Inductive DebugError :=
| TooManyGeometriesInGroup (geomFlags limit : Z)
| TooManyStaticVertices (limit : Z)
| TooManyDynamicVertices (limit : Z)
| TooManyIndices (limit : Z)
| TooManyGeomInfos (limit : Z).

(** How a call that ran to its [return] ended: [Accepted] is [return true],
    [Rejected e] is [return false] after [debug::Error] logged [e]. *)
Inductive AddOutcome := Accepted | Rejected (e : DebugError).

Definition returned (o : AddOutcome) : bool :=
  match o with Accepted => true | Rejected _ => false end.

(** The locals of lines 208-219. *)
Definition collectStatic (geomFlags : Z) : bool :=
  negb (Z.land geomFlags (Z.lor (CF_STATIC_NON_MOVABLE P) (CF_STATIC_MOVABLE P)) =? 0).

Definition maxVertexCount (geomFlags : Z) : Z :=
  if collectStatic geomFlags then MAX_STATIC_VERTEX_COUNT else MAX_DYNAMIC_VERTEX_COUNT.

Definition useIndices (info : Primitive) : bool :=
  negb (indexCount info =? 0) && bool_decide (is_Some (pIndices info)).

Definition triangleCount (info : Primitive) : Z :=
  if useIndices info then indexCount info / 3 else vertexCount info / 3.

Definition vertIndex (vc : VertexCollector) : Z := AlignUpBy3 (curVertexCount vc).
Definition indIndex (vc : VertexCollector) : Z := AlignUpBy3 (curIndexCount vc).
Definition transformIndex (vc : VertexCollector) : Z := curTransformCount vc.

(** Lines 221-224: the four counters move on. *)
Definition advance (vc : VertexCollector) (info : Primitive) : VertexCollector :=
  with_counters vc
    (u32 (vertIndex vc + vertexCount info))
    (u32 (indIndex vc + (if useIndices info then indexCount info else 0)))
    (u32 (curPrimitiveCount vc + triangleCount info))
    (u32 (curTransformCount vc + 1)).

(** [vc] has its counters already advanced; [vertIndex] is the insertion
    offset computed before. *)
Definition CopyDataToStaging (vc : VertexCollector) (info : Primitive)
    (vertIndex : Z) : option VertexCollector :=
  if u64 (u32 (vertIndex + vertexCount info) * sizeof_ShVertex) <? vertBuffer_size vc
  then
    mv ← memcpy (vertBuffer_size vc) sizeof_ShVertex (mappedVertexData vc)
           vertIndex (pVertices info) (vertexCount info);
    Some (with_staging vc mv (mappedIndexData vc) (mappedTransformData vc))
  else None.                                                      (* assert *)

Definition make_geom (vc : VertexCollector) (geomFlags : Z) (info : Primitive)
    (vertIndex indIndex transformIndex : Z) : VkAccelerationStructureGeometryKHR :=
  mkGeometry
    (if negb (Z.land geomFlags (PT_OPAQUE P) =? 0)
     then VK_GEOMETRY_OPAQUE_BIT_KHR
     else VK_GEOMETRY_NO_DUPLICATE_ANY_HIT_INVOCATION_BIT_KHR)
    (u64 (u64 (vertBuffer_address vc + u64 (vertIndex * sizeof_ShVertex))
          + offsetof_ShVertex_position))
    sizeof_ShVertex
    (vertexCount info)
    (if useIndices info then VK_INDEX_TYPE_UINT32 else VK_INDEX_TYPE_NONE_KHR)
    (if useIndices info
     then u64 (indexBuffer_address vc + u64 (indIndex * sizeof_uint32_t))
     else 0)
    (u64 (transformsBuffer_address vc
          + u64 (transformIndex * sizeof_VkTransformMatrixKHR))).

Definition make_geomInfo (info : Primitive)
    (layerTextures : Layers MaterialTextures) (layerColors : Layers Z)
    (vertIndex indIndex : Z) : ShGeometryInstance :=
  {| flags := GeomInfoManager_GetPrimitiveFlags P info;
     base_textureA := tex0 (layer0 layerTextures);
     base_textureB := tex1 (layer0 layerTextures);
     base_textureC := tex2 (layer0 layerTextures);
     base_color := layer0 layerColors;
     layer1_texture := tex0 (layer1 layerTextures);
     layer1_color := layer1 layerColors;
     layer2_texture := tex0 (layer2 layerTextures);
     layer2_color := layer2 layerColors;
     lightmap_texture := tex0 (layer3 layerTextures);
     lightmap_color := layer3 layerColors;
     baseVertexIndex := vertIndex;
     baseIndexIndex := if useIndices info then indIndex else UINT32_MAX;
     prevBaseVertexIndex := 0;
     prevBaseIndexIndex := 0;
     gi_vertexCount := vertexCount info;
     gi_indexCount := if useIndices info then indexCount info else UINT32_MAX |}.

(** Lines 263-273: the indices, when there are any, and the transform go to
    their staging buffers, of [INDEX_BUFFER_SIZE] and [TRANSFORM_BUFFER_SIZE]
    bytes.  [vc0] is the collector on entry (its counters give the insertion
    offsets). *)
Definition copy_indices_and_transform (vc0 vc : VertexCollector)
    (info : Primitive) : option VertexCollector :=
  vc2 ← (if useIndices info
         then
           mi ← memcpy INDEX_BUFFER_SIZE sizeof_uint32_t (mappedIndexData vc)
                  (indIndex vc0) (default [] (pIndices info)) (indexCount info);
           Some (with_staging vc (mappedVertexData vc) mi (mappedTransformData vc))
         else Some vc);
  mt ← memcpy TRANSFORM_BUFFER_SIZE sizeof_VkTransformMatrixKHR
         (mappedTransformData vc2) (transformIndex vc0) [transform info] 1;
  Some (with_staging vc2 (mappedVertexData vc2) (mappedIndexData vc2) mt).

(** Lines 257-373: everything after the capacity checks.  [vc0] is the
    collector on entry, [vc] the collector with the counters advanced. *)
Definition commit (mgr : GeomInfoManager) (vc0 vc : VertexCollector)
    (frameIndex : Z) (parentMesh : RgMeshInfo P) (info : Primitive)
    (layerTextures : Layers MaterialTextures) (layerColors : Layers Z)
    (geomFlags : Z) : option (GeomInfoManager * VertexCollector) :=
  vc1 ← CopyDataToStaging vc info (vertIndex vc0);
  vc3 ← copy_indices_and_transform vc0 vc1 info;
  let geom :=
    make_geom vc3 geomFlags info (vertIndex vc0) (indIndex vc0) (transformIndex vc0) in
  '(localIndex, vc4) ← PushGeometry vc3 geomFlags geom;
  vc5 ← PushRangeInfo vc4 geomFlags (mkRangeInfo (triangleCount info) 0 0 0);
  vc6 ← PushPrimitiveCount vc5 geomFlags (triangleCount info);
  let geomInfo :=
    make_geomInfo info layerTextures layerColors (vertIndex vc0) (indIndex vc0) in
  Some (GeomInfoMgr.WriteGeomInfo mgr frameIndex
          (UniqueID_MakeForPrimitive P parentMesh info) localIndex geomFlags geomInfo,
        vc6).

Definition AddPrimitive (mgr : GeomInfoManager) (vc : VertexCollector)
    (frameIndex : Z) (parentMesh : RgMeshInfo P) (info : Primitive)
    (layerTextures : Layers MaterialTextures) (layerColors : Layers Z)
    : option (AddOutcome * GeomInfoManager * VertexCollector) :=
  let geomFlags := VertexCollectorFilterTypeFlags_GetForGeometry P parentMesh info in
  let limit := VertexCollectorFilterTypeFlags_GetAmountInGlobalArray P geomFlags in
  count ← GetGeometryCount vc geomFlags;
  if u32 (count + 1) >=? limit
  then Some (Rejected (TooManyGeometriesInGroup geomFlags limit), mgr, vc)
  else
    let vc' := advance vc info in
    if curVertexCount vc' >=? maxVertexCount geomFlags
    then Some (Rejected (if collectStatic geomFlags
                         then TooManyStaticVertices (maxVertexCount geomFlags)
                         else TooManyDynamicVertices (maxVertexCount geomFlags)),
               mgr, vc')
    else if curIndexCount vc' >=? u32 (MAX_INDEXED_PRIMITIVE_COUNT * 3)
    then Some (Rejected (TooManyIndices (u32 (MAX_INDEXED_PRIMITIVE_COUNT * 3))),
               mgr, vc')
    else if u32 (GeomInfoMgr.GetCount mgr frameIndex + 1)
              >=? MAX_BOTTOM_LEVEL_GEOMETRIES_COUNT
    then Some (Rejected (TooManyGeomInfos MAX_BOTTOM_LEVEL_GEOMETRIES_COUNT),
               mgr, vc')
    else
      '(mgr', vc'') ← commit mgr vc vc' frameIndex parentMesh info
                        layerTextures layerColors geomFlags;
      Some (Accepted, mgr', vc'').

(** *** Copies from staging *)

Definition CopyVertexDataFromStaging (vc : VertexCollector) (cmd : VkCommandBuffer)
    : bool * VkCommandBuffer :=
  if curVertexCount vc =? 0 then (false, cmd)
  else (true,
        cmd ++ [vkCmdCopyBuffer stagingVertBuffer vertBuffer
                  [mkBufferCopy 0 0 (u64 (curVertexCount vc * sizeof_ShVertex))]]).

Definition CopyIndexDataFromStaging (vc : VertexCollector) (cmd : VkCommandBuffer)
    : bool * VkCommandBuffer :=
  if curIndexCount vc =? 0 then (false, cmd)
  else (true,
        cmd ++ [vkCmdCopyBuffer stagingIndexBuffer indexBuffer
                  [mkBufferCopy 0 0 (u64 (curIndexCount vc * sizeof_uint32_t))]]).

Definition transformsBarrier (vc : VertexCollector) : Command :=
  vkCmdPipelineBarrier
    [VK_PIPELINE_STAGE_TRANSFER_BIT]
    [VK_PIPELINE_STAGE_ACCELERATION_STRUCTURE_BUILD_BIT_KHR]
    [mkBarrier [VK_ACCESS_TRANSFER_WRITE_BIT]
       [VK_ACCESS_ACCELERATION_STRUCTURE_READ_BIT_KHR]
       transformsBuffer 0
       (u64 (curTransformCount vc * sizeof_VkTransformMatrixKHR))].

Definition CopyTransformsFromStaging (vc : VertexCollector) (cmd : VkCommandBuffer)
    (insertMemBarrier : bool) : bool * VkCommandBuffer :=
  if curTransformCount vc =? 0 then (false, cmd)
  else
    let cmd1 :=
      cmd ++ [vkCmdCopyBuffer stagingTransformsBuffer transformsBuffer
                [mkBufferCopy 0 0
                   (u64 (curTransformCount vc * sizeof_VkTransformMatrixKHR))]] in
    (true, if insertMemBarrier then cmd1 ++ [transformsBarrier vc] else cmd1).

Definition CopyFromStaging (vc : VertexCollector) (cmd : VkCommandBuffer)
    : bool * VkCommandBuffer :=
  let '(vrtCopied, cmd1) := CopyVertexDataFromStaging vc cmd in
  let '(indCopied, cmd2) := CopyIndexDataFromStaging vc cmd1 in
  let '(trnCopied, cmd3) := CopyTransformsFromStaging vc cmd2 false in
  let barriers0 : list VkBufferMemoryBarrier := [] in
  let barriers1 :=
    if vrtCopied
    then barriers0 ++
           [mkBarrier [VK_ACCESS_TRANSFER_WRITE_BIT]
              [VK_ACCESS_SHADER_READ_BIT; VK_ACCESS_SHADER_WRITE_BIT]
              vertBuffer 0 (u64 (curVertexCount vc * sizeof_ShVertex))]
    else barriers0 in
  let barriers2 :=
    if indCopied
    then barriers1 ++
           [mkBarrier [VK_ACCESS_TRANSFER_WRITE_BIT]
              [VK_ACCESS_SHADER_READ_BIT; VK_ACCESS_SHADER_WRITE_BIT]
              indexBuffer 0 (u64 (curIndexCount vc * sizeof_uint32_t))]
    else barriers1 in
  let cmd4 :=
    if 0 <? Z.of_nat (length barriers2)
    then cmd3 ++ [vkCmdPipelineBarrier
                    [VK_PIPELINE_STAGE_TRANSFER_BIT]
                    [VK_PIPELINE_STAGE_COMPUTE_SHADER_BIT;
                     VK_PIPELINE_STAGE_ACCELERATION_STRUCTURE_BUILD_BIT_KHR]
                    barriers2]
    else cmd3 in
  let cmd5 := if trnCopied then cmd4 ++ [transformsBarrier vc] else cmd4 in
  (vrtCopied || indCopied || trnCopied, cmd5).

End Collector.


(** ** Sequences of submissions, reachable collectors, invariants *)

Section Runs.

Context (P : Platform).

Local Abbreviation Primitive := (RgMeshPrimitiveInfo (RgPrimitiveVertex P) (RgTransform P)).
Local Abbreviation cap := (VertexCollectorFilterTypeFlags_GetAmountInGlobalArray P).

(** The arguments of one [AddPrimitive] call. *)
Record Submission := mkSubmission {
  s_frameIndex : Z;
  s_parentMesh : RgMeshInfo P;
  s_info : Primitive;
  s_layerTextures : Layers MaterialTextures;
  s_layerColors : Layers Z;
}.

Definition key_of (s : Submission) : Z :=
  VertexCollectorFilterTypeFlags_GetForGeometry P (s_parentMesh s) (s_info s).

Definition submit (mgr : GeomInfoManager) (vc : VertexCollector P) (s : Submission)
    : option (AddOutcome * GeomInfoManager * VertexCollector P) :=
  AddPrimitive P mgr vc (s_frameIndex s) (s_parentMesh s) (s_info s)
    (s_layerTextures s) (s_layerColors s).

(** What one call showed: how it ended and, when it got as far as line 214,
    the insertion offsets [(vertIndex, indIndex, transformIndex)] it took. *)
Record Step := mkStep {
  outcome : AddOutcome;
  offsets : option (Z * Z * Z);
}.

Definition offsets_taken (vc : VertexCollector P) (o : AddOutcome)
    : option (Z * Z * Z) :=
  match o with
  | Rejected (TooManyGeometriesInGroup _ _) => None
  | _ => Some (vertIndex P vc, indIndex P vc, transformIndex P vc)
  end.

(** The calls of [subs], one after the other, on the same collector and
    registry.  [None]: one of the calls had no result. *)
Fixpoint run (mgr : GeomInfoManager) (vc : VertexCollector P) (subs : list Submission)
    : option (list Step * GeomInfoManager * VertexCollector P) :=
  match subs with
  | [] => Some ([], mgr, vc)
  | s :: rest =>
      '(o, mgr1, vc1) ← submit mgr vc s;
      '(steps, mgr2, vc2) ← run mgr1 vc1 rest;
      Some (mkStep o (offsets_taken vc o) :: steps, mgr2, vc2)
  end.

Definition trace (mgr : GeomInfoManager) (vc : VertexCollector P)
    (subs : list Submission) : option (list Step) :=
  (fun r => fst (fst r)) <$> run mgr vc subs.

Definition all_accepted (steps : list Step) : Prop :=
  Forall (fun st => outcome st = Accepted) steps.

(** The index count a primitive contributes: none when it is not indexed. *)
Definition indices_used (info : Primitive) : Z :=
  if useIndices P info then indexCount info else 0.

Fixpoint sum_of (f : Submission -> Z) (subs : list Submission) : Z :=
  match subs with
  | [] => 0
  | s :: rest => f s + sum_of f rest
  end.

(** Collectors that calls of [AddPrimitive] (whatever the registry holds at
    each call) and of [Reset] lead to from [vc0]. *)
Inductive reachable (vc0 : VertexCollector P) : VertexCollector P -> Prop :=
| reach_init : reachable vc0 vc0
| reach_add mgr vc s o mgr' vc' :
    reachable vc0 vc -> submit mgr vc s = Some (o, mgr', vc') -> reachable vc0 vc'
| reach_reset vc :
    reachable vc0 vc -> reachable vc0 (Reset P vc).

(** The capacity table returns [uint32_t]. *)
Definition Platform_ok : Prop := forall k, is_u32 (cap k).

Definition bucket_len (f : VertexCollectorFilter) : Z :=
  Z.of_nat (length (asGeometries f)).

Definition wf_bucket (k : Z) (f : VertexCollectorFilter) : Prop :=
  filter f = k
  /\ length (asBuildRangeInfos f) = length (asGeometries f)
  /\ length (primitiveCounts f) = length (asGeometries f)
  /\ (bucket_len f = 0 \/ bucket_len f < cap k).

Definition wf (vc : VertexCollector P) : Prop :=
  is_u32 (curVertexCount P vc) /\ is_u32 (curIndexCount P vc)
  /\ is_u32 (curPrimitiveCount P vc) /\ is_u32 (curTransformCount P vc)
  /\ forall k f, filters P vc !! k = Some f -> wf_bucket k f.

(** Two collectors that differ at most in what their staging memory holds. *)
Definition same_but_staging (a b : VertexCollector P) : Prop :=
  filtersFlags P a = filtersFlags P b
  /\ vertBuffer_size P a = vertBuffer_size P b
  /\ vertBuffer_address P a = vertBuffer_address P b
  /\ indexBuffer_address P a = indexBuffer_address P b
  /\ transformsBuffer_address P a = transformsBuffer_address P b
  /\ curVertexCount P a = curVertexCount P b
  /\ curIndexCount P a = curIndexCount P b
  /\ curPrimitiveCount P a = curPrimitiveCount P b
  /\ curTransformCount P a = curTransformCount P b
  /\ filters P a = filters P b.

(** The copies of one [CopyFromStaging], as the specification words them:
    one per counter that is not zero, of counter times element size bytes. *)
Definition copies_in_use (vc : VertexCollector P) : list Command :=
  (if curVertexCount P vc =? 0 then []
   else [vkCmdCopyBuffer stagingVertBuffer vertBuffer
           [mkBufferCopy 0 0 (curVertexCount P vc * sizeof_ShVertex)]])
  ++ (if curIndexCount P vc =? 0 then []
      else [vkCmdCopyBuffer stagingIndexBuffer indexBuffer
              [mkBufferCopy 0 0 (curIndexCount P vc * sizeof_uint32_t)]])
  ++ (if curTransformCount P vc =? 0 then []
      else [vkCmdCopyBuffer stagingTransformsBuffer transformsBuffer
              [mkBufferCopy 0 0
                 (curTransformCount P vc * sizeof_VkTransformMatrixKHR)]]).

Definition no_counts (vc : VertexCollector P) : Prop :=
  curVertexCount P vc = 0 /\ curIndexCount P vc = 0 /\ curTransformCount P vc = 0.

(** What [AddPrimitive] returns, the states left aside. *)
Definition AddPrimitive_returns (mgr : GeomInfoManager) (vc : VertexCollector P)
    (s : Submission) : option bool :=
  (fun r => returned (fst (fst r))) <$> submit mgr vc s.

End Runs.

Arguments mkSubmission {P}.
Arguments s_frameIndex {P}.
Arguments s_parentMesh {P}.
Arguments s_info {P}.
Arguments s_layerTextures {P}.
Arguments s_layerColors {P}.

(** ** A small instance

    Three axes of flag bits as in the filter-type header (change frequency
    in bits 0-2, pass-through from bit 3, primary visibility from bit 6);
    the mesh descriptor is reduced to the filter key it yields, vertices and
    transforms to numbers, and every group has room for three geometries. *)
Module Small.

Definition static_opaque_world : Z := 73.    (* 1 | 8 | 64 *)
Definition dynamic_opaque_world : Z := 76.   (* 4 | 8 | 64 *)

Definition platform : Platform :=
  {| RgPrimitiveVertex := Z;
     RgTransform := Z;
     RgMeshInfo := Z;
     CF_STATIC_NON_MOVABLE := 1;
     CF_STATIC_MOVABLE := 2;
     CF_DYNAMIC := 4;
     PT_OPAQUE := 8;
     VertexCollectorFilterTypeFlags_GetForGeometry := fun mesh _ => mesh;
     VertexCollectorFilterTypeFlags_GetAmountInGlobalArray := fun _ => 3;
     VertexCollectorFilterTypeFlags_IterateOverFlags :=
       [static_opaque_world; 74; dynamic_opaque_world];
     UniqueID_MakeForPrimitive := fun mesh info => mesh;
     GeomInfoManager_GetPrimitiveFlags := fun _ => 0 |}.

Definition no_layers : Layers MaterialTextures :=
  mkLayers (mkTextures (0, 0, 0)) (mkTextures (0, 0, 0))
    (mkTextures (0, 0, 0)) (mkTextures (0, 0, 0)).

Definition white : Layers Z :=
  mkLayers UINT32_MAX UINT32_MAX UINT32_MAX UINT32_MAX.

(** A triangle without indices. *)
Definition triangle : RgMeshPrimitiveInfo Z Z := mkPrimitive [10; 11; 12] 3 None 0 7.

(** A quad: four vertices, two indexed triangles. *)
Definition quad : RgMeshPrimitiveInfo Z Z :=
  mkPrimitive [20; 21; 22; 23] 4 (Some [0; 1; 2; 2; 3; 0]) 6 7.

Definition sub (key : Z) (info : RgMeshPrimitiveInfo Z Z) : Submission platform :=
  mkSubmission (P := platform) 0 key info no_layers white.

(** A collector for static geometry, with room for the static maximum. *)
Definition fresh : option (VertexCollector platform) :=
  VertexCollector_new platform (Some []) (MAX_STATIC_VERTEX_COUNT * sizeof_ShVertex)
    4096 8192 12288 (Z.lor 1 (Z.lor 8 64)).

Definition fresh_dynamic : option (VertexCollector platform) :=
  VertexCollector_new platform (Some []) (MAX_DYNAMIC_VERTEX_COUNT * sizeof_ShVertex)
    4096 8192 12288 (Z.lor 4 (Z.lor 8 64)).

Definition empty_collector : VertexCollector platform :=
  mkCollector platform 0 0 0 0 0 0 0 0 0 ∅ ∅ ∅ ∅.

(** The collector and the registry after the calls of [subs] on [fresh] and
    an empty registry. *)
Definition collector_after (subs : list (Submission platform))
    : VertexCollector platform :=
  default empty_collector
    (vc ← fresh; r ← run platform [] vc subs; Some (snd r)).

Definition registry_after (subs : list (Submission platform)) : GeomInfoManager :=
  default [] (vc ← fresh; r ← run platform [] vc subs; Some (snd (fst r))).

(** A registry one record short of the BLAS-geometry maximum for frame 0. *)
Definition crowded_registry : GeomInfoManager :=
  repeat (mkEntry 0 0 0 static_opaque_world
            (make_geomInfo platform triangle no_layers white 0 0))
    (Z.to_nat (MAX_BOTTOM_LEVEL_GEOMETRIES_COUNT - 1)).

(** The inputs of the examples below. *)
Definition tri : Submission platform := sub static_opaque_world triangle.
Definition quad_sub : Submission platform := sub static_opaque_world quad.

Definition vc_fresh : VertexCollector platform := collector_after [].
Definition vc_one : VertexCollector platform := collector_after [tri].
Definition mgr_one : GeomInfoManager := registry_after [tri].
Definition vc_two : VertexCollector platform := collector_after [tri; tri].
Definition mgr_two : GeomInfoManager := registry_after [tri; tri].
Definition bucket_two : VertexCollectorFilter :=
  default (Filter.create static_opaque_world)
    (filters platform vc_two !! static_opaque_world).

(** A static collector three vertices short of the last count it accepts. *)
Definition vc_nearly_full : VertexCollector platform :=
  with_counters platform vc_fresh (MAX_STATIC_VERTEX_COUNT - 4) 0 0 1.

End Small.

(** The bucket after the three lock-step appends of one accepted call. *)
Definition pushed (f : VertexCollectorFilter)
    (geom : VkAccelerationStructureGeometryKHR) (tri : Z) : VertexCollectorFilter :=
  Filter.PushPrimitiveCount
    (Filter.PushRangeInfo (snd (Filter.PushGeometry f geom)) (mkRangeInfo tri 0 0 0))
    tri.

Section Checks.

Context (P : Platform).

(** The check of lines 195-196 on the bucket of the submitted key. *)
Definition group_full (f : VertexCollectorFilter) (k : Z) : bool :=
  u32 (Filter.GetGeometryCount f + 1)
    >=? VertexCollectorFilterTypeFlags_GetAmountInGlobalArray P k.

(** The three checks of lines 229-253, on the counters a call would leave. *)
Definition new_vertex_count (vc : VertexCollector P) (s : Submission P) : Z :=
  curVertexCount P (advance P vc (s_info s)).
Definition new_index_count (vc : VertexCollector P) (s : Submission P) : Z :=
  curIndexCount P (advance P vc (s_info s)).
Definition new_geom_info_count (mgr : GeomInfoManager) (s : Submission P) : Z :=
  u32 (GeomInfoMgr.GetCount mgr (s_frameIndex s) + 1).

Definition within_limits (mgr : GeomInfoManager) (vc : VertexCollector P)
    (s : Submission P) : bool :=
  (new_vertex_count vc s <? maxVertexCount P (key_of P s))
  && (new_index_count vc s <? u32 (MAX_INDEXED_PRIMITIVE_COUNT * 3))
  && (new_geom_info_count mgr s <? MAX_BOTTOM_LEVEL_GEOMETRIES_COUNT).

(** The assert of line 379, on the counters a call finds. *)
Definition vertices_end_inside (vc : VertexCollector P) (s : Submission P) : bool :=
  u64 (u32 (vertIndex P vc + vertexCount (s_info s)) * sizeof_ShVertex)
    <? vertBuffer_size P vc.

(** The copies of lines 392, 266 and 272 write inside their staging buffers
    and read inside the caller's arrays. *)
Definition copies_fit (vc : VertexCollector P) (s : Submission P) : bool :=
  let info := s_info s in
  (in_buffer (vertBuffer_size P vc) sizeof_ShVertex (vertIndex P vc) (vertexCount info)
   && (vertexCount info <=? Z.of_nat (length (pVertices info))))
  && (if useIndices P info
      then in_buffer INDEX_BUFFER_SIZE sizeof_uint32_t (indIndex P vc) (indexCount info)
           && (indexCount info <=? Z.of_nat (length (default [] (pIndices info))))
      else true)
  && in_buffer TRANSFORM_BUFFER_SIZE sizeof_VkTransformMatrixKHR
       (transformIndex P vc) 1.

(** A call whose arrays hold the counts they come with, whose sums of lines
    221-222 do not wrap around 32 bits, and which finds a free slot in the
    transforms buffer. *)
Definition regular_call (vc : VertexCollector P) (s : Submission P) : Prop :=
  let info := s_info s in
  0 <= vertexCount info <= Z.of_nat (length (pVertices info))
  /\ vertIndex P vc + vertexCount info < 2 ^ 32
  /\ (useIndices P info = true ->
      0 <= indexCount info <= Z.of_nat (length (default [] (pIndices info)))
      /\ indIndex P vc + indexCount info < 2 ^ 32)
  /\ transformIndex P vc < MAX_BOTTOM_LEVEL_GEOMETRIES_COUNT.

Definition is_group_rejection (o : AddOutcome) : bool :=
  match o with
  | Rejected (TooManyGeometriesInGroup _ _) => true
  | _ => false
  end.

Definition counters (vc : VertexCollector P) : Z * Z * Z * Z :=
  (curVertexCount P vc, curIndexCount P vc, curPrimitiveCount P vc,
   curTransformCount P vc).

End Checks.

Section Simulation.

Context (P : Platform).

(** Every bucket is as [AddFilter] made it. *)
Definition all_created (fs : gmap Z VertexCollectorFilter) : Prop :=
  forall k f, fs !! k = Some f -> f = Filter.create k.

(** Two results of [AddPrimitive] that agree up to staging memory. *)
Definition same_result
    (r1 r2 : option (AddOutcome * GeomInfoManager * VertexCollector P)) : Prop :=
  match r1, r2 with
  | Some (o1, m1, v1), Some (o2, m2, v2) =>
      o1 = o2 /\ m1 = m2 /\ same_but_staging P v1 v2
  | None, None => True
  | _, _ => False
  end.

End Simulation.

Section Configuration.

Context (P : Platform).

(** What construction fixes for the life of a collector. *)
Definition same_config (a b : VertexCollector P) : Prop :=
  filtersFlags P a = filtersFlags P b
  /\ vertBuffer_size P a = vertBuffer_size P b
  /\ vertBuffer_address P a = vertBuffer_address P b
  /\ indexBuffer_address P a = indexBuffer_address P b
  /\ transformsBuffer_address P a = transformsBuffer_address P b.

(** A collector as one of the two constructors leaves it. *)
Definition constructed (vc : VertexCollector P) : Prop :=
  (exists _geomInfoManager _bufferSize vaddr iaddr taddr _filters,
      VertexCollector_new P _geomInfoManager _bufferSize vaddr iaddr taddr _filters
      = Some vc)
  \/ (exists _src, VertexCollector_view P _src = Some vc).

Definition bucket_is_empty (f : VertexCollectorFilter) : Prop :=
  asGeometries f = [] /\ asBuildRangeInfos f = [] /\ primitiveCounts f = [].

End Configuration.

Section Sums.

Context (P : Platform).

(** The counts of a submission are [uint32_t] values. *)
Definition counts_u32 (s : Submission P) : Prop :=
  is_u32 (vertexCount (s_info s)) /\ is_u32 (indexCount (s_info s)).

Definition vertices_of (s : Submission P) : Z := vertexCount (s_info s).
Definition indices_of (s : Submission P) : Z := indices_used P (s_info s).
Definition triangles_of (s : Submission P) : Z := triangleCount P (s_info s).

(** A counter that starts at [c] and, for each submission, is rounded up to
    a multiple of 3 and then moved on by the count of the submission. *)
Fixpoint padded (count : Submission P -> Z) (c : Z) (subs : list (Submission P))
    : Z :=
  match subs with
  | [] => c
  | s :: rest => padded count (c + (- c) mod 3 + count s) rest
  end.

(** No call of [subs] has to round its insertion offset up: every count but
    the last is a multiple of 3. *)
Definition no_padding (count : Submission P -> Z) (subs : list (Submission P))
    : Prop :=
  Forall (fun s => count s mod 3 = 0) (removelast subs).

End Sums.

(** ** The barrier after vertex preprocessing *)

Section Barriers.

Context (P : Platform).

(** Barriers were already inserted in [CopyFromStaging]. *)
Definition InsertVertexPreprocessBeginBarrier (vc : VertexCollector P)
    (cmd : VkCommandBuffer) : VkCommandBuffer := cmd.

Definition InsertVertexPreprocessFinishBarrier (vc : VertexCollector P)
    (cmd : VkCommandBuffer) : VkCommandBuffer :=
  let barriers0 : list VkBufferMemoryBarrier := [] in
  let barriers1 :=
    if 0 <? curVertexCount P vc
    then barriers0 ++
           [mkBarrier [VK_ACCESS_SHADER_READ_BIT; VK_ACCESS_SHADER_WRITE_BIT]
              [VK_ACCESS_ACCELERATION_STRUCTURE_READ_BIT_KHR; VK_ACCESS_SHADER_READ_BIT]
              vertBuffer 0 (u64 (curVertexCount P vc * sizeof_ShVertex))]
    else barriers0 in
  let barriers2 :=
    if 0 <? curIndexCount P vc
    then barriers1 ++
           [mkBarrier [VK_ACCESS_SHADER_READ_BIT; VK_ACCESS_SHADER_WRITE_BIT]
              [VK_ACCESS_ACCELERATION_STRUCTURE_READ_BIT_KHR; VK_ACCESS_SHADER_READ_BIT]
              indexBuffer 0 (u64 (curIndexCount P vc * sizeof_uint32_t))]
    else barriers1 in
  if Z.of_nat (length barriers2) =? 0 then cmd
  else cmd ++ [vkCmdPipelineBarrier
                 [VK_PIPELINE_STAGE_COMPUTE_SHADER_BIT]
                 [VK_PIPELINE_STAGE_ACCELERATION_STRUCTURE_BUILD_BIT_KHR;
                  VK_PIPELINE_STAGE_RAY_TRACING_SHADER_BIT_KHR]
                 barriers2].

(** The buffer barriers a list of commands holds, in order. *)
Definition buffer_barriers (cmds : list Command) : list VkBufferMemoryBarrier :=
  flat_map (fun c => match c with
                     | vkCmdPipelineBarrier _ _ bs => bs
                     | vkCmdCopyBuffer _ _ _ => []
                     end) cmds.

(** The commands that name the transforms buffer. *)
Definition on_transforms (c : Command) : bool :=
  match c with
  | vkCmdCopyBuffer _ transformsBuffer _ => true
  | vkCmdCopyBuffer _ _ _ => false
  | vkCmdPipelineBarrier _ _ bs =>
      existsb (fun b => match barrier_buffer b with
                        | transformsBuffer => true
                        | _ => false
                        end) bs
  end.

(** A copy to [dst] of [n] bytes is made visible by a later barrier of
    [cmds]: one on [dst], from transfer-write access, of [n] bytes. *)
Fixpoint copies_guarded (cmds : list Command) : Prop :=
  match cmds with
  | [] => True
  | vkCmdCopyBuffer _ dst regions :: rest =>
      (exists b, In b (buffer_barriers rest)
                 /\ barrier_buffer b = dst
                 /\ srcAccessMask b = [VK_ACCESS_TRANSFER_WRITE_BIT]
                 /\ [mkBufferCopy 0 (barrier_offset b) (barrier_size b)] = regions)
      /\ copies_guarded rest
  | _ :: rest => copies_guarded rest
  end.

(** Keys that [InitFilters] registers for [flags]. *)
Definition registers (flags k : Z) : Prop :=
  In k (VertexCollectorFilterTypeFlags_IterateOverFlags P)
  /\ k <> 0 /\ Z.land flags k = k.

(** The flags [InitFilters] calls [AddFilter] with and that are not 0. *)
Definition added_filters (flags : Z) : list Z :=
  List.filter (fun f => (Z.land flags f =? f) && negb (f =? 0))
    (VertexCollectorFilterTypeFlags_IterateOverFlags P).

(** Collectors that calls of [AddPrimitive] alone lead to from [vc0]. *)
Inductive grows_to (vc0 : VertexCollector P) : VertexCollector P -> Prop :=
| grows_init : grows_to vc0 vc0
| grows_add mgr vc s o mgr' vc' :
    grows_to vc0 vc -> submit P mgr vc s = Some (o, mgr', vc') -> grows_to vc0 vc'.

(** A submission whose counts are far below the end of the 32-bit range. *)
Definition modest (s : Submission P) : Prop :=
  0 <= vertexCount (s_info s) < 2 ^ 30 /\ 0 <= indexCount (s_info s) < 2 ^ 30.

Definition lock_step (f : VertexCollectorFilter) : Prop :=
  length (asBuildRangeInfos f) = length (asGeometries f)
  /\ length (primitiveCounts f) = length (asGeometries f).

(** The sum of the buckets' geometry counts, without the 32-bit wrap. *)
Definition total_geometries (fs : gmap Z VertexCollectorFilter) : Z :=
  foldr (fun kf acc => bucket_len (snd kf) + acc) 0 (map_to_list fs).

End Barriers.

(** ** Texture overrides (TextureOverrides.cpp) *)

Module TextureOverrides.

(** The formats the two conversions name; [VK_FORMAT_other] stands for every
    other format, told apart by its number. *)
Inductive VkFormat :=
| VK_FORMAT_R8_UNORM | VK_FORMAT_R8_SRGB
| VK_FORMAT_R8G8_UNORM | VK_FORMAT_R8G8_SRGB
| VK_FORMAT_R8G8B8_UNORM | VK_FORMAT_R8G8B8_SRGB
| VK_FORMAT_B8G8R8_UNORM | VK_FORMAT_B8G8R8_SRGB
| VK_FORMAT_R8G8B8A8_UNORM | VK_FORMAT_R8G8B8A8_SRGB
| VK_FORMAT_B8G8R8A8_UNORM | VK_FORMAT_B8G8R8A8_SRGB
| VK_FORMAT_A8B8G8R8_UNORM_PACK32 | VK_FORMAT_A8B8G8R8_SRGB_PACK32
| VK_FORMAT_BC1_RGB_UNORM_BLOCK | VK_FORMAT_BC1_RGB_SRGB_BLOCK
| VK_FORMAT_BC1_RGBA_UNORM_BLOCK | VK_FORMAT_BC1_RGBA_SRGB_BLOCK
| VK_FORMAT_BC2_UNORM_BLOCK | VK_FORMAT_BC2_SRGB_BLOCK
| VK_FORMAT_BC3_UNORM_BLOCK | VK_FORMAT_BC3_SRGB_BLOCK
| VK_FORMAT_BC7_UNORM_BLOCK | VK_FORMAT_BC7_SRGB_BLOCK
| VK_FORMAT_other (number : Z).

Definition ToUnorm (f : VkFormat) : VkFormat :=
  match f with
  | VK_FORMAT_R8_SRGB => VK_FORMAT_R8_UNORM
  | VK_FORMAT_R8G8_SRGB => VK_FORMAT_R8G8_UNORM
  | VK_FORMAT_R8G8B8_SRGB => VK_FORMAT_R8G8B8_UNORM
  | VK_FORMAT_B8G8R8_SRGB => VK_FORMAT_B8G8R8_UNORM
  | VK_FORMAT_R8G8B8A8_SRGB => VK_FORMAT_R8G8B8A8_UNORM
  | VK_FORMAT_B8G8R8A8_SRGB => VK_FORMAT_B8G8R8A8_UNORM
  | VK_FORMAT_A8B8G8R8_SRGB_PACK32 => VK_FORMAT_A8B8G8R8_UNORM_PACK32
  | VK_FORMAT_BC1_RGB_SRGB_BLOCK => VK_FORMAT_BC1_RGB_UNORM_BLOCK
  | VK_FORMAT_BC1_RGBA_SRGB_BLOCK => VK_FORMAT_BC1_RGBA_UNORM_BLOCK
  | VK_FORMAT_BC2_SRGB_BLOCK => VK_FORMAT_BC2_UNORM_BLOCK
  | VK_FORMAT_BC3_SRGB_BLOCK => VK_FORMAT_BC3_UNORM_BLOCK
  | VK_FORMAT_BC7_SRGB_BLOCK => VK_FORMAT_BC7_UNORM_BLOCK
  | _ => f
  end.

Definition ToSRGB (f : VkFormat) : VkFormat :=
  match f with
  | VK_FORMAT_R8_UNORM => VK_FORMAT_R8_SRGB
  | VK_FORMAT_R8G8_UNORM => VK_FORMAT_R8G8_SRGB
  | VK_FORMAT_R8G8B8_UNORM => VK_FORMAT_R8G8B8_SRGB
  | VK_FORMAT_B8G8R8_UNORM => VK_FORMAT_B8G8R8_SRGB
  | VK_FORMAT_R8G8B8A8_UNORM => VK_FORMAT_R8G8B8A8_SRGB
  | VK_FORMAT_B8G8R8A8_UNORM => VK_FORMAT_B8G8R8A8_SRGB
  | VK_FORMAT_A8B8G8R8_UNORM_PACK32 => VK_FORMAT_A8B8G8R8_SRGB_PACK32
  | VK_FORMAT_BC1_RGB_UNORM_BLOCK => VK_FORMAT_BC1_RGB_SRGB_BLOCK
  | VK_FORMAT_BC1_RGBA_UNORM_BLOCK => VK_FORMAT_BC1_RGBA_SRGB_BLOCK
  | VK_FORMAT_BC2_UNORM_BLOCK => VK_FORMAT_BC2_SRGB_BLOCK
  | VK_FORMAT_BC3_UNORM_BLOCK => VK_FORMAT_BC3_SRGB_BLOCK
  | VK_FORMAT_BC7_UNORM_BLOCK => VK_FORMAT_BC7_SRGB_BLOCK
  | _ => f
  end.

(** The twelve formats [ToUnorm] rewrites, and the twelve [ToSRGB] rewrites. *)
Definition is_srgb (f : VkFormat) : bool :=
  match f with
  | VK_FORMAT_R8_SRGB | VK_FORMAT_R8G8_SRGB | VK_FORMAT_R8G8B8_SRGB
  | VK_FORMAT_B8G8R8_SRGB | VK_FORMAT_R8G8B8A8_SRGB | VK_FORMAT_B8G8R8A8_SRGB
  | VK_FORMAT_A8B8G8R8_SRGB_PACK32 | VK_FORMAT_BC1_RGB_SRGB_BLOCK
  | VK_FORMAT_BC1_RGBA_SRGB_BLOCK | VK_FORMAT_BC2_SRGB_BLOCK
  | VK_FORMAT_BC3_SRGB_BLOCK | VK_FORMAT_BC7_SRGB_BLOCK => true
  | _ => false
  end.

Definition is_unorm (f : VkFormat) : bool :=
  match f with
  | VK_FORMAT_R8_UNORM | VK_FORMAT_R8G8_UNORM | VK_FORMAT_R8G8B8_UNORM
  | VK_FORMAT_B8G8R8_UNORM | VK_FORMAT_R8G8B8A8_UNORM | VK_FORMAT_B8G8R8A8_UNORM
  | VK_FORMAT_A8B8G8R8_UNORM_PACK32 | VK_FORMAT_BC1_RGB_UNORM_BLOCK
  | VK_FORMAT_BC1_RGBA_UNORM_BLOCK | VK_FORMAT_BC2_UNORM_BLOCK
  | VK_FORMAT_BC3_UNORM_BLOCK | VK_FORMAT_BC7_UNORM_BLOCK => true
  | _ => false
  end.

(** A [char] is its code; 0 is the terminator.  A [const char *] that is not
    null is the list of the chars it points to; reading at or past the end of
    the list reads the terminator. *)
Abbreviation char := Z.

Definition char_at (src : list char) (i : nat) : char := nth i src 0.

(** The loop of [SafeCopy]: [todo] iterations are left, the next one at [i]. *)
Fixpoint SafeCopy_loop (dst src : list char) (i todo : nat) : list char :=
  match todo with
  | O => dst
  | S todo' =>
      if char_at src i =? 0 then dst
      else SafeCopy_loop (<[i := char_at src i]> dst) src (S i) todo'
  end.

(** [SafeCopy< N >( dst, src )], returning [dst].  [N] is the size of an
    array, so it is not 0. *)
Definition SafeCopy (N : nat) (src : option (list char)) : list char :=
  let dst := replicate N 0 in                                   (* memset *)
  match src with
  | None => dst
  | Some s => SafeCopy_loop dst s 0 (N - 1)
  end.

(** The string a [char] array holds: its chars before the first 0. *)
Fixpoint c_str (a : list char) : list char :=
  match a with
  | [] => []
  | c :: rest => if c =? 0 then [] else c :: c_str rest
  end.

Inductive Loader := Loader_ImageLoaderDev | Loader_ImageLoader.

(** ".png" and ".ktx2". *)
Inductive Extension := ext_png | ext_ktx2.

Definition Loader_GetExtension (loader : Loader) : Extension :=
  match loader with
  | Loader_ImageLoaderDev => ext_png
  | Loader_ImageLoader => ext_ktx2
  end.

Record RgExtent2D := mkExtent { width : Z; height : Z }.

(** [ImageLoader::ResultInfo], by the members the constructor initialises;
    [levelOffsets] and [levelSizes] are given by their initialisers. *)
Record ResultInfo (Data : Type) := mkResultInfo {
  levelOffsets : list Z;
  levelSizes : list Z;
  levelCount : Z;
  isPregenerated : bool;
  pData : Data;
  dataSize : Z;
  baseSize : RgExtent2D;
  format : VkFormat;
}.
Arguments mkResultInfo {Data}.
Arguments levelOffsets {Data}.
Arguments levelSizes {Data}.
Arguments levelCount {Data}.
Arguments isPregenerated {Data}.
Arguments pData {Data}.
Arguments dataSize {Data}.
Arguments baseSize {Data}.
Arguments format {Data}.

Section Overrides.

(** [Data]: what a [const void *] to pixel data points to.  [Path]: a
    [std::filesystem::path].  The two loaders, the path arithmetic and the
    constant [TEXTURES_PER_MATERIAL_COUNT] are declared outside the file. *)
Context {Data Path : Type}.
Context (TEXTURES_PER_MATERIAL_COUNT : nat).
Context (Loader_Load : Loader -> Path -> option (ResultInfo Data)).
(** [path( folder ).append( relative ).replace_extension( "" )
      .concat( postfix ).replace_extension( extension )] *)
Context (build_path : list char -> list char -> list char -> Extension -> Path).

Record RgTextureSet := mkTextureSet {
  pDataAlbedoAlpha : option Data;
  pDataRoughnessMetallicEmission : option Data;
  pDataNormal : option Data;
}.

Record OverrideInfo := mkOverrideInfo {
  disableOverride : bool;
  texturesPath : list char;
  postfixes : nat -> list char;
  overridenIsSRGB : nat -> bool;
  originalIsSRGB : nat -> bool;
}.

Definition GetTexturePath (commonFolderPath : list char)
    (relativePath : option (list char)) (postfix : list char)
    (extension : Extension) : option Path :=
  match relativePath with
  | None => None
  | Some r => Some (build_path commonFolderPath r postfix extension)
  end.

Record TextureOverrides := mkOverrides {
  loader : Loader;
  results : list (option (ResultInfo Data));
  debugname : list char;
}.

Definition defaultSRGBFormat : VkFormat := VK_FORMAT_R8G8B8A8_SRGB.
Definition defaultLinearFormat : VkFormat := VK_FORMAT_R8G8B8A8_UNORM.
Definition defaultBytesPerPixel : Z := 4.

(** [defaultData[ i ]]: the three pointers of the texture set, null beyond. *)
Definition defaultData (t : RgTextureSet) (i : nat) : option Data :=
  nth i [pDataAlbedoAlpha t; pDataRoughnessMetallicEmission t; pDataNormal t] None.

Definition with_format (r : ResultInfo Data) (f : VkFormat) : ResultInfo Data :=
  mkResultInfo (levelOffsets r) (levelSizes r) (levelCount r) (isPregenerated r)
    (pData r) (dataSize r) (baseSize r) f.

(** One turn of the first loop: [results[ i ]] after it. *)
Definition load_override (_relativePath : option (list char))
    (_overrideInfo : OverrideInfo) (_loader : Loader) (i : nat)
    : option (ResultInfo Data) :=
  match GetTexturePath (texturesPath _overrideInfo) _relativePath
          (postfixes _overrideInfo i) (Loader_GetExtension _loader) with
  | Some path =>
      match Loader_Load _loader path with
      | Some r =>
          Some (with_format r
                  (if overridenIsSRGB _overrideInfo i
                   then ToSRGB (format r) else ToUnorm (format r)))
      | None => None
      end
  | None => None
  end.

Definition defaultDataSize (_defaultSize : RgExtent2D) : Z :=
  u32 (u32 (defaultBytesPerPixel * width _defaultSize) * height _defaultSize).

(** One turn of the second loop: [results[ i ]] after it. *)
Definition use_default (_defaultTextures : RgTextureSet) (_defaultSize : RgExtent2D)
    (_overrideInfo : OverrideInfo) (i : nat) (r : option (ResultInfo Data))
    : option (ResultInfo Data) :=
  match r, defaultData _defaultTextures i with
  | None, Some d =>
      Some (mkResultInfo [0] [defaultDataSize _defaultSize] 1 false d
              (defaultDataSize _defaultSize) _defaultSize
              (if originalIsSRGB _overrideInfo i
               then defaultSRGBFormat else defaultLinearFormat))
  | _, _ => r
  end.

(** The size of [debugname]; an array, so not 0. *)
Context (DEBUGNAME_SIZE : nat).

Definition TextureOverrides_new (_relativePath : option (list char))
    (_defaultTextures : RgTextureSet) (_defaultSize : RgExtent2D)
    (_overrideInfo : OverrideInfo) (_loader : Loader) : TextureOverrides :=
  let debugname := SafeCopy DEBUGNAME_SIZE _relativePath in
  let results0 : list (option (ResultInfo Data)) :=
    replicate TEXTURES_PER_MATERIAL_COUNT None in
  let results1 :=
    if negb (disableOverride _overrideInfo)
    then imap (fun i _ => load_override _relativePath _overrideInfo _loader i) results0
    else results0 in
  let results2 :=
    imap (use_default _defaultTextures _defaultSize _overrideInfo) results1 in
  mkOverrides _loader results2 debugname.

Definition GetResult (t : TextureOverrides) (index : nat)
    : option (option (ResultInfo Data)) :=
  if (index <? TEXTURES_PER_MATERIAL_COUNT)%nat
  then results t !! index
  else None.                                                    (* assert *)

(** The array [debugname]; the name read through the pointer is its [c_str]. *)
Definition GetDebugName (t : TextureOverrides) : list char := debugname t.

End Overrides.

End TextureOverrides.

(** ** More instances for the examples *)

Module SmallCases.

Import TextureOverrides.

(** A primitive as large as the static vertex maximum; its vertex array is
    never read, the call being refused before the copy. *)
Definition big : RgMeshPrimitiveInfo Z Z :=
  mkPrimitive [] MAX_STATIC_VERTEX_COUNT None 0 7.
Definition big_sub : Submission Small.platform :=
  Small.sub Small.static_opaque_world big.

(** The collector after [big_sub] was refused. *)
Definition vc_over : VertexCollector Small.platform :=
  advance Small.platform Small.vc_fresh big.

(** A primitive that comes with a count of 2^32 - 3 vertices: after one
    triangle its new vertex count wraps around to 0. *)
Definition wrapping : RgMeshPrimitiveInfo Z Z :=
  mkPrimitive [10; 11; 12] 4294967293 None 0 7.
Definition wrapping_sub : Submission Small.platform :=
  Small.sub Small.static_opaque_world wrapping.

(** A collector whose transform counter stands at the size of the transforms
    buffer, as calls that were rejected after the group check leave it. *)
Definition vc_no_slot : VertexCollector Small.platform :=
  with_counters Small.platform Small.vc_fresh 0 0 0 MAX_BOTTOM_LEVEL_GEOMETRIES_COUNT.

Definition three_steps : list Step :=
  [mkStep Accepted (Some (0, 0, 0)); mkStep Accepted (Some (3, 0, 1));
   mkStep (Rejected (TooManyGeometriesInGroup 73 3)) None].

(** Texture files: a path is folder, name, postfix and a last char for the
    extension; one file exists, a BC7 sRGB image for the name "w". *)
Definition path_of (folder rel postfix : list char) (e : Extension) : list char :=
  folder ++ rel ++ postfix ++ [match e with ext_png => 1 | ext_ktx2 => 2 end].

Definition loaded_file : ResultInfo Z :=
  mkResultInfo [0] [64] 1 true 500 64 (mkExtent 4 4) VK_FORMAT_BC7_SRGB_BLOCK.

Definition on_disk (l : Loader) (p : list char) : option (ResultInfo Z) :=
  if decide (p = [47; 119; 2]) then Some loaded_file else None.

Definition texture_set : RgTextureSet := mkTextureSet (Some 100) None (Some 300).

Definition override_info (disable : bool) : OverrideInfo :=
  mkOverrideInfo disable [47]
    (fun i => match i with O => [] | S _ => [95; Z.of_nat i] end)
    (fun _ => false) (fun _ => false).

Definition overrides (disable : bool) : TextureOverrides :=
  TextureOverrides_new 3 on_disk path_of 8 (Some [119]) texture_set
    (mkExtent 2 2) (override_info disable) Loader_ImageLoader.

End SmallCases.

(** * Properties *)

(** ** Machine arithmetic *)

Lemma u32_small x : is_u32 x -> u32 x = x.
Proof. unfold is_u32, u32. intros H. apply Z.mod_small. lia. Qed.

Lemma u32_range x : is_u32 (u32 x).
Proof. unfold is_u32, u32. apply Z.mod_pos_bound. lia. Qed.

Lemma u64_small x : 0 <= x < 2 ^ 64 -> u64 x = x.
Proof. unfold u64. intros H. apply Z.mod_small. lia. Qed.

Lemma AlignUpBy3_eq x : AlignUpBy3 x = u32 (x + 2) / 3 * 3.
Proof.
  unfold AlignUpBy3.
  pose proof (u32_range (x + 2)) as Hr. unfold is_u32 in Hr.
  assert (Hq : 0 <= u32 (x + 2) / 3 <= 1431655765).
  { split; [apply Z.div_pos; lia |].
    apply Z.div_le_upper_bound; lia. }
  rewrite (u32_small (u32 (x + 2) / 3)) by (unfold is_u32; lia).
  apply u32_small. unfold is_u32. lia.
Qed.

Lemma AlignUpBy3_mod3 x : AlignUpBy3 x mod 3 = 0.
Proof. rewrite AlignUpBy3_eq. apply Z.mod_mul. lia. Qed.

Lemma AlignUpBy3_range x : is_u32 (AlignUpBy3 x).
Proof. unfold AlignUpBy3. apply u32_range. Qed.

Lemma AlignUpBy3_aligned x :
  0 <= x -> x + 2 < 2 ^ 32 -> x mod 3 = 0 -> AlignUpBy3 x = x.
Proof.
  intros H0 H1 H3. rewrite AlignUpBy3_eq.
  rewrite u32_small by (unfold is_u32; lia).
  pose proof (Z.div_mod x 3 ltac:(lia)) as Hx. rewrite H3 in Hx.
  assert (Hq : (x + 2) / 3 = x / 3).
  { symmetry. apply Z.div_unique with (r := 2); lia. }
  rewrite Hq. lia.
Qed.

Lemma AlignUpBy3_bounds x : 0 <= x -> x + 2 < 2 ^ 32 -> x <= AlignUpBy3 x < x + 3.
Proof.
  intros H0 H1. rewrite AlignUpBy3_eq. rewrite u32_small by (unfold is_u32; lia).
  pose proof (Z.div_mod (x + 2) 3 ltac:(lia)) as Hd.
  pose proof (Z.mod_pos_bound (x + 2) 3 ltac:(lia)) as Hm. lia.
Qed.

(** Without wrap-around, [AlignUpBy3] adds the padding [(- x) mod 3]. *)
Lemma AlignUpBy3_padding x :
  0 <= x -> x + 2 < 2 ^ 32 -> AlignUpBy3 x = x + (- x) mod 3.
Proof.
  intros H0 H1.
  pose proof (AlignUpBy3_bounds x H0 H1) as Hb.
  pose proof (AlignUpBy3_mod3 x) as Hm.
  Z.div_mod_to_equations. lia.
Qed.

Lemma UINT32_MAX_mod3 : UINT32_MAX mod 3 = 0.
Proof. reflexivity. Qed.

(** ** Collectors that differ in staging memory only *)

Section Props.

Context (P : Platform).

Local Abbreviation Primitive := (RgMeshPrimitiveInfo (RgPrimitiveVertex P) (RgTransform P)).
Local Abbreviation cap := (VertexCollectorFilterTypeFlags_GetAmountInGlobalArray P).
Local Abbreviation key := (VertexCollectorFilterTypeFlags_GetForGeometry P).

Lemma same_refl (a : VertexCollector P) : same_but_staging P a a.
Proof. unfold same_but_staging. tauto. Qed.

Lemma same_sym (a b : VertexCollector P) :
  same_but_staging P a b -> same_but_staging P b a.
Proof. unfold same_but_staging. intuition congruence. Qed.

Lemma same_trans (a b c : VertexCollector P) :
  same_but_staging P a b -> same_but_staging P b c -> same_but_staging P a c.
Proof. unfold same_but_staging. intuition congruence. Qed.

Lemma same_with_staging (a : VertexCollector P) mv mi mt :
  same_but_staging P a (with_staging P a mv mi mt).
Proof. unfold same_but_staging. simpl. tauto. Qed.

Lemma same_with_filters (a b : VertexCollector P) fs :
  same_but_staging P a b ->
  same_but_staging P (with_filters P a fs) (with_filters P b fs).
Proof. unfold same_but_staging. simpl. tauto. Qed.

Lemma same_advance (a b : VertexCollector P) (info : Primitive) :
  same_but_staging P a b -> same_but_staging P (advance P a info) (advance P b info).
Proof.
  unfold same_but_staging, advance, vertIndex, indIndex. simpl.
  intros (? & ? & ? & ? & ? & -> & -> & -> & -> & ?). tauto.
Qed.

(** ** Copies into staging memory *)

Lemma memcpy_Some {A : Type} size elem (dst : gmap Z A) off src n m :
  memcpy size elem dst off src n = Some m ->
  (off + n) * elem <= size /\ n <= Z.of_nat (length src)
  /\ m = store dst off (take (Z.to_nat n) src).
Proof.
  unfold memcpy, in_buffer. intros H.
  destruct (Z.leb_spec ((off + n) * elem) size);
    destruct (Z.leb_spec n (Z.of_nat (length src))); cbn in H; try discriminate.
  injection H as <-. auto.
Qed.

Lemma memcpy_fits {A : Type} size elem (dst : gmap Z A) off src n :
  (off + n) * elem <= size -> n <= Z.of_nat (length src) ->
  memcpy size elem dst off src n = Some (store dst off (take (Z.to_nat n) src)).
Proof.
  unfold memcpy, in_buffer. intros H1 H2.
  rewrite (proj2 (Z.leb_le _ _) H1), (proj2 (Z.leb_le _ _) H2). reflexivity.
Qed.

Lemma memcpy_defined {A : Type} size elem (dst : gmap Z A) off src n :
  is_Some (memcpy size elem dst off src n)
  <-> in_buffer size elem off n && (n <=? Z.of_nat (length src)) = true.
Proof.
  unfold memcpy. destruct (in_buffer size elem off n && _).
  - split; eauto.
  - split; [intros [? ?]; discriminate | discriminate].
Qed.

Lemma CopyDataToStaging_Some (vc : VertexCollector P) (info : Primitive) vi vc1 :
  CopyDataToStaging P vc info vi = Some vc1 ->
  u64 (u32 (vi + vertexCount info) * sizeof_ShVertex) < vertBuffer_size P vc
  /\ exists mv,
       memcpy (vertBuffer_size P vc) sizeof_ShVertex (mappedVertexData P vc) vi
         (pVertices info) (vertexCount info) = Some mv
       /\ vc1 = with_staging P vc mv (mappedIndexData P vc) (mappedTransformData P vc).
Proof.
  unfold CopyDataToStaging. intros H.
  destruct (Z.ltb_spec (u64 (u32 (vi + vertexCount info) * sizeof_ShVertex))
              (vertBuffer_size P vc)) as [Hsz |]; [| discriminate].
  split; [exact Hsz |].
  destruct (memcpy _ _ _ _ _ _) as [mv|]; [| discriminate].
  cbn in H. injection H as <-. eauto.
Qed.

Lemma copy_indices_and_transform_Some (vc0 vc : VertexCollector P)
    (info : Primitive) vc3 :
  copy_indices_and_transform P vc0 vc info = Some vc3 ->
  exists mi mt,
    (if useIndices P info
     then memcpy INDEX_BUFFER_SIZE sizeof_uint32_t (mappedIndexData P vc)
            (indIndex P vc0) (default [] (pIndices info)) (indexCount info)
          = Some mi
     else mi = mappedIndexData P vc)
    /\ memcpy TRANSFORM_BUFFER_SIZE sizeof_VkTransformMatrixKHR
         (mappedTransformData P vc) (transformIndex P vc0) [transform info] 1
       = Some mt
    /\ vc3 = with_staging P vc (mappedVertexData P vc) mi mt.
Proof.
  unfold copy_indices_and_transform. intros H.
  destruct (useIndices P info).
  - destruct (memcpy INDEX_BUFFER_SIZE _ _ _ _ _) as [mi|]; [| discriminate].
    cbn in H.
    destruct (memcpy TRANSFORM_BUFFER_SIZE _ _ _ _ _) as [mt|] eqn:Ht;
      [| discriminate].
    cbn in H. injection H as <-. exists mi, mt. auto.
  - cbn in H.
    destruct (memcpy TRANSFORM_BUFFER_SIZE _ _ _ _ _) as [mt|] eqn:Ht;
      [| discriminate].
    cbn in H. injection H as <-. exists (mappedIndexData P vc), mt.
    destruct vc; auto.
Qed.

Lemma same_copy_indices_and_transform (vc0 vc : VertexCollector P)
    (info : Primitive) vc3 :
  copy_indices_and_transform P vc0 vc info = Some vc3 ->
  same_but_staging P vc vc3.
Proof.
  intros H. apply copy_indices_and_transform_Some in H as (mi & mt & _ & _ & ->).
  apply same_with_staging.
Qed.

(** ** One call of AddPrimitive, case by case *)

Lemma commit_Some mgr (vc0 vc : VertexCollector P) fr mesh (info : Primitive)
    lt lc k mgr' vc' :
  commit P mgr vc0 vc fr mesh info lt lc k = Some (mgr', vc') ->
  exists f geom,
    filters P vc !! k = Some f
    /\ u64 (u32 (vertIndex P vc0 + vertexCount info) * sizeof_ShVertex)
       < vertBuffer_size P vc
    /\ filters P vc' = <[k := pushed f geom (triangleCount P info)]> (filters P vc)
    /\ same_but_staging P (with_filters P vc (filters P vc')) vc'
    /\ mgr' = mgr ++ [mkEntry fr (UniqueID_MakeForPrimitive P mesh info)
                        (u32 (bucket_len f)) k
                        (make_geomInfo P info lt lc (vertIndex P vc0) (indIndex P vc0))].
Proof.
  unfold commit. intros H.
  destruct (CopyDataToStaging P vc info (vertIndex P vc0)) as [vc1|] eqn:H1;
    [| discriminate].
  apply CopyDataToStaging_Some in H1 as (Hsz & mv & _ & ->).
  cbn [mbind option_bind] in H.
  destruct (copy_indices_and_transform P vc0 _ info) as [vc3|] eqn:H3;
    [| discriminate].
  cbn [mbind option_bind] in H.
  assert (Hs : same_but_staging P vc vc3).
  { eapply same_trans; [apply same_with_staging |].
    eapply same_copy_indices_and_transform, H3. }
  assert (Hf : filters P vc3 = filters P vc) by (symmetry; apply Hs).
  clear H3.
  unfold PushGeometry, PushRangeInfo, PushPrimitiveCount in H.
  rewrite Hf in H.
  destruct (filters P vc !! k) as [f|] eqn:Hk; [| discriminate].
  cbn in H. rewrite !lookup_insert_eq in H. cbn in H.
  rewrite !lookup_insert_eq in H. cbn in H.
  injection H as <- <-.
  exists f. eexists. split; [reflexivity |]. split; [exact Hsz |].
  cbn. rewrite !insert_insert_eq.
  split; [reflexivity |]. split; [| reflexivity].
  unfold same_but_staging in *. cbn. intuition congruence.
Qed.

Lemma AddPrimitive_cases mgr (vc : VertexCollector P) (s : Submission P) o mgr' vc' :
  submit P mgr vc s = Some (o, mgr', vc') ->
  exists f,
    filters P vc !! key_of P s = Some f
    /\ ((group_full P f (key_of P s) = true
         /\ o = Rejected (TooManyGeometriesInGroup (key_of P s) (cap (key_of P s)))
         /\ mgr' = mgr /\ vc' = vc)
        \/ (group_full P f (key_of P s) = false
            /\ within_limits P mgr vc s = false
            /\ returned o = false /\ is_group_rejection o = false
            /\ mgr' = mgr /\ vc' = advance P vc (s_info s))
        \/ (group_full P f (key_of P s) = false
            /\ within_limits P mgr vc s = true
            /\ o = Accepted
            /\ commit P mgr vc (advance P vc (s_info s)) (s_frameIndex s)
                 (s_parentMesh s) (s_info s) (s_layerTextures s) (s_layerColors s)
                 (key_of P s) = Some (mgr', vc'))).
Proof.
  unfold submit, AddPrimitive, GetGeometryCount, within_limits, group_full,
    new_vertex_count, new_index_count, new_geom_info_count, key_of.
  intros H.
  destruct (filters P vc !! _) as [f|] eqn:Hk; [| discriminate].
  exists f. split; [reflexivity |]. cbn [mbind option_bind] in H.
  destruct (u32 (Filter.GetGeometryCount f + 1) >=? _) eqn:Hg.
  { injection H as <- <- <-. left. repeat split. }
  right.
  destruct (curVertexCount P _ >=? _) eqn:Hv.
  { injection H as <- <- <-. left.
    apply Z.geb_le in Hv. rewrite (proj2 (Z.ltb_ge _ _) Hv).
    destruct (collectStatic P _); simpl; repeat split. }
  rewrite Z.geb_leb in Hv. apply Z.leb_gt in Hv. rewrite (proj2 (Z.ltb_lt _ _) Hv).
  destruct (curIndexCount P _ >=? _) eqn:Hi.
  { injection H as <- <- <-. left.
    apply Z.geb_le in Hi. rewrite (proj2 (Z.ltb_ge _ _) Hi). simpl. repeat split. }
  rewrite Z.geb_leb in Hi. apply Z.leb_gt in Hi. rewrite (proj2 (Z.ltb_lt _ _) Hi).
  destruct (u32 (GeomInfoMgr.GetCount mgr _ + 1) >=? _) eqn:Hc.
  { injection H as <- <- <-. left.
    apply Z.geb_le in Hc. rewrite (proj2 (Z.ltb_ge _ _) Hc). simpl. repeat split. }
  rewrite Z.geb_leb in Hc. apply Z.leb_gt in Hc. rewrite (proj2 (Z.ltb_lt _ _) Hc).
  right.
  destruct (commit P _ _ _ _ _ _ _ _ _) as [[m v]|] eqn:Hcm; [| discriminate].
  cbn in H. injection H as <- <- <-. repeat split.
Qed.

(** ** The invariant *)

Lemma bucket_len_nonneg f : 0 <= bucket_len f.
Proof. unfold bucket_len. lia. Qed.

Lemma wf_bucket_count k f :
  Platform_ok P -> wf_bucket P k f -> Filter.GetGeometryCount f = bucket_len f.
Proof.
  intros Hok (_ & _ & _ & Hlen). specialize (Hok k). unfold is_u32 in Hok.
  unfold Filter.GetGeometryCount. fold (bucket_len f).
  pose proof (bucket_len_nonneg f).
  apply u32_small. unfold is_u32. lia.
Qed.

Lemma group_full_spec k f :
  Platform_ok P -> wf_bucket P k f ->
  group_full P f k = true <-> cap k <= bucket_len f + 1.
Proof.
  intros Hok Hwf. unfold group_full.
  rewrite (wf_bucket_count k f Hok Hwf).
  destruct Hwf as (_ & _ & _ & Hlen). specialize (Hok k). unfold is_u32 in Hok.
  pose proof (bucket_len_nonneg f).
  rewrite u32_small by (unfold is_u32; lia).
  rewrite Z.geb_le. reflexivity.
Qed.

Lemma bucket_len_pushed f geom tri : bucket_len (pushed f geom tri) = bucket_len f + 1.
Proof. unfold bucket_len, pushed. cbn. rewrite length_app. cbn. lia. Qed.

Lemma wf_bucket_pushed k f geom tri :
  Platform_ok P -> wf_bucket P k f -> group_full P f k = false ->
  wf_bucket P k (pushed f geom tri).
Proof.
  intros Hok Hwf Hg.
  assert (Hlt : bucket_len f + 1 < cap k).
  { destruct (Z_lt_le_dec (bucket_len f + 1) (cap k)) as [|Hle]; [assumption |].
    apply (group_full_spec k f Hok Hwf) in Hle. congruence. }
  destruct Hwf as (Hf & Hr & Hp & _).
  unfold wf_bucket. rewrite bucket_len_pushed.
  unfold pushed. cbn. rewrite !length_app, Hr, Hp. cbn.
  repeat split; try reflexivity; auto.
Qed.

Lemma wf_same (a b : VertexCollector P) :
  same_but_staging P a b -> wf P a -> wf P b.
Proof.
  unfold same_but_staging, wf.
  intros (_ & _ & _ & _ & _ & <- & <- & <- & <- & <-). tauto.
Qed.

Lemma wf_advance (vc : VertexCollector P) (info : Primitive) :
  wf P vc -> wf P (advance P vc info).
Proof.
  unfold wf, advance. cbn. intros (_ & _ & _ & _ & Hb).
  split_and!; try apply u32_range. apply Hb.
Qed.

Lemma wf_submit mgr (vc : VertexCollector P) s o mgr' vc' :
  Platform_ok P -> wf P vc -> submit P mgr vc s = Some (o, mgr', vc') -> wf P vc'.
Proof.
  intros Hok Hwf H.
  apply AddPrimitive_cases in H as (f & Hk & [H | [H | H]]).
  - destruct H as (_ & _ & _ & ->). exact Hwf.
  - destruct H as (_ & _ & _ & _ & _ & ->). apply wf_advance, Hwf.
  - destruct H as (Hg & _ & _ & Hc).
    apply commit_Some in Hc as (f' & geom & Hk' & _ & Hfs & Hs & _).
    cbn in Hk'. rewrite Hk in Hk'. injection Hk' as <-.
    apply (wf_same _ _ Hs).
    pose proof (wf_advance vc (s_info s) Hwf) as (Hv & Hi & Hp & Ht & Hb).
    unfold wf. split_and!; try assumption.
    intros k g H. rewrite Hfs in H. cbn in H.
    destruct (decide (key_of P s = k)) as [<- | Hne].
    + rewrite lookup_insert_eq in H. injection H as <-.
      eapply wf_bucket_pushed; eauto.
    + rewrite lookup_insert_ne in H by assumption. apply (Hb _ _ H).
Qed.

(** ** Staging memory does not influence a call *)

Lemma same_is_with_staging (a b : VertexCollector P) :
  same_but_staging P a b ->
  b = with_staging P a (mappedVertexData P b) (mappedIndexData P b)
        (mappedTransformData P b).
Proof.
  destruct a, b. unfold same_but_staging, with_staging. cbn.
  intros (-> & -> & -> & -> & -> & -> & -> & -> & -> & ->). reflexivity.
Qed.

Lemma submit_with_staging mgr (a : VertexCollector P) mv mi mt s :
  same_result P (submit P mgr a s) (submit P mgr (with_staging P a mv mi mt) s).
Proof.
  destruct a as [ff sz va ia ta cv ci cp ct dv di dt fs].
  unfold submit, AddPrimitive, GetGeometryCount. cbn.
  destruct (fs !! _) as [f|] eqn:Hk; cbn; [| exact I].
  destruct (u32 (Filter.GetGeometryCount f + 1) >=? _).
  { cbn. split_and!; try reflexivity. apply same_with_staging. }
  destruct (_ >=? maxVertexCount P _).
  { cbn. split_and!; try reflexivity. unfold same_but_staging. cbn. tauto. }
  destruct (_ >=? u32 _).
  { cbn. split_and!; try reflexivity. unfold same_but_staging. cbn. tauto. }
  destruct (_ >=? MAX_BOTTOM_LEVEL_GEOMETRIES_COUNT).
  { cbn. split_and!; try reflexivity. unfold same_but_staging. cbn. tauto. }
  unfold commit, CopyDataToStaging, memcpy. cbn.
  destruct (_ <? sz); cbn; [| exact I].
  destruct (in_buffer sz _ _ _ && _); cbn; [| exact I].
  unfold PushGeometry, PushRangeInfo, PushPrimitiveCount,
    copy_indices_and_transform, memcpy.
  destruct (useIndices P (s_info s)) eqn:Hu; cbn;
    try (destruct (in_buffer INDEX_BUFFER_SIZE _ _ _ && _); cbn; [| exact I]);
    (destruct (in_buffer TRANSFORM_BUFFER_SIZE _ _ _ && _); cbn; [| exact I]);
    rewrite Hk; cbn;
    rewrite !lookup_insert_eq; cbn; rewrite !lookup_insert_eq; cbn;
    (split_and!; [reflexivity | | unfold same_but_staging; cbn; tauto]);
    unfold make_geom, vertIndex, indIndex, transformIndex; cbn; reflexivity.
Qed.

Lemma submit_same mgr (a b : VertexCollector P) s :
  same_but_staging P a b -> same_result P (submit P mgr a s) (submit P mgr b s).
Proof.
  intros H. rewrite (same_is_with_staging a b H). apply submit_with_staging.
Qed.

Lemma offsets_taken_same (a b : VertexCollector P) o :
  same_but_staging P a b -> offsets_taken P a o = offsets_taken P b o.
Proof.
  intros (_ & _ & _ & _ & _ & Hv & Hi & _ & Ht & _).
  unfold offsets_taken, vertIndex, indIndex, transformIndex.
  rewrite Hv, Hi, Ht. reflexivity.
Qed.

Lemma trace_same subs : forall mgr (a b : VertexCollector P),
  same_but_staging P a b -> trace P mgr a subs = trace P mgr b subs.
Proof.
  unfold trace.
  induction subs as [| s rest IH]; intros mgr a b Hab; [reflexivity |].
  cbn [run].
  pose proof (submit_same mgr a b s Hab) as Hr. unfold same_result in Hr.
  destruct (submit P mgr a s) as [[[o1 m1] a1]|],
           (submit P mgr b s) as [[[o2 m2] b1]|]; try contradiction;
    [| reflexivity].
  destruct Hr as (<- & <- & Hab1). cbn [mbind option_bind].
  specialize (IH m1 a1 b1 Hab1).
  rewrite (offsets_taken_same a b o1 Hab).
  destruct (run P m1 a1 rest) as [[[st1 n1] c1]|],
           (run P m1 b1 rest) as [[[st2 n2] c2]|]; cbn in *; congruence.
Qed.

(** ** Construction and Reset *)

Lemma AddFilter_created fs k fs' :
  all_created fs -> AddFilter fs k = Some fs' -> all_created fs'.
Proof.
  unfold AddFilter, all_created. intros Hc H.
  destruct (k =? 0); [injection H as <-; exact Hc |].
  destruct (fs !! k) eqn:Hk; [discriminate |]. injection H as <-.
  intros k' f Hl. destruct (decide (k = k')) as [<- | Hne].
  - rewrite lookup_insert_eq in Hl. congruence.
  - rewrite lookup_insert_ne in Hl by assumption. apply Hc, Hl.
Qed.

Lemma InitFilters_loop_created flags pairs : forall fs fs',
  all_created fs -> InitFilters_loop fs flags pairs = Some fs' -> all_created fs'.
Proof.
  induction pairs as [| f rest IH]; intros fs fs' Hc H; cbn in H.
  - injection H as <-. exact Hc.
  - destruct (Z.land flags f =? f); [| eapply IH; eauto].
    destruct (AddFilter fs f) as [fs1|] eqn:Ha; [| discriminate]. cbn in H.
    eapply IH; [| exact H]. eapply AddFilter_created; eauto.
Qed.

Lemma InitFilters_created flags fs : InitFilters P flags = Some fs -> all_created fs.
Proof.
  unfold InitFilters. apply InitFilters_loop_created.
  intros k f Hl. rewrite lookup_empty in Hl. discriminate.
Qed.

Lemma new_inv g sz va ia ta flags (vc : VertexCollector P) :
  VertexCollector_new P g sz va ia ta flags = Some vc ->
  counters P vc = (0, 0, 0, 0) /\ all_created (filters P vc)
  /\ InitFilters P (filtersFlags P vc) = Some (filters P vc).
Proof.
  unfold VertexCollector_new. intros H.
  destruct (flags =? 0); [discriminate |].
  destruct (negb (_ && _)); [discriminate |].
  destruct (negb (bool_decide _)); [discriminate |].
  destruct (InitFilters P flags) as [fs|] eqn:Hi; [| discriminate].
  cbn in H. injection H as <-. cbn.
  split_and!; auto. eapply InitFilters_created; eauto.
Qed.

Lemma constructed_inv (vc : VertexCollector P) :
  constructed P vc ->
  counters P vc = (0, 0, 0, 0) /\ all_created (filters P vc).
Proof.
  intros [(g & sz & va & ia & ta & fl & H) | (src & H)].
  - apply new_inv in H. tauto.
  - unfold VertexCollector_view in H.
    destruct (negb _); [discriminate |].
    destruct (InitFilters P (filtersFlags P src)) as [fs|] eqn:Hi; [| discriminate].
    cbn in H. injection H as <-. cbn.
    split; [reflexivity | eapply InitFilters_created; eauto].
Qed.

Lemma created_wf_bucket k : wf_bucket P k (Filter.create k).
Proof. unfold wf_bucket, Filter.create, bucket_len. cbn. auto. Qed.

Lemma wf_of_created (vc : VertexCollector P) :
  counters P vc = (0, 0, 0, 0) -> all_created (filters P vc) -> wf P vc.
Proof.
  unfold counters, wf, is_u32. intros Hc Ha. injection Hc as -> -> -> ->.
  split_and!; try lia.
  intros k f Hl. rewrite (Ha k f Hl). apply created_wf_bucket.
Qed.

Lemma wf_constructed (vc : VertexCollector P) : constructed P vc -> wf P vc.
Proof. intros H. apply constructed_inv in H as (Hc & Ha). apply wf_of_created; auto. Qed.

Lemma Reset_counters (vc : VertexCollector P) : counters P (Reset P vc) = (0, 0, 0, 0).
Proof. reflexivity. Qed.

Lemma Reset_created (vc : VertexCollector P) :
  wf P vc -> all_created (filters P (Reset P vc)).
Proof.
  intros (_ & _ & _ & _ & Hb) k f Hl. cbn in Hl.
  rewrite lookup_fmap in Hl.
  destruct (filters P vc !! k) as [g|] eqn:Hg; [| discriminate].
  cbn in Hl. injection Hl as <-.
  destruct (Hb k g Hg) as (Hf & _). unfold Filter.Reset, Filter.create. congruence.
Qed.

Lemma wf_Reset (vc : VertexCollector P) : wf P vc -> wf P (Reset P vc).
Proof.
  intros H. apply wf_of_created; [apply Reset_counters | apply Reset_created, H].
Qed.

Lemma wf_reachable (vc0 vc : VertexCollector P) :
  Platform_ok P -> wf P vc0 -> reachable P vc0 vc -> wf P vc.
Proof.
  intros Hok H0 Hr. induction Hr as [| mgr vc s o mgr' vc' _ IH Hs | vc _ IH].
  - exact H0.
  - eapply wf_submit; eauto.
  - apply wf_Reset, IH.
Qed.

(** ** What stays fixed along a collector's life *)

Lemma Reset_pushed f geom tri : Filter.Reset (pushed f geom tri) = Filter.Reset f.
Proof. reflexivity. Qed.

Lemma submit_config_buckets mgr (vc : VertexCollector P) s o mgr' vc' :
  submit P mgr vc s = Some (o, mgr', vc') ->
  same_config P vc vc'
  /\ Filter.Reset <$> filters P vc' = Filter.Reset <$> filters P vc.
Proof.
  intros H. apply AddPrimitive_cases in H as (f & Hk & [H | [H | H]]).
  - destruct H as (_ & _ & _ & ->). unfold same_config. tauto.
  - destruct H as (_ & _ & _ & _ & _ & ->). unfold same_config. cbn. tauto.
  - destruct H as (_ & _ & _ & Hc).
    apply commit_Some in Hc as (f' & geom & Hk' & _ & Hfs & Hs & _).
    cbn in Hk'. rewrite Hk in Hk'. injection Hk' as <-.
    split.
    + unfold same_but_staging in Hs. cbn in Hs. unfold same_config. tauto.
    + rewrite Hfs. cbn. rewrite fmap_insert, Reset_pushed.
      apply insert_id. rewrite lookup_fmap, Hk. reflexivity.
Qed.

Lemma Reset_Reset_buckets (fs : gmap Z VertexCollectorFilter) :
  Filter.Reset <$> (Filter.Reset <$> fs) = Filter.Reset <$> fs.
Proof.
  apply map_eq. intros k. rewrite !lookup_fmap.
  destruct (fs !! k); reflexivity.
Qed.

Lemma Reset_created_buckets (fs : gmap Z VertexCollectorFilter) :
  all_created fs -> Filter.Reset <$> fs = fs.
Proof.
  intros Hc. apply map_eq. intros k. rewrite lookup_fmap.
  destruct (fs !! k) as [f|] eqn:Hk; [| reflexivity].
  rewrite (Hc k f Hk). reflexivity.
Qed.

Lemma reachable_config_buckets (vc0 vc : VertexCollector P) :
  all_created (filters P vc0) -> reachable P vc0 vc ->
  same_config P vc0 vc /\ Filter.Reset <$> filters P vc = filters P vc0.
Proof.
  intros Hc Hr. induction Hr as [| mgr vc s o mgr' vc' _ IH Hs | vc _ IH].
  - split; [unfold same_config; tauto | apply Reset_created_buckets, Hc].
  - destruct IH as (Hcfg & Hb).
    apply submit_config_buckets in Hs as (Hcfg' & Hb').
    split; [unfold same_config in *; intuition congruence | congruence].
  - destruct IH as (Hcfg & Hb). split; [exact Hcfg |].
    cbn. rewrite Reset_Reset_buckets. exact Hb.
Qed.

Lemma Reset_same_as_new (vc0 vc : VertexCollector P) :
  constructed P vc0 -> reachable P vc0 vc ->
  same_but_staging P (Reset P vc) vc0.
Proof.
  intros Hn Hr. apply constructed_inv in Hn as (Hc & Ha).
  destruct (reachable_config_buckets vc0 vc Ha Hr) as (Hcfg & Hb).
  unfold counters in Hc. injection Hc as Hv Hi Hp Ht.
  unfold same_config in Hcfg. unfold same_but_staging. cbn.
  rewrite Hv, Hi, Hp, Ht, Hb. intuition congruence.
Qed.

(** ** What an accepted call writes *)

Lemma commit_details mgr (vc0 vc : VertexCollector P) fr mesh (info : Primitive)
    lt lc k mgr' vc' :
  commit P mgr vc0 vc fr mesh info lt lc k = Some (mgr', vc') ->
  exists f,
    filters P vc !! k = Some f
    /\ filters P vc' !! k
       = Some (pushed f (make_geom P vc k info (vertIndex P vc0) (indIndex P vc0)
                           (transformIndex P vc0))
                 (triangleCount P info))
    /\ memcpy (vertBuffer_size P vc) sizeof_ShVertex (mappedVertexData P vc)
         (vertIndex P vc0) (pVertices info) (vertexCount info)
       = Some (mappedVertexData P vc')
    /\ (if useIndices P info
        then memcpy INDEX_BUFFER_SIZE sizeof_uint32_t (mappedIndexData P vc)
               (indIndex P vc0) (default [] (pIndices info)) (indexCount info)
             = Some (mappedIndexData P vc')
        else mappedIndexData P vc' = mappedIndexData P vc)
    /\ mappedTransformData P vc'
       = <[transformIndex P vc0 := transform info]> (mappedTransformData P vc)
    /\ transformIndex P vc0 < MAX_BOTTOM_LEVEL_GEOMETRIES_COUNT.
Proof.
  unfold commit. intros H.
  destruct (CopyDataToStaging P vc info (vertIndex P vc0)) as [vc1|] eqn:H1;
    [| discriminate].
  apply CopyDataToStaging_Some in H1 as (_ & mv & Hmv & ->).
  cbn [mbind option_bind] in H.
  destruct (copy_indices_and_transform P vc0 _ info) as [vc3|] eqn:H3;
    [| discriminate].
  apply copy_indices_and_transform_Some in H3 as (mi & mt & Hmi & Hmt & ->).
  cbn [mbind option_bind] in H.
  destruct vc as [ff sz va ia ta cv ci cp ct dv di dt fs]. cbn in *.
  unfold PushGeometry, PushRangeInfo, PushPrimitiveCount in H. cbn in H.
  destruct (fs !! k) as [f|] eqn:Hk; [| discriminate].
  exists f. split; [reflexivity |].
  cbn in H. rewrite !lookup_insert_eq in H. cbn in H.
  rewrite !lookup_insert_eq in H. cbn in H.
  injection H as <- <-. cbn. rewrite lookup_insert_eq.
  apply memcpy_Some in Hmt as (Hb & _ & ->).
  split_and!; try reflexivity; try assumption.
  change TRANSFORM_BUFFER_SIZE with 196608 in Hb.
  unfold MAX_BOTTOM_LEVEL_GEOMETRIES_COUNT, sizeof_VkTransformMatrixKHR in *. lia.
Qed.

Lemma commit_stores mgr (vc0 vc : VertexCollector P) fr mesh (info : Primitive)
    lt lc k mgr' vc' :
  commit P mgr vc0 vc fr mesh info lt lc k = Some (mgr', vc') ->
  mappedVertexData P vc'
  = store (mappedVertexData P vc) (vertIndex P vc0)
      (take (Z.to_nat (vertexCount info)) (pVertices info))
  /\ mappedIndexData P vc'
     = (if useIndices P info
        then store (mappedIndexData P vc) (indIndex P vc0)
               (take (Z.to_nat (indexCount info)) (default [] (pIndices info)))
        else mappedIndexData P vc)
  /\ mappedTransformData P vc'
     = <[transformIndex P vc0 := transform info]> (mappedTransformData P vc).
Proof.
  intros H. apply commit_details in H as (f & _ & _ & Hv & Hi & Ht & _).
  apply memcpy_Some in Hv as (_ & _ & Hv).
  split_and!; [exact Hv | | exact Ht].
  destruct (useIndices P info); [| exact Hi].
  apply memcpy_Some in Hi as (_ & _ & Hi). exact Hi.
Qed.

Lemma commit_defined mgr (vc : VertexCollector P) (s : Submission P) :
  is_Some (commit P mgr vc (advance P vc (s_info s)) (s_frameIndex s)
             (s_parentMesh s) (s_info s) (s_layerTextures s) (s_layerColors s)
             (key_of P s))
  <-> is_Some (filters P vc !! key_of P s)
      /\ vertices_end_inside P vc s = true
      /\ copies_fit P vc s = true.
Proof.
  destruct vc as [ff sz va ia ta cv ci cp ct dv di dt fs].
  unfold commit, CopyDataToStaging, copy_indices_and_transform, memcpy,
    vertices_end_inside, copies_fit, PushGeometry, PushRangeInfo,
    PushPrimitiveCount.
  cbn -[in_buffer Z.leb Z.ltb INDEX_BUFFER_SIZE TRANSFORM_BUFFER_SIZE].
  rewrite andb_true_r.
  destruct (_ <? sz); cbn -[in_buffer Z.leb INDEX_BUFFER_SIZE TRANSFORM_BUFFER_SIZE];
    [| split; [intros [? ?]; discriminate | intros (_ & ? & _); discriminate]].
  destruct (in_buffer sz _ _ _ && _);
    cbn -[in_buffer Z.leb INDEX_BUFFER_SIZE TRANSFORM_BUFFER_SIZE];
    [| split; [intros [? ?]; discriminate | intros (_ & _ & ?); discriminate]].
  destruct (useIndices P (s_info s));
    cbn -[in_buffer Z.leb INDEX_BUFFER_SIZE TRANSFORM_BUFFER_SIZE].
  - destruct (in_buffer INDEX_BUFFER_SIZE _ _ _ && _);
      cbn -[in_buffer Z.leb INDEX_BUFFER_SIZE TRANSFORM_BUFFER_SIZE];
      [| split; [intros [? ?]; discriminate | intros (_ & _ & ?); discriminate]].
    destruct (in_buffer TRANSFORM_BUFFER_SIZE _ _ _);
      cbn -[in_buffer Z.leb INDEX_BUFFER_SIZE TRANSFORM_BUFFER_SIZE];
      [| split; [intros [? ?]; discriminate | intros (_ & _ & ?); discriminate]].
    destruct (fs !! key_of P s) as [f|] eqn:Hk; cbn.
    + rewrite !lookup_insert_eq. cbn. rewrite !lookup_insert_eq. cbn.
      split; eauto.
    + split; [intros [? ?]; discriminate | intros ([? ?] & _); discriminate].
  - destruct (in_buffer TRANSFORM_BUFFER_SIZE _ _ _);
      cbn -[in_buffer Z.leb INDEX_BUFFER_SIZE TRANSFORM_BUFFER_SIZE];
      [| split; [intros [? ?]; discriminate | intros (_ & _ & ?); discriminate]].
    destruct (fs !! key_of P s) as [f|] eqn:Hk; cbn.
    + rewrite !lookup_insert_eq. cbn. rewrite !lookup_insert_eq. cbn.
      split; eauto.
    + split; [intros [? ?]; discriminate | intros ([? ?] & _); discriminate].
Qed.

(** ** Rejections *)

Lemma group_full_rejects mgr (vc : VertexCollector P) s f :
  filters P vc !! key_of P s = Some f -> group_full P f (key_of P s) = true ->
  submit P mgr vc s
  = Some (Rejected (TooManyGeometriesInGroup (key_of P s) (cap (key_of P s))), mgr, vc).
Proof.
  unfold submit, AddPrimitive, GetGeometryCount, group_full, key_of.
  intros -> Hg. cbn. rewrite Hg. reflexivity.
Qed.

(** C10: a call that [AddPrimitive] rejects at the per-filter-group
    geometry-count check (the first check, which is the one that fires exactly
    when the bucket of the key is full) leaves everything as it was: the
    collector it returns is the collector it got, so the four counters, the
    staging memory and every bucket are unchanged, and so is the registry. *)
Theorem C10_group_rejection_changes_nothing mgr (vc : VertexCollector P) s o mgr' vc' :
  submit P mgr vc s = Some (o, mgr', vc') ->
  is_group_rejection o = true ->
  vc' = vc /\ mgr' = mgr
  /\ counters P vc' = counters P vc
  /\ mappedVertexData P vc' = mappedVertexData P vc
  /\ mappedIndexData P vc' = mappedIndexData P vc
  /\ mappedTransformData P vc' = mappedTransformData P vc
  /\ filters P vc' = filters P vc
  /\ exists f, filters P vc !! key_of P s = Some f
               /\ group_full P f (key_of P s) = true.
Proof.
  intros H Ho. apply AddPrimitive_cases in H as (f & Hk & [H | [H | H]]).
  - destruct H as (Hg & _ & -> & ->). split_and!; try reflexivity. eauto.
  - destruct H as (_ & _ & _ & Hn & _). congruence.
  - destruct H as (_ & _ & -> & _). discriminate.
Qed.

(** C4: a call that [AddPrimitive] rejects at the vertex-count, the
    index-count or the BLAS-geometry-count check returns the collector with the
    four counters advanced by the rejected primitive and nothing else touched;
    the counters are the ones an accepted call leaves, since every call that
    passes the group check, accepted or not, ends with the same counters. *)
Theorem C4_late_rejection_keeps_advanced_counters
    mgr (vc : VertexCollector P) s o mgr' vc' :
  submit P mgr vc s = Some (o, mgr', vc') ->
  is_group_rejection o = false ->
  counters P vc'
  = (u32 (AlignUpBy3 (curVertexCount P vc) + vertexCount (s_info s)),
     u32 (AlignUpBy3 (curIndexCount P vc) + indices_used P (s_info s)),
     u32 (curPrimitiveCount P vc + triangleCount P (s_info s)),
     u32 (curTransformCount P vc + 1))
  /\ (returned o = false -> vc' = advance P vc (s_info s) /\ mgr' = mgr).
Proof.
  intros H Ho. apply AddPrimitive_cases in H as (f & Hk & [H | [H | H]]).
  - destruct H as (_ & -> & _). discriminate.
  - destruct H as (_ & _ & _ & _ & -> & ->). split; [reflexivity | auto].
  - destruct H as (_ & _ & -> & Hc).
    apply commit_Some in Hc as (_ & _ & _ & _ & _ & Hs & _).
    split; [| discriminate].
    unfold same_but_staging in Hs. cbn in Hs.
    destruct Hs as (_ & _ & _ & _ & _ & Hv & Hi & Hp & Ht & _).
    unfold counters. rewrite <- Hv, <- Hi, <- Hp, <- Ht. reflexivity.
Qed.

(** ** Accepted calls *)

Lemma accepted_inv mgr (vc : VertexCollector P) s mgr' vc' :
  submit P mgr vc s = Some (Accepted, mgr', vc') ->
  exists f,
    filters P vc !! key_of P s = Some f
    /\ group_full P f (key_of P s) = false
    /\ within_limits P mgr vc s = true
    /\ commit P mgr vc (advance P vc (s_info s)) (s_frameIndex s)
         (s_parentMesh s) (s_info s) (s_layerTextures s) (s_layerColors s)
         (key_of P s) = Some (mgr', vc').
Proof.
  intros H. apply AddPrimitive_cases in H as (f & Hk & [H | [H | H]]).
  - destruct H as (_ & H & _). discriminate.
  - destruct H as (_ & _ & H & _). discriminate.
  - exists f. tauto.
Qed.

(** C5: for every accepted primitive the vertex and the index insertion
    offsets are multiples of 3.  These offsets are the values written as
    [baseVertexIndex] and (for an indexed primitive) [baseIndexIndex] of the
    record handed to the registry, the places the staging writes start at,
    and the element offsets inside the device addresses of the geometry pushed
    to the bucket; [baseIndexIndex] stays a multiple of 3 for a primitive
    without indices too. *)
Theorem C5_insertion_offsets_multiples_of_3 mgr (vc : VertexCollector P) s mgr' vc' :
  submit P mgr vc s = Some (Accepted, mgr', vc') ->
  vertIndex P vc mod 3 = 0 /\ indIndex P vc mod 3 = 0
  /\ exists e f' geom,
       mgr' = mgr ++ [e]
       /\ baseVertexIndex (e_geomInfo e) = vertIndex P vc
       /\ baseIndexIndex (e_geomInfo e)
          = (if useIndices P (s_info s) then indIndex P vc else UINT32_MAX)
       /\ baseVertexIndex (e_geomInfo e) mod 3 = 0
       /\ baseIndexIndex (e_geomInfo e) mod 3 = 0
       /\ memcpy (vertBuffer_size P vc) sizeof_ShVertex (mappedVertexData P vc)
            (vertIndex P vc) (pVertices (s_info s)) (vertexCount (s_info s))
          = Some (mappedVertexData P vc')
       /\ (useIndices P (s_info s) = true ->
           memcpy INDEX_BUFFER_SIZE sizeof_uint32_t (mappedIndexData P vc)
             (indIndex P vc) (default [] (pIndices (s_info s)))
             (indexCount (s_info s))
           = Some (mappedIndexData P vc'))
       /\ filters P vc' !! key_of P s = Some f'
       /\ last (asGeometries f') = Some geom
       /\ vertexData_deviceAddress geom
          = u64 (u64 (vertBuffer_address P vc
                      + u64 (vertIndex P vc * sizeof_ShVertex))
                 + offsetof_ShVertex_position)
       /\ (useIndices P (s_info s) = true ->
           indexData_deviceAddress geom
           = u64 (indexBuffer_address P vc + u64 (indIndex P vc * sizeof_uint32_t))).
Proof.
  intros H. apply accepted_inv in H as (f & Hk & _ & _ & Hc).
  pose proof (AlignUpBy3_mod3 (curVertexCount P vc)) as Hv.
  pose proof (AlignUpBy3_mod3 (curIndexCount P vc)) as Hi.
  fold (vertIndex P vc) in Hv. fold (indIndex P vc) in Hi.
  split; [exact Hv |]. split; [exact Hi |].
  pose proof Hc as Hd.
  apply commit_Some in Hc as (f1 & geom & _ & _ & _ & _ & Hm).
  apply commit_details in Hd as (f2 & _ & Hf' & Hmv & Hmi & _).
  eexists. eexists. eexists.
  split; [exact Hm |]. cbn [e_geomInfo make_geomInfo baseVertexIndex baseIndexIndex].
  split_and!; try reflexivity; try assumption.
  - destruct (useIndices P (s_info s)); [exact Hi | apply UINT32_MAX_mod3].
  - intros Hu. rewrite Hu in Hmi. exact Hmi.
  - exact Hf'.
  - unfold pushed. cbn. apply last_snoc.
  - reflexivity.
  - intros Hu. unfold make_geom. cbn. rewrite Hu. reflexivity.
Qed.

(** C6: for every accepted primitive without indices (index count zero or
    index pointer null) the record handed to the registry has [baseIndexIndex]
    and [indexCount] equal to [UINT32_MAX]; and such a primitive of 3 vertices,
    accepted by a freshly constructed collector, leaves the vertex count at 3,
    the index count at 0 and the bucket of its key with one geometry. *)
Theorem C6_non_indexed_sentinel mgr (vc : VertexCollector P) s mgr' vc' :
  submit P mgr vc s = Some (Accepted, mgr', vc') ->
  indexCount (s_info s) = 0 \/ pIndices (s_info s) = None ->
  (exists e,
      mgr' = mgr ++ [e]
      /\ baseIndexIndex (e_geomInfo e) = UINT32_MAX
      /\ gi_indexCount (e_geomInfo e) = UINT32_MAX)
  /\ (constructed P vc ->
      vertexCount (s_info s) = 3 ->
      GetCurrentVertexCount P vc' = 3
      /\ GetCurrentIndexCount P vc' = 0
      /\ GetGeometryCount P vc' (key_of P s) = Some 1).
Proof.
  intros H Hni.
  assert (Hu : useIndices P (s_info s) = false).
  { unfold useIndices. destruct Hni as [-> | ->]; [reflexivity |].
    apply andb_false_iff. right. apply bool_decide_eq_false. intros [? ?]. discriminate. }
  apply accepted_inv in H as (f & Hk & _ & _ & Hc).
  pose proof Hc as Hd.
  apply commit_Some in Hc as (f1 & geom & Hk1 & _ & _ & Hs & Hm).
  apply commit_details in Hd as (f2 & Hk2 & Hf' & _).
  cbn in Hk1, Hk2. rewrite Hk in Hk1, Hk2.
  injection Hk1 as <-. injection Hk2 as <-.
  split.
  - eexists. split; [exact Hm |]. cbn. rewrite Hu. auto.
  - intros Hn H3.
    apply constructed_inv in Hn as (Hcnt & Hcr).
    unfold counters in Hcnt. injection Hcnt as Hv Hi Hp Ht.
    unfold same_but_staging in Hs. cbn in Hs.
    destruct Hs as (_ & _ & _ & _ & _ & Hv' & Hi' & _).
    unfold GetCurrentVertexCount, GetCurrentIndexCount, GetGeometryCount.
    rewrite <- Hv', <- Hi', Hf'. unfold vertIndex, indIndex.
    rewrite Hv, Hi, Hu, H3, (Hcr _ _ Hk). split_and!; reflexivity.
Qed.

(** ** Copies from staging *)

Lemma size_in_use c e : is_u32 c -> 0 <= e <= 64 -> u64 (c * e) = c * e.
Proof. unfold is_u32. intros Hc He. apply u64_small. nia. Qed.

(** C7: [CopyFromStaging] with the vertex, index and transform counters all
    zero records nothing (no copy, no barrier) and returns false; it returns
    true exactly when one of the three counters is not zero; it only appends
    commands, and the copies among them are one per non-zero counter, each of
    counter times element size bytes. *)
Theorem C7_copy_from_staging (vc : VertexCollector P) (cmd : VkCommandBuffer) :
  is_u32 (curVertexCount P vc) ->
  is_u32 (curIndexCount P vc) ->
  is_u32 (curTransformCount P vc) ->
  (no_counts P vc -> CopyFromStaging P vc cmd = (false, cmd))
  /\ (fst (CopyFromStaging P vc cmd) = true <-> ~ no_counts P vc)
  /\ exists added,
       snd (CopyFromStaging P vc cmd) = cmd ++ added
       /\ List.filter is_copy added = copies_in_use P vc.
Proof.
  intros Hv Hi Ht.
  unfold CopyFromStaging, CopyVertexDataFromStaging, CopyIndexDataFromStaging,
    CopyTransformsFromStaging, transformsBarrier, copies_in_use, no_counts.
  rewrite !size_in_use
    by (try assumption;
        unfold sizeof_ShVertex, sizeof_uint32_t, sizeof_VkTransformMatrixKHR; lia).
  destruct (Z.eqb_spec (curVertexCount P vc) 0) as [Ev | Ev];
    destruct (Z.eqb_spec (curIndexCount P vc) 0) as [Ei | Ei];
    destruct (Z.eqb_spec (curTransformCount P vc) 0) as [Et | Et];
    cbn;
    repeat match goal with
           | |- context [0 <? Z.of_nat ?n] =>
               let b := eval vm_compute in (0 <? Z.of_nat n) in
               change (0 <? Z.of_nat n) with b
           end;
    cbn; rewrite <- ?app_assoc;
    (split; [intros (? & ? & ?); solve [reflexivity | contradiction] |]);
    (split; [split; [intros ?; try discriminate; intros (? & ? & ?); contradiction
                    | intros Hn; try reflexivity; exfalso; apply Hn; auto] |]).
  all: try (exists []; rewrite app_nil_r; split; reflexivity).
  all: eexists; split; [reflexivity | reflexivity].
Qed.

(** ** AreGeometriesEmpty *)

Lemma AreGeometriesEmpty_loop_true (l : list (Z * VertexCollectorFilter)) mask :
  AreGeometriesEmpty_loop l mask = true
  <-> forall p, In p l ->
        Z.land (Filter.GetFilter (snd p)) mask <> 0 ->
        Filter.GetGeometryCount (snd p) <= 0.
Proof.
  induction l as [| p rest IH]; cbn [AreGeometriesEmpty_loop].
  - split; [intros _ p [] | reflexivity].
  - destruct (Z.eqb_spec (Z.land (Filter.GetFilter (snd p)) mask) 0) as [E | E];
      destruct (Z.ltb_spec 0 (Filter.GetGeometryCount (snd p))) as [L | L]; cbn.
    + rewrite IH. split.
      * intros H q [<- | Hq]; [congruence | apply H, Hq].
      * intros H q Hq. apply H. right. exact Hq.
    + rewrite IH. split.
      * intros H q [<- | Hq]; [congruence | apply H, Hq].
      * intros H q Hq. apply H. right. exact Hq.
    + split; [discriminate |].
      intros H. specialize (H p (or_introl eq_refl) E). lia.
    + rewrite IH. split.
      * intros H q [<- | Hq]; [intros _; exact L | apply H, Hq].
      * intros H q Hq. apply H. right. exact Hq.
Qed.

Lemma AreGeometriesEmpty_spec (vc : VertexCollector P) mask :
  Platform_ok P -> wf P vc ->
  AreGeometriesEmpty P vc mask = true
  <-> forall k f, filters P vc !! k = Some f -> Z.land k mask <> 0 -> bucket_len f = 0.
Proof.
  intros Hok (_ & _ & _ & _ & Hb). unfold AreGeometriesEmpty.
  rewrite AreGeometriesEmpty_loop_true. split.
  - intros H k f Hk Hm.
    pose proof (Hb k f Hk) as Hwf.
    assert (Hin : In (k, f) (map_to_list (filters P vc))).
    { apply list_elem_of_In, elem_of_map_to_list, Hk. }
    specialize (H (k, f) Hin). cbn in H.
    unfold Filter.GetFilter in H. rewrite (proj1 Hwf) in H. specialize (H Hm).
    rewrite (wf_bucket_count k f Hok Hwf) in H.
    pose proof (bucket_len_nonneg f). lia.
  - intros H [k f] Hin Hm. cbn in *.
    apply list_elem_of_In, elem_of_map_to_list in Hin.
    pose proof (Hb k f Hin) as Hwf.
    unfold Filter.GetFilter in Hm. rewrite (proj1 Hwf) in Hm.
    rewrite (wf_bucket_count k f Hok Hwf), (H k f Hin Hm). lia.
Qed.

(** C8: [AreGeometriesEmpty( mask )] is true exactly when every registered
    bucket whose key has a bit in common with the mask holds no geometry; it
    is true on a freshly constructed collector, and false right after an
    accepted [AddPrimitive] whose key has a bit in common with the mask. *)
Theorem C8_AreGeometriesEmpty (vc : VertexCollector P) (mask : Z) :
  Platform_ok P -> wf P vc ->
  (AreGeometriesEmpty P vc mask = true
   <-> forall k f, filters P vc !! k = Some f -> Z.land k mask <> 0 ->
                   asGeometries f = [])
  /\ (constructed P vc -> AreGeometriesEmpty P vc mask = true)
  /\ (forall mgr s mgr' vc',
        submit P mgr vc s = Some (Accepted, mgr', vc') ->
        Z.land (key_of P s) mask <> 0 ->
        AreGeometriesEmpty P vc' mask = false).
Proof.
  intros Hok Hwf. split_and!.
  - rewrite (AreGeometriesEmpty_spec vc mask Hok Hwf).
    split; intros H k f Hk Hm; specialize (H k f Hk Hm).
    + unfold bucket_len in H. destruct (asGeometries f); [reflexivity | discriminate].
    + unfold bucket_len. rewrite H. reflexivity.
  - intros Hn. apply constructed_inv in Hn as (_ & Hcr).
    apply (AreGeometriesEmpty_spec vc mask Hok Hwf).
    intros k f Hk _. rewrite (Hcr k f Hk). reflexivity.
  - intros mgr s mgr' vc' Hs Hm.
    pose proof (wf_submit mgr vc s _ _ _ Hok Hwf Hs) as Hwf'.
    apply accepted_inv in Hs as (f & _ & _ & _ & Hc).
    apply commit_details in Hc as (f2 & _ & Hf' & _).
    destruct (AreGeometriesEmpty P vc' mask) eqn:He; [| reflexivity].
    pose proof (proj1 (AreGeometriesEmpty_spec vc' mask Hok Hwf') He _ _ Hf' Hm) as Hz.
    rewrite bucket_len_pushed in Hz.
    pose proof (bucket_len_nonneg f2). lia.
Qed.

(** ** Reset and replay *)

Lemma Reset_buckets_empty (vc : VertexCollector P) k f :
  filters P (Reset P vc) !! k = Some f -> bucket_is_empty f.
Proof.
  cbn. rewrite lookup_fmap. destruct (filters P vc !! k); [| discriminate].
  cbn. intros H. injection H as <-. unfold bucket_is_empty. cbn. auto.
Qed.

(** C9: [Reset] sets the four counters to zero and empties every bucket; so
    on a collector that has been in use since its construction, a sequence of
    [AddPrimitive] calls after [Reset] ends each call the same way and gives
    each primitive the same vertex, index and transform insertion offsets as
    the same sequence on the freshly constructed collector (the registry
    holding the same records at the start of both). *)
Theorem C9_reset_replays_as_fresh (vc0 vc : VertexCollector P) :
  constructed P vc0 ->
  reachable P vc0 vc ->
  counters P (Reset P vc) = (0, 0, 0, 0)
  /\ (forall k f, filters P (Reset P vc) !! k = Some f -> bucket_is_empty f)
  /\ forall mgr subs, trace P mgr (Reset P vc) subs = trace P mgr vc0 subs.
Proof.
  intros Hn Hr. split_and!.
  - reflexivity.
  - apply Reset_buckets_empty.
  - intros mgr subs. apply trace_same. eapply Reset_same_as_new; eauto.
Qed.

(** ** The capacity checks *)

Lemma returns_spec mgr (vc : VertexCollector P) s f :
  filters P vc !! key_of P s = Some f ->
  group_full P f (key_of P s) = false ->
  AddPrimitive_returns P mgr vc s
  = if within_limits P mgr vc s
    then if vertices_end_inside P vc s && copies_fit P vc s then Some true else None
    else Some false.
Proof.
  intros Hk Hg.
  pose proof (commit_defined mgr vc s) as Hd.
  unfold AddPrimitive_returns, submit, AddPrimitive, GetGeometryCount.
  fold (key_of P s). rewrite Hk. cbn [mbind option_bind].
  unfold group_full in Hg. rewrite Hg.
  unfold within_limits, new_vertex_count, new_index_count, new_geom_info_count.
  rewrite !Z.geb_leb.
  destruct (Z.leb_spec (maxVertexCount P (key_of P s))
              (curVertexCount P (advance P vc (s_info s)))) as [Lv | Lv].
  { rewrite (proj2 (Z.ltb_ge _ _) Lv). reflexivity. }
  rewrite (proj2 (Z.ltb_lt _ _) Lv).
  destruct (Z.leb_spec (u32 (MAX_INDEXED_PRIMITIVE_COUNT * 3))
              (curIndexCount P (advance P vc (s_info s)))) as [Li | Li].
  { rewrite (proj2 (Z.ltb_ge _ _) Li). reflexivity. }
  rewrite (proj2 (Z.ltb_lt _ _) Li).
  destruct (Z.leb_spec MAX_BOTTOM_LEVEL_GEOMETRIES_COUNT
              (u32 (GeomInfoMgr.GetCount mgr (s_frameIndex s) + 1))) as [Lg | Lg].
  { rewrite (proj2 (Z.ltb_ge _ _) Lg). reflexivity. }
  rewrite (proj2 (Z.ltb_lt _ _) Lg). cbn [andb].
  destruct (commit P mgr vc (advance P vc (s_info s)) (s_frameIndex s)
              (s_parentMesh s) (s_info s) (s_layerTextures s) (s_layerColors s)
              (key_of P s)) as [[m v]|].
  - destruct (proj1 Hd ltac:(eauto)) as (_ & -> & ->). reflexivity.
  - destruct (vertices_end_inside P vc s) eqn:E1; [| reflexivity].
    destruct (copies_fit P vc s) eqn:E2; [| reflexivity].
    destruct (proj2 Hd) as [? ?]; [| discriminate]. rewrite Hk. eauto.
Qed.

(** A buffer sized for the vertex maximum of the key passes the assert of
    [CopyDataToStaging] whenever the vertex check is passed. *)
Lemma sized_buffer_end_inside (vc : VertexCollector P) s :
  maxVertexCount P (key_of P s) * sizeof_ShVertex <= vertBuffer_size P vc ->
  new_vertex_count P vc s < maxVertexCount P (key_of P s) ->
  vertices_end_inside P vc s = true.
Proof.
  unfold vertices_end_inside, new_vertex_count. cbn. intros Hsz Lv.
  pose proof (u32_range (vertIndex P vc + vertexCount (s_info s))) as Hr.
  unfold is_u32 in Hr. unfold sizeof_ShVertex in *.
  apply Z.ltb_lt. rewrite u64_small by lia. lia.
Qed.

(** On a regular call the copies fit as soon as the index check and the
    assert of [CopyDataToStaging] are passed. *)
Lemma regular_call_fits mgr (vc : VertexCollector P) s :
  regular_call P vc s ->
  within_limits P mgr vc s = true ->
  vertices_end_inside P vc s = true ->
  copies_fit P vc s = true.
Proof.
  unfold regular_call, within_limits, vertices_end_inside, copies_fit, in_buffer,
    new_index_count.
  cbv zeta. cbn [advance curIndexCount with_counters].
  intros ((Nv & Av) & Wv & Hi & Ht) Hl He.
  pose proof (AlignUpBy3_range (curVertexCount P vc)) as Rv.
  pose proof (AlignUpBy3_range (curIndexCount P vc)) as Ri.
  fold (vertIndex P vc) in Rv. fold (indIndex P vc) in Ri.
  unfold is_u32 in Rv, Ri.
  apply andb_true_iff in Hl as (Hl & _). apply andb_true_iff in Hl as (_ & Li).
  apply Z.ltb_lt in Li, He.
  rewrite u32_small in He by (unfold is_u32; lia).
  unfold sizeof_ShVertex in *. rewrite u64_small in He by lia.
  change TRANSFORM_BUFFER_SIZE with 196608.
  change INDEX_BUFFER_SIZE with 12582912.
  change (u32 (MAX_INDEXED_PRIMITIVE_COUNT * 3)) with 3145728 in Li.
  unfold MAX_BOTTOM_LEVEL_GEOMETRIES_COUNT, sizeof_VkTransformMatrixKHR,
    sizeof_uint32_t in *.
  apply andb_true_iff. split; [apply andb_true_iff; split |].
  - apply andb_true_iff. split; apply Z.leb_le; lia.
  - destruct (useIndices P (s_info s)); [| reflexivity].
    destruct (Hi eq_refl) as ((Ni & Ai) & Wi).
    rewrite u32_small in Li by (unfold is_u32; lia).
    apply andb_true_iff. split; apply Z.leb_le; lia.
  - apply Z.leb_le. lia.
Qed.


(** ** Counters along a sequence of accepted calls *)

Lemma accepted_counters mgr (vc : VertexCollector P) s mgr' vc' :
  submit P mgr vc s = Some (Accepted, mgr', vc') ->
  counters P vc' = counters P (advance P vc (s_info s))
  /\ curVertexCount P vc' < MAX_DYNAMIC_VERTEX_COUNT
  /\ curIndexCount P vc' < MAX_INDEXED_PRIMITIVE_COUNT * 3.
Proof.
  intros H. apply accepted_inv in H as (f & _ & _ & Hl & Hc).
  apply commit_Some in Hc as (_ & _ & _ & _ & _ & Hs & _).
  unfold same_but_staging in Hs. cbn in Hs.
  destruct Hs as (_ & _ & _ & _ & _ & Hv & Hi & Hp & Ht & _).
  unfold within_limits, new_vertex_count, new_index_count in Hl.
  apply andb_true_iff in Hl as (Hl & _). apply andb_true_iff in Hl as (Lv & Li).
  apply Z.ltb_lt in Lv, Li. cbn in Lv, Li.
  unfold counters. rewrite <- Hv, <- Hi, <- Hp, <- Ht. cbn.
  split_and!; [reflexivity | |].
  - unfold maxVertexCount in Lv.
    destruct (collectStatic P _);
      unfold MAX_STATIC_VERTEX_COUNT, MAX_DYNAMIC_VERTEX_COUNT in *; lia.
  - exact Li.
Qed.

Lemma sum_of_nonneg (f : Submission P -> Z) subs :
  Forall (fun s => 0 <= f s) subs -> 0 <= sum_of P f subs.
Proof.
  induction 1 as [| s rest Hs _ IH]; cbn; lia.
Qed.

Lemma triangles_bound (s : Submission P) :
  0 <= vertexCount (s_info s) -> 0 <= indexCount (s_info s) ->
  0 <= triangles_of P s
  /\ 3 * triangles_of P s <= vertices_of P s + indices_of P s.
Proof.
  unfold triangles_of, vertices_of, indices_of, triangleCount, indices_used.
  intros Hv Hi.
  pose proof (Z.mul_div_le (vertexCount (s_info s)) 3 ltac:(lia)).
  pose proof (Z.mul_div_le (indexCount (s_info s)) 3 ltac:(lia)).
  pose proof (Z.div_pos (vertexCount (s_info s)) 3 Hv ltac:(lia)).
  pose proof (Z.div_pos (indexCount (s_info s)) 3 Hi ltac:(lia)).
  destruct (useIndices P (s_info s)); lia.
Qed.

Lemma padded_spec (count : Submission P -> Z) subs : forall c,
  (c + sum_of P count subs <= padded P count c subs
   <= c + sum_of P count subs + 2 * Z.of_nat (length subs))
  /\ (padded P count c subs = c + sum_of P count subs
      <-> subs = [] \/ (c mod 3 = 0 /\ no_padding P count subs)).
Proof.
  induction subs as [| s rest IH]; intros c; cbn [padded sum_of length].
  - split; [lia |]. split; [auto | lia].
  - destruct (IH (c + (- c) mod 3 + count s)) as ((L & U) & E).
    pose proof (Z.mod_pos_bound (- c) 3 ltac:(lia)) as Hm.
    split; [lia |]. unfold no_padding in *. split.
    + intros Heq. right.
      assert (Hz : (- c) mod 3 = 0) by lia.
      assert (Hc : c mod 3 = 0) by (Z.div_mod_to_equations; lia).
      split; [exact Hc |].
      destruct rest as [| s' rest']; [constructor |].
      destruct (proj1 E ltac:(lia)) as [Hnil | (Hm1 & Hf)]; [discriminate |].
      cbn [removelast]. constructor; [| exact Hf].
      rewrite Hz in Hm1. Z.div_mod_to_equations. lia.
    + intros [Hnil | (Hc & Hf)]; [discriminate |].
      assert (Hz : (- c) mod 3 = 0) by (Z.div_mod_to_equations; lia).
      destruct rest as [| s' rest']; [cbn; lia |].
      cbn [removelast] in Hf. inversion Hf as [| ? ? Hs Hf']; subst.
      assert (Hr : padded P count (c + (- c) mod 3 + count s) (s' :: rest')
                   = c + (- c) mod 3 + count s + sum_of P count (s' :: rest')).
      { apply E. right. split; [| exact Hf'].
        rewrite Hz. Z.div_mod_to_equations. lia. }
      lia.
Qed.

(** An accepted call wrote inside the staging buffers: its sums of lines
    221-222 did not wrap, the vertex buffer holding fewer than 2^32
    vertices. *)
Lemma accepted_no_wrap mgr (vc : VertexCollector P) s mgr' vc' :
  submit P mgr vc s = Some (Accepted, mgr', vc') ->
  vertBuffer_size P vc < 2 ^ 32 * sizeof_ShVertex ->
  vertIndex P vc + vertexCount (s_info s) < 2 ^ 32
  /\ indIndex P vc + indices_used P (s_info s) < 2 ^ 32.
Proof.
  intros H Hsz. apply accepted_inv in H as (f & _ & _ & _ & Hc).
  apply commit_details in Hc as (_ & _ & _ & Hmv & Hmi & _).
  cbn in Hmv, Hmi.
  apply memcpy_Some in Hmv as (Hv & _). unfold sizeof_ShVertex in *.
  split; [lia |]. unfold indices_used.
  destruct (useIndices P (s_info s)).
  - apply memcpy_Some in Hmi as (Hi & _).
    change INDEX_BUFFER_SIZE with 12582912 in Hi. unfold sizeof_uint32_t in Hi. lia.
  - pose proof (AlignUpBy3_range (curIndexCount P vc)) as Hr.
    unfold is_u32 in Hr. unfold indIndex. lia.
Qed.

Lemma run_accepted_counts subs : forall mgr (vc : VertexCollector P) steps mgr' vc',
  run P mgr vc subs = Some (steps, mgr', vc') ->
  all_accepted steps ->
  Forall (counts_u32 P) subs ->
  vertBuffer_size P vc < 2 ^ 32 * sizeof_ShVertex ->
  0 <= curVertexCount P vc < 2 ^ 32 - 2 ->
  0 <= curIndexCount P vc < 2 ^ 32 - 2 ->
  0 <= curPrimitiveCount P vc ->
  3 * curPrimitiveCount P vc <= curVertexCount P vc + curIndexCount P vc ->
  curVertexCount P vc' = padded P (vertices_of P) (curVertexCount P vc) subs
  /\ curIndexCount P vc' = padded P (indices_of P) (curIndexCount P vc) subs
  /\ curPrimitiveCount P vc'
     = curPrimitiveCount P vc + sum_of P (triangles_of P) subs.
Proof.
  induction subs as [| s rest IH];
    intros mgr vc steps mgr' vc' Hrun Hacc Hu Hsz Rv Ri Rp Inv.
  - cbn in Hrun. injection Hrun as _ _ <-. cbn. lia.
  - cbn [run] in Hrun.
    destruct (submit P mgr vc s) as [[[o m1] v1]|] eqn:Hs; [| discriminate].
    cbn [mbind option_bind] in Hrun.
    destruct (run P m1 v1 rest) as [[[st m2] v2]|] eqn:Hr; [| discriminate].
    cbn in Hrun. injection Hrun as <- <- <-.
    inversion Hacc as [| ? ? Ho Hacc']; subst. cbn in Ho. subst o.
    inversion Hu as [| ? ? (Uv & Ui) Hu']; subst. unfold is_u32 in Uv, Ui.
    destruct (triangles_bound s) as (Tn & Tb); [lia | lia |].
    assert (Nis : 0 <= indices_of P s).
    { unfold indices_of, indices_used. destruct (useIndices P (s_info s)); lia. }
    assert (Nvs : 0 <= vertices_of P s) by (unfold vertices_of; lia).
    destruct (accepted_no_wrap _ _ _ _ _ Hs Hsz) as (Wv & Wi).
    destruct (submit_config_buckets _ _ _ _ _ _ Hs) as ((_ & Hsz1 & _) & _).
    apply accepted_counters in Hs as (Hc & Lv & Li).
    unfold counters, advance in Hc. cbn in Hc.
    injection Hc as Hv1 Hi1 Hp1 _.
    fold (indices_used P (s_info s)) in Hi1.
    fold (indices_of P s) in Hi1. fold (vertices_of P s) in Hv1.
    fold (triangles_of P s) in Hp1.
    fold (indices_of P s) in Wi. fold (vertices_of P s) in Wv.
    unfold vertIndex, indIndex in *.
    pose proof (AlignUpBy3_padding (curVertexCount P vc) ltac:(lia) ltac:(lia)) as Av.
    pose proof (AlignUpBy3_padding (curIndexCount P vc) ltac:(lia) ltac:(lia)) as Ai.
    pose proof (Z.mod_pos_bound (- curVertexCount P vc) 3 ltac:(lia)) as Mv.
    pose proof (Z.mod_pos_bound (- curIndexCount P vc) 3 ltac:(lia)) as Mi.
    rewrite u32_small in Hv1 by (unfold is_u32; lia).
    rewrite u32_small in Hi1 by (unfold is_u32; lia).
    unfold MAX_DYNAMIC_VERTEX_COUNT, MAX_INDEXED_PRIMITIVE_COUNT in *.
    rewrite u32_small in Hp1 by (unfold is_u32; lia).
    cbn [padded sum_of].
    destruct (IH m1 v1 st m2 v2 Hr Hacc' Hu') as (E1 & E2 & E3); try lia.
    rewrite E1, E2, E3, Hv1, Hi1, Hp1, Av, Ai. split_and!; try reflexivity. lia.
Qed.


(** ** The per-group geometry limit *)

(** C1 (amended): on a collector in use since its construction, the bucket of
    a key whose capacity is [cap] never holds more than [cap - 1] geometries
    (none when [cap] is 0 or 1).  [AddPrimitive] returns false at the group
    check, leaving collector and registry as they were, exactly when one more
    geometry would meet or exceed [cap]; in particular a call on a bucket of
    [cap - 1] geometries returns false and leaves it at [cap - 1].  Below
    that, the call gets past the group check, and the bucket grows by one
    geometry when the call is accepted and keeps its length when a later
    check rejects it. *)
Theorem C1_group_limit (vc0 vc : VertexCollector P) mgr s f :
  Platform_ok P ->
  constructed P vc0 ->
  reachable P vc0 vc ->
  filters P vc !! key_of P s = Some f ->
  GetGeometryCount P vc (key_of P s) = Some (bucket_len f)
  /\ bucket_len f <= Z.max 0 (cap (key_of P s) - 1)
  /\ (cap (key_of P s) <= bucket_len f + 1 ->
      submit P mgr vc s
      = Some (Rejected (TooManyGeometriesInGroup (key_of P s) (cap (key_of P s))),
              mgr, vc))
  /\ (bucket_len f + 1 < cap (key_of P s) ->
      forall o mgr' vc',
        submit P mgr vc s = Some (o, mgr', vc') ->
        is_group_rejection o = false
        /\ exists f',
             filters P vc' !! key_of P s = Some f'
             /\ bucket_len f' = bucket_len f + (if returned o then 1 else 0)).
Proof.
  intros Hok Hn Hr Hk.
  pose proof (wf_reachable vc0 vc Hok (wf_constructed _ Hn) Hr) as Hwf.
  pose proof (proj2 (proj2 (proj2 (proj2 Hwf))) _ _ Hk) as Hb.
  pose proof (group_full_spec _ _ Hok Hb) as Hg.
  split_and!.
  - unfold GetGeometryCount. rewrite Hk. cbn.
    rewrite (wf_bucket_count _ _ Hok Hb). reflexivity.
  - destruct Hb as (_ & _ & _ & [-> | Hlt]); lia.
  - intros Hle. apply (group_full_rejects mgr vc s f Hk). apply Hg, Hle.
  - intros Hlt o mgr' vc' Hs.
    assert (Hnf : group_full P f (key_of P s) = false).
    { destruct (group_full P f (key_of P s)) eqn:E; [| reflexivity].
      pose proof (proj1 Hg eq_refl). lia. }
    apply AddPrimitive_cases in Hs as (f0 & Hk0 & [H | [H | H]]);
      rewrite Hk in Hk0; injection Hk0 as <-.
    + destruct H as (H & _). congruence.
    + destruct H as (_ & _ & Hret & Hng & _ & ->).
      split; [exact Hng |]. exists f. rewrite Hret. cbn. split; [exact Hk | lia].
    + destruct H as (_ & _ & -> & Hc).
      split; [reflexivity |].
      apply commit_details in Hc as (f2 & Hk2 & Hf' & _).
      cbn in Hk2. rewrite Hk in Hk2. injection Hk2 as <-.
      eexists. split; [exact Hf' |]. cbn. apply bucket_len_pushed.
Qed.

End Props.

(** * The small instance: examples of the properties *)

Lemma Small_platform_ok : Platform_ok Small.platform.
Proof. intros k. unfold is_u32. cbn. lia. Qed.

Lemma Small_fresh :
  VertexCollector_new Small.platform (Some [])
    (MAX_STATIC_VERTEX_COUNT * sizeof_ShVertex) 4096 8192 12288 73
  = Some Small.vc_fresh.
Proof. vm_compute. reflexivity. Qed.

Lemma Small_constructed : constructed Small.platform Small.vc_fresh.
Proof. left. do 6 eexists. exact Small_fresh. Qed.

Lemma Small_first :
  submit Small.platform [] Small.vc_fresh Small.tri
  = Some (Accepted, Small.mgr_one, Small.vc_one).
Proof. vm_compute. reflexivity. Qed.

Lemma Small_second :
  submit Small.platform Small.mgr_one Small.vc_one Small.tri
  = Some (Accepted, Small.mgr_two, Small.vc_two).
Proof. vm_compute. reflexivity. Qed.

Lemma Small_third :
  submit Small.platform Small.mgr_two Small.vc_two Small.tri
  = Some (Rejected (TooManyGeometriesInGroup 73 3), Small.mgr_two, Small.vc_two).
Proof. vm_compute. reflexivity. Qed.

Lemma Small_two_reachable : reachable Small.platform Small.vc_fresh Small.vc_two.
Proof.
  eapply reach_add; [| exact Small_second].
  eapply reach_add; [| exact Small_first].
  apply reach_init.
Qed.

Lemma Small_bucket_two :
  filters Small.platform Small.vc_two !! key_of Small.platform Small.tri
  = Some Small.bucket_two.
Proof. vm_compute. reflexivity. Qed.

(** The third call on a group of capacity three is refused and leaves the
    bucket at two geometries: the claim that a bucket takes [cap] geometries
    and that only call [cap + 1] fails does not hold. *)
Lemma C1_counterexample :
  VertexCollectorFilterTypeFlags_GetAmountInGlobalArray Small.platform
    (key_of Small.platform Small.tri) = 3
  /\ fmap (map outcome)
       (trace Small.platform [] Small.vc_fresh [Small.tri; Small.tri; Small.tri])
     = Some [Accepted; Accepted; Rejected (TooManyGeometriesInGroup 73 3)]
  /\ GetGeometryCount Small.platform
       (Small.collector_after [Small.tri; Small.tri; Small.tri])
       (key_of Small.platform Small.tri) = Some 2.
Proof. vm_compute. split_and!; reflexivity. Qed.

Lemma C1_witness :
  (Platform_ok Small.platform
   /\ constructed Small.platform Small.vc_fresh
   /\ reachable Small.platform Small.vc_fresh Small.vc_two
   /\ filters Small.platform Small.vc_two !! key_of Small.platform Small.tri
      = Some Small.bucket_two)
  /\ GetGeometryCount Small.platform Small.vc_two (key_of Small.platform Small.tri)
     = Some (bucket_len Small.bucket_two)
  /\ bucket_len Small.bucket_two <= Z.max 0 (3 - 1)
  /\ submit Small.platform Small.mgr_two Small.vc_two Small.tri
     = Some (Rejected (TooManyGeometriesInGroup 73 3), Small.mgr_two, Small.vc_two).
Proof.
  pose proof (C1_group_limit Small.platform Small.vc_fresh Small.vc_two
                Small.mgr_two Small.tri Small.bucket_two
                Small_platform_ok Small_constructed Small_two_reachable
                Small_bucket_two)
    as (H1 & H2 & H3 & _).
  split.
  - split_and!;
      [exact Small_platform_ok | exact Small_constructed
      | exact Small_two_reachable | exact Small_bucket_two].
  - split_and!; [exact H1 | exact H2 |].
    apply H3. vm_compute. discriminate.
Defined.




Lemma C4_witness :
  (submit Small.platform Small.crowded_registry Small.vc_one Small.quad_sub
   = Some (Rejected (TooManyGeomInfos 4096), Small.crowded_registry,
           advance Small.platform Small.vc_one Small.quad)
   /\ is_group_rejection (Rejected (TooManyGeomInfos 4096)) = false)
  /\ counters Small.platform (advance Small.platform Small.vc_one Small.quad)
     = (u32 (AlignUpBy3 3 + 4), u32 (AlignUpBy3 0 + 6), u32 (1 + 2), u32 (1 + 1))
  /\ counters Small.platform (advance Small.platform Small.vc_one Small.quad)
     = (7, 6, 3, 2).
Proof.
  assert (H1 : submit Small.platform Small.crowded_registry Small.vc_one Small.quad_sub
               = Some (Rejected (TooManyGeomInfos 4096), Small.crowded_registry,
                       advance Small.platform Small.vc_one Small.quad))
    by (vm_compute; reflexivity).
  assert (H2 : is_group_rejection (Rejected (TooManyGeomInfos 4096)) = false)
    by reflexivity.
  split; [split; assumption |].
  split; [| vm_compute; reflexivity].
  exact (proj1 (C4_late_rejection_keeps_advanced_counters Small.platform _ _ _ _ _ _
                  H1 H2)).
Defined.

Lemma C5_witness :
  submit Small.platform Small.mgr_one Small.vc_one Small.quad_sub
  = Some (Accepted, Small.registry_after [Small.tri; Small.quad_sub],
          Small.collector_after [Small.tri; Small.quad_sub])
  /\ vertIndex Small.platform Small.vc_one = 3
  /\ indIndex Small.platform Small.vc_one = 0
  /\ vertIndex Small.platform Small.vc_one mod 3 = 0
  /\ indIndex Small.platform Small.vc_one mod 3 = 0
  /\ exists e,
       Small.registry_after [Small.tri; Small.quad_sub] = Small.mgr_one ++ [e]
       /\ baseVertexIndex (e_geomInfo e) = vertIndex Small.platform Small.vc_one
       /\ baseVertexIndex (e_geomInfo e) mod 3 = 0
       /\ baseIndexIndex (e_geomInfo e) mod 3 = 0.
Proof.
  assert (H1 : submit Small.platform Small.mgr_one Small.vc_one Small.quad_sub
               = Some (Accepted, Small.registry_after [Small.tri; Small.quad_sub],
                       Small.collector_after [Small.tri; Small.quad_sub]))
    by (vm_compute; reflexivity).
  pose proof (C5_insertion_offsets_multiples_of_3 Small.platform _ _ _ _ _ H1)
    as (Hv & Hi & e & f' & geom & He & Hbv & _ & Mv & Mi & _).
  split; [exact H1 |].
  split; [vm_compute; reflexivity |]. split; [vm_compute; reflexivity |].
  split; [exact Hv |]. split; [exact Hi |].
  exists e. split_and!; assumption.
Defined.

Lemma C6_witness :
  (submit Small.platform [] Small.vc_fresh Small.tri
   = Some (Accepted, Small.mgr_one, Small.vc_one)
   /\ (indexCount (s_info Small.tri) = 0 \/ pIndices (s_info Small.tri) = None)
   /\ constructed Small.platform Small.vc_fresh
   /\ vertexCount (s_info Small.tri) = 3)
  /\ (exists e,
        Small.mgr_one = [] ++ [e]
        /\ baseIndexIndex (e_geomInfo e) = UINT32_MAX
        /\ gi_indexCount (e_geomInfo e) = UINT32_MAX)
  /\ GetCurrentVertexCount Small.platform Small.vc_one = 3
  /\ GetCurrentIndexCount Small.platform Small.vc_one = 0
  /\ GetGeometryCount Small.platform Small.vc_one (key_of Small.platform Small.tri)
     = Some 1.
Proof.
  assert (H2 : indexCount (s_info Small.tri) = 0 \/ pIndices (s_info Small.tri) = None)
    by (left; reflexivity).
  pose proof (C6_non_indexed_sentinel Small.platform _ _ _ _ _ Small_first H2)
    as (Hs & Hf).
  split; [split_and!;
            [exact Small_first | exact H2 | exact Small_constructed | reflexivity] |].
  split; [exact Hs |].
  exact (Hf Small_constructed eq_refl).
Defined.

Lemma C7_witness :
  (is_u32 (curVertexCount Small.platform Small.vc_one)
   /\ is_u32 (curIndexCount Small.platform Small.vc_one)
   /\ is_u32 (curTransformCount Small.platform Small.vc_one))
  /\ fst (CopyFromStaging Small.platform Small.vc_one []) = true
  /\ List.filter is_copy (snd (CopyFromStaging Small.platform Small.vc_one []))
     = [vkCmdCopyBuffer stagingVertBuffer vertBuffer [mkBufferCopy 0 0 (3 * 64)];
        vkCmdCopyBuffer stagingTransformsBuffer transformsBuffer
          [mkBufferCopy 0 0 (1 * 48)]]
  /\ CopyFromStaging Small.platform Small.vc_fresh [] = (false, []).
Proof.
  assert (H1 : is_u32 (curVertexCount Small.platform Small.vc_one))
    by (vm_compute; split; [discriminate | reflexivity]).
  assert (H2 : is_u32 (curIndexCount Small.platform Small.vc_one))
    by (vm_compute; split; [discriminate | reflexivity]).
  assert (H3 : is_u32 (curTransformCount Small.platform Small.vc_one))
    by (vm_compute; split; [discriminate | reflexivity]).
  pose proof (C7_copy_from_staging Small.platform Small.vc_one [] H1 H2 H3)
    as (_ & Ht & added & Ha & Hc).
  assert (F1 : is_u32 (curVertexCount Small.platform Small.vc_fresh))
    by (vm_compute; split; [discriminate | reflexivity]).
  pose proof (C7_copy_from_staging Small.platform Small.vc_fresh [] F1 F1 F1)
    as (Hz & _).
  split; [split_and!; assumption |].
  split_and!.
  - apply Ht. vm_compute. intros (? & _). discriminate.
  - rewrite Ha. cbn [app]. rewrite Hc. vm_compute. reflexivity.
  - apply Hz. vm_compute. split_and!; reflexivity.
Defined.

Lemma C8_witness :
  (Platform_ok Small.platform /\ wf Small.platform Small.vc_fresh)
  /\ AreGeometriesEmpty Small.platform Small.vc_fresh 1 = true
  /\ AreGeometriesEmpty Small.platform Small.vc_one 1 = false.
Proof.
  assert (Hwf : wf Small.platform Small.vc_fresh)
    by exact (wf_constructed _ _ Small_constructed).
  pose proof (C8_AreGeometriesEmpty Small.platform Small.vc_fresh 1
                Small_platform_ok Hwf) as (_ & Hn & Ha).
  split; [split; [exact Small_platform_ok | exact Hwf] |].
  split.
  - exact (Hn Small_constructed).
  - apply (Ha _ _ _ _ Small_first). vm_compute. discriminate.
Defined.

Lemma C9_witness :
  (constructed Small.platform Small.vc_fresh
   /\ reachable Small.platform Small.vc_fresh Small.vc_two)
  /\ counters Small.platform (Reset Small.platform Small.vc_two) = (0, 0, 0, 0)
  /\ trace Small.platform [] (Reset Small.platform Small.vc_two)
       [Small.quad_sub; Small.tri]
     = trace Small.platform [] Small.vc_fresh [Small.quad_sub; Small.tri]
  /\ trace Small.platform [] Small.vc_fresh [Small.quad_sub; Small.tri]
     = Some [mkStep Accepted (Some (0, 0, 0)); mkStep Accepted (Some (6, 6, 1))].
Proof.
  pose proof (C9_reset_replays_as_fresh Small.platform _ _
                Small_constructed Small_two_reachable) as (Hc & _ & Ht).
  split; [split; [exact Small_constructed | exact Small_two_reachable] |].
  split; [exact Hc |]. split; [apply Ht |]. vm_compute. reflexivity.
Defined.

Lemma C10_witness :
  (submit Small.platform Small.mgr_two Small.vc_two Small.tri
   = Some (Rejected (TooManyGeometriesInGroup 73 3), Small.mgr_two, Small.vc_two)
   /\ is_group_rejection (Rejected (TooManyGeometriesInGroup 73 3)) = true)
  /\ Small.vc_two = Small.vc_two /\ Small.mgr_two = Small.mgr_two
  /\ exists f, filters Small.platform Small.vc_two !! key_of Small.platform Small.tri
               = Some f
               /\ group_full Small.platform f (key_of Small.platform Small.tri) = true.
Proof.
  assert (H2 : is_group_rejection (Rejected (TooManyGeometriesInGroup 73 3)) = true)
    by reflexivity.
  pose proof (C10_group_rejection_changes_nothing Small.platform _ _ _ _ _ _
                Small_third H2) as (Hv & Hm & _ & _ & _ & _ & _ & Hf).
  split; [split; [exact Small_third | exact H2] |].
  split; [exact Hv |]. split; [exact Hm | exact Hf].
Defined.

(** * More on the collector *)

(** ** AlignUpBy3 *)

(** X1: for a 32-bit [x] at most [2^32 - 3], [AlignUpBy3 x] is the least
    multiple of 3 that is not below [x], at most 2 above it; for the two
    largest 32-bit values the sum [x + 2] wraps and [AlignUpBy3 x] is 0. *)
Theorem X1_AlignUpBy3_least_multiple (x : Z) :
  is_u32 x ->
  (x + 2 < 2 ^ 32 ->
   x <= AlignUpBy3 x < x + 3
   /\ forall m, m mod 3 = 0 -> x <= m -> AlignUpBy3 x <= m)
  /\ (2 ^ 32 <= x + 2 -> AlignUpBy3 x = 0)
  /\ AlignUpBy3 x mod 3 = 0.
Proof.
  unfold is_u32. intros Hx. rewrite AlignUpBy3_eq. split_and!.
  - intros Hlt. rewrite u32_small by (unfold is_u32; lia).
    pose proof (Z.div_mod (x + 2) 3 ltac:(lia)) as Hd.
    pose proof (Z.mod_pos_bound (x + 2) 3 ltac:(lia)) as Hm.
    split; [lia |].
    intros m Hm3 Hle.
    pose proof (Z.div_mod m 3 ltac:(lia)) as Hdm. rewrite Hm3 in Hdm.
    assert ((x + 2) / 3 <= m / 3); [| lia].
    apply Z.div_le_lower_bound; lia.
  - intros Hge. unfold u32.
    replace (x + 2) with (x + 2 - 2 ^ 32 + 1 * 2 ^ 32) by lia.
    rewrite Z.mod_add by lia. rewrite Z.mod_small by lia.
    assert ((x + 2 - 2 ^ 32) / 3 = 0); [| lia].
    apply Z.div_small. lia.
  - apply Z.mod_mul. lia.
Qed.


Section MoreProps.

Context (P : Platform).

Local Abbreviation cap := (VertexCollectorFilterTypeFlags_GetAmountInGlobalArray P).

(** ** Which keys construction registers *)

Lemma AddFilter_Some fs k :
  AddFilter fs k
  = (if k =? 0 then Some fs
     else if decide (is_Some (fs !! k)) then None
     else Some (<[k := Filter.create k]> fs)).
Proof.
  unfold AddFilter. destruct (k =? 0); [reflexivity |].
  destruct (fs !! k) eqn:E.
  - rewrite decide_True by eauto. reflexivity.
  - rewrite decide_False; [reflexivity |]. intros [? ?]. discriminate.
Qed.

Lemma InitFilters_loop_keys flags pairs : forall fs fs',
  InitFilters_loop fs flags pairs = Some fs' ->
  forall k, is_Some (fs' !! k)
            <-> is_Some (fs !! k)
                \/ (In k pairs /\ k <> 0 /\ Z.land flags k = k).
Proof.
  induction pairs as [| f rest IH]; intros fs fs' H k; cbn in H.
  - injection H as <-. cbn. tauto.
  - destruct (Z.eqb_spec (Z.land flags f) f) as [E | E].
    + rewrite AddFilter_Some in H.
      destruct (Z.eqb_spec f 0) as [Z0 | Z0]; cbn in H.
      * rewrite (IH _ _ H k). cbn. intuition congruence.
      * destruct (decide (is_Some (fs !! f))); [discriminate |]. cbn in H.
        rewrite (IH _ _ H k). cbn.
        destruct (decide (f = k)) as [<- | Hne].
        -- rewrite lookup_insert_eq. split; [intros _; right; auto |].
           intros _. left. eauto.
        -- rewrite lookup_insert_ne by assumption. intuition congruence.
    + rewrite (IH _ _ H k). cbn. intuition congruence.
Qed.

Lemma InitFilters_loop_succeeds flags pairs : forall fs,
  is_Some (InitFilters_loop fs flags pairs)
  <-> NoDup (List.filter (fun f => (Z.land flags f =? f) && negb (f =? 0)) pairs)
      /\ forall k, In k pairs -> k <> 0 -> Z.land flags k = k -> fs !! k = None.
Proof.
  induction pairs as [| f rest IH]; intros fs; cbn.
  - split; [intros _; split; [constructor | tauto] | eauto].
  - destruct (Z.eqb_spec (Z.land flags f) f) as [E | E]; cbn.
    + rewrite AddFilter_Some.
      destruct (Z.eqb_spec f 0) as [Z0 | Z0]; cbn.
      * rewrite IH. split; intros (Hn & Hk); (split; [exact Hn |]).
        -- intros k [<- | Hin] ? ?; [contradiction | auto].
        -- intros k Hin. apply Hk. auto.
      * destruct (decide (is_Some (fs !! f))) as [Hs | Hs]; cbn.
        -- split; [intros [? ?]; discriminate |].
           intros (_ & Hk). rewrite (Hk f) in Hs by auto.
           destruct Hs; discriminate.
        -- rewrite IH. rewrite NoDup_cons, list_elem_of_In, List.filter_In.
           split.
           ++ intros (Hn & Hk). split; [split; [| exact Hn] |].
              ** intros (Hin & Hc). apply andb_true_iff in Hc as (Hc1 & Hc2).
                 apply Z.eqb_eq in Hc1. apply negb_true_iff, Z.eqb_neq in Hc2.
                 specialize (Hk f Hin Hc2 Hc1).
                 rewrite lookup_insert_eq in Hk. discriminate.
              ** intros k [<- | Hin] Hk0 Hkl.
                 --- destruct (fs !! f) eqn:Ef; [exfalso; apply Hs; eauto | reflexivity].
                 --- specialize (Hk k Hin Hk0 Hkl).
                     destruct (decide (f = k)) as [<- | Hne].
                     +++ rewrite lookup_insert_eq in Hk. discriminate.
                     +++ rewrite lookup_insert_ne in Hk by assumption. exact Hk.
           ++ intros ((Hnin & Hn) & Hk). split; [exact Hn |].
              intros k Hin Hk0 Hkl.
              destruct (decide (f = k)) as [<- | Hne].
              ** exfalso. apply Hnin. split; [exact Hin |].
                 apply andb_true_iff. split; [apply Z.eqb_eq, Hkl |].
                 apply negb_true_iff, Z.eqb_neq, Hk0.
              ** rewrite lookup_insert_ne by assumption. apply Hk; auto.
    + rewrite IH. split; intros (Hn & Hk); (split; [exact Hn |]).
      * intros k [<- | Hin] ? ?; [contradiction | auto].
      * intros k Hin. apply Hk. auto.
Qed.

(** X2: the primary constructor passes its asserts exactly when the filter
    flags are not 0, the registry pointer is not null, the requested
    vertex-buffer size is positive and no flag that [InitFilters] adds is
    listed twice; the collector it returns has the four counters at zero and
    one empty bucket for every listed flag combination that is not 0 and is
    contained in the filter flags, and no other. *)
Theorem X2_registered_keys (g : option GeomInfoManager) (sz va ia ta flags : Z) :
  (is_Some (VertexCollector_new P g sz va ia ta flags)
   <-> flags <> 0 /\ is_Some g /\ 0 < sz /\ NoDup (added_filters P flags))
  /\ forall vc,
       VertexCollector_new P g sz va ia ta flags = Some vc ->
       counters P vc = (0, 0, 0, 0)
       /\ (forall k, is_Some (filters P vc !! k) <-> registers P flags k)
       /\ (forall k f, filters P vc !! k = Some f -> f = Filter.create k).
Proof.
  split.
  - unfold VertexCollector_new, added_filters.
    destruct (Z.eqb_spec flags 0) as [E | E].
    { split; [intros [? ?]; discriminate | tauto]. }
    change (0 <? INDEX_BUFFER_SIZE) with true.
    change (0 <? TRANSFORM_BUFFER_SIZE) with true.
    rewrite !andb_true_r.
    destruct (Z.ltb_spec 0 sz) as [L | L]; cbn [negb].
    2:{ split; [intros [? ?]; discriminate | lia]. }
    destruct (bool_decide_reflect (is_Some g)) as [G | G]; cbn [negb].
    2:{ split; [intros [? ?]; discriminate | tauto]. }
    pose proof (InitFilters_loop_succeeds flags
                  (VertexCollectorFilterTypeFlags_IterateOverFlags P) ∅) as Hs.
    fold (InitFilters P flags) in Hs.
    destruct (InitFilters P flags) as [fs |] eqn:Ei; cbn.
    + split; [| eauto]. intros _. split_and!; try assumption.
      apply Hs. eauto.
    + split; [intros [? ?]; discriminate |].
      intros (_ & _ & _ & Hn). exfalso.
      assert (Hx : is_Some (@None (gmap Z VertexCollectorFilter))).
      { apply Hs. split; [exact Hn |]. intros. apply lookup_empty. }
      destruct Hx; discriminate.
  - intros vc Hn. pose proof Hn as Hn'.
    apply new_inv in Hn as (Hc & Hcr & Hi).
    split; [exact Hc |]. split; [| exact Hcr].
    assert (Hf : filtersFlags P vc = flags).
    { unfold VertexCollector_new in Hn'.
      destruct (flags =? 0); [discriminate |].
      destruct (negb (_ && _)); [discriminate |].
      destruct (negb (bool_decide _)); [discriminate |].
      destruct (InitFilters P flags); [| discriminate].
      cbn in Hn'. injection Hn' as <-. reflexivity. }
    rewrite Hf in Hi. intros k.
    rewrite (InitFilters_loop_keys _ _ _ _ Hi k). rewrite lookup_empty.
    unfold registers. split; [intros [[? H] | H]; [discriminate | exact H] | auto].
Qed.

(** ** Views *)

Lemma constructed_init (vc : VertexCollector P) :
  constructed P vc ->
  InitFilters P (filtersFlags P vc) = Some (filters P vc)
  /\ 0 < vertBuffer_size P vc.
Proof.
  intros [(g & sz & va & ia & ta & fl & H) | (src & H)].
  - unfold VertexCollector_new in H.
    destruct (fl =? 0); [discriminate |].
    change (0 <? INDEX_BUFFER_SIZE) with true in H.
    change (0 <? TRANSFORM_BUFFER_SIZE) with true in H.
    rewrite !andb_true_r in H.
    destruct (Z.ltb_spec 0 sz); [| discriminate]. cbn [negb] in H.
    destruct (negb (bool_decide _)); [discriminate |].
    destruct (InitFilters P fl) as [fs|] eqn:Hi; [| discriminate].
    cbn in H. injection H as <-. cbn. auto.
  - unfold VertexCollector_view in H.
    destruct (Z.ltb_spec 0 (vertBuffer_size P src)); [| discriminate].
    cbn [negb] in H.
    destruct (InitFilters P (filtersFlags P src)) as [fs|] eqn:Hi; [| discriminate].
    cbn in H. injection H as <-. cbn. auto.
Qed.

(** X3: a view can be constructed over every collector in use since its
    construction; it has empty staging memory, zero counters and empty
    buckets for the same keys, shares the device buffers, and so behaves in
    every sequence of [AddPrimitive] calls as the original collector did when
    fresh, and as that collector does after [Reset]. *)
Theorem X3_view_is_fresh (vc0 vc : VertexCollector P) :
  constructed P vc0 ->
  reachable P vc0 vc ->
  exists v,
    VertexCollector_view P vc = Some v
    /\ same_but_staging P v vc0
    /\ same_but_staging P v (Reset P vc)
    /\ mappedVertexData P v = ∅
    /\ mappedIndexData P v = ∅
    /\ mappedTransformData P v = ∅
    /\ forall mgr subs, trace P mgr v subs = trace P mgr vc0 subs.
Proof.
  intros Hc Hr.
  pose proof (constructed_init vc0 Hc) as (Hi & Hsz).
  pose proof (constructed_inv P vc0 Hc) as (Hcnt & Hcr).
  pose proof (reachable_config_buckets P vc0 vc Hcr Hr) as (Hcfg & Hb).
  unfold same_config in Hcfg. destruct Hcfg as (Hf & Hs & Hva & Hia & Hta).
  unfold VertexCollector_view. rewrite <- Hs, <- Hf, Hi.
  rewrite (proj2 (Z.ltb_lt _ _) Hsz). cbn.
  eexists. split; [reflexivity |].
  unfold counters in Hcnt. injection Hcnt as Hv Hii Hp Ht.
  assert (S0 : same_but_staging P
                 (mkCollector P (filtersFlags P vc0) (vertBuffer_size P vc0)
                    (vertBuffer_address P vc) (indexBuffer_address P vc)
                    (transformsBuffer_address P vc) 0 0 0 0 ∅ ∅ ∅ (filters P vc0))
                 vc0).
  { unfold same_but_staging. cbn. rewrite Hv, Hii, Hp, Ht. intuition congruence. }
  split_and!; try reflexivity.
  - exact S0.
  - eapply same_trans; [exact S0 |]. apply same_sym.
    eapply Reset_same_as_new; eauto.
  - intros mgr subs. apply trace_same, S0.
Qed.

(** ** Which calls have no result *)

Lemma no_result_spec mgr (vc : VertexCollector P) (s : Submission P) f :
  filters P vc !! key_of P s = Some f ->
  submit P mgr vc s = None
  <-> group_full P f (key_of P s) = false
      /\ within_limits P mgr vc s = true
      /\ (vertices_end_inside P vc s = false \/ copies_fit P vc s = false).
Proof.
  intros Hk.
  destruct (group_full P f (key_of P s)) eqn:Hg.
  { rewrite (group_full_rejects P mgr vc s f Hk Hg).
    split; [discriminate | intros (? & _); discriminate]. }
  pose proof (returns_spec P mgr vc s f Hk Hg) as Hr.
  unfold AddPrimitive_returns in Hr.
  destruct (submit P mgr vc s) as [r |]; cbn in Hr.
  - split; [discriminate |]. intros (_ & Hl & Hc). exfalso.
    rewrite Hl in Hr. destruct Hc as [Hc | Hc]; rewrite Hc in Hr; cbn in Hr;
      [| rewrite andb_false_r in Hr]; discriminate.
  - split; [| reflexivity]. intros _. split; [reflexivity |].
    destruct (within_limits P mgr vc s); [| discriminate]. split; [reflexivity |].
    destruct (vertices_end_inside P vc s); [| auto].
    destruct (copies_fit P vc s); [discriminate | auto].
Qed.

(** X4: [AddPrimitive] has no result in exactly three cases: the key of the
    primitive has no bucket in this collector (the assert of
    [GetGeometryCount]); every capacity check is passed and the vertex data
    does not end strictly inside the vertex buffer (the assert of
    [CopyDataToStaging]); or the checks are passed and one of the three
    copies would write past the end of its staging buffer or read past the
    end of the caller's array.  On a regular call (arrays as long as their
    counts, no 32-bit wrap of the new counts, a free transform slot) the
    third case does not occur: the call returns true or false unless one of
    the two asserts fails. *)
Theorem X4_calls_without_result mgr (vc : VertexCollector P) (s : Submission P) :
  (submit P mgr vc s = None
   <-> filters P vc !! key_of P s = None
       \/ exists f,
            filters P vc !! key_of P s = Some f
            /\ group_full P f (key_of P s) = false
            /\ within_limits P mgr vc s = true
            /\ (vertBuffer_size P vc
                <= u64 (new_vertex_count P vc s * sizeof_ShVertex)
                \/ copies_fit P vc s = false))
  /\ (regular_call P vc s ->
      submit P mgr vc s = None
      <-> filters P vc !! key_of P s = None
          \/ exists f,
               filters P vc !! key_of P s = Some f
               /\ group_full P f (key_of P s) = false
               /\ within_limits P mgr vc s = true
               /\ vertBuffer_size P vc
                  <= u64 (new_vertex_count P vc s * sizeof_ShVertex)).
Proof.
  assert (He : vertices_end_inside P vc s = false
               <-> vertBuffer_size P vc
                   <= u64 (new_vertex_count P vc s * sizeof_ShVertex)).
  { unfold vertices_end_inside, new_vertex_count. cbn. apply Z.ltb_ge. }
  destruct (filters P vc !! key_of P s) as [f |] eqn:Hk.
  2:{ assert (Hn : submit P mgr vc s = None).
      { unfold submit, AddPrimitive, GetGeometryCount. fold (key_of P s).
        rewrite Hk. reflexivity. }
      split; [| intros _]; (split; [auto | intros _; exact Hn]). }
  pose proof (no_result_spec mgr vc s f Hk) as Hs.
  split; [| intros Hreg]; rewrite Hs; split.
  - intros (Hg & Hl & Hc). right. exists f.
    split_and!; try reflexivity; try assumption.
    destruct Hc as [Hc | Hc]; [left; apply He, Hc | right; exact Hc].
  - intros [H | (f' & Hf' & Hg & Hl & Hc)]; [discriminate |].
    injection Hf' as <-. split_and!; try assumption.
    destruct Hc as [Hc | Hc]; [left; apply He, Hc | right; exact Hc].
  - intros (Hg & Hl & Hc). right. exists f.
    split_and!; try reflexivity; try assumption. apply He.
    destruct (vertices_end_inside P vc s) eqn:Ev; [| reflexivity].
    destruct Hc as [Hc | Hc]; [discriminate |].
    rewrite (regular_call_fits P mgr vc s Hreg Hl Ev) in Hc. discriminate.
  - intros [H | (f' & Hf' & Hg & Hl & Hc)]; [discriminate |].
    injection Hf' as <-. split_and!; try assumption.
    left. apply He, Hc.
Qed.

(** ** Buckets *)

Lemma lock_step_created k : lock_step (Filter.create k).
Proof. unfold lock_step. cbn. auto. Qed.

Lemma lock_step_pushed f geom tri : lock_step f -> lock_step (pushed f geom tri).
Proof.
  unfold lock_step, pushed. cbn. rewrite !length_app. cbn. intros (-> & ->). auto.
Qed.

Lemma submit_lock_step mgr (vc : VertexCollector P) s o mgr' vc' :
  (forall k f, filters P vc !! k = Some f -> lock_step f) ->
  submit P mgr vc s = Some (o, mgr', vc') ->
  forall k f, filters P vc' !! k = Some f -> lock_step f.
Proof.
  intros Hl H. apply AddPrimitive_cases in H as (f0 & Hk & [H | [H | H]]).
  - destruct H as (_ & _ & _ & ->). exact Hl.
  - destruct H as (_ & _ & _ & _ & _ & ->). exact Hl.
  - destruct H as (_ & _ & _ & Hc).
    apply commit_Some in Hc as (f1 & geom & Hk1 & _ & Hfs & _).
    cbn in Hk1. rewrite Hk in Hk1. injection Hk1 as <-.
    intros k f Hf. rewrite Hfs in Hf. cbn in Hf.
    destruct (decide (key_of P s = k)) as [<- | Hne].
    + rewrite lookup_insert_eq in Hf. injection Hf as <-.
      apply lock_step_pushed. eapply Hl; eauto.
    + rewrite lookup_insert_ne in Hf by assumption. eapply Hl; eauto.
Qed.

Lemma reachable_lock_step (vc0 vc : VertexCollector P) :
  constructed P vc0 -> reachable P vc0 vc ->
  forall k f, filters P vc !! k = Some f -> lock_step f.
Proof.
  intros Hc Hr. induction Hr as [| mgr vc s o mgr' vc' _ IH Hs | vc _ IH].
  - intros k f Hf. apply constructed_inv in Hc as (_ & Hcr).
    rewrite (Hcr k f Hf). apply lock_step_created.
  - eapply submit_lock_step; eauto.
  - intros k f Hf. cbn in Hf. rewrite lookup_fmap in Hf.
    destruct (filters P vc !! k); [| discriminate].
    cbn in Hf. injection Hf as <-. unfold lock_step. cbn. auto.
Qed.

(** X5: in a collector in use since its construction the three sequences of
    a bucket always have the same length: for a registered key
    [GetASGeometries], [GetASBuildRangeInfos] and [GetPrimitiveCounts] return
    equally long sequences, of the length [GetGeometryCount] reports; for
    any other key the four of them fail their assertion. *)
Theorem X5_sequences_in_lock_step (vc0 vc : VertexCollector P) (k : Z) :
  constructed P vc0 ->
  reachable P vc0 vc ->
  match GetASGeometries P vc k, GetASBuildRangeInfos P vc k,
        GetPrimitiveCounts P vc k with
  | Some g, Some r, Some p =>
      length r = length g /\ length p = length g
      /\ GetGeometryCount P vc k = Some (u32 (Z.of_nat (length g)))
  | None, None, None => GetGeometryCount P vc k = None
  | _, _, _ => False
  end.
Proof.
  intros Hc Hr. pose proof (reachable_lock_step vc0 vc Hc Hr k) as Hl.
  unfold GetASGeometries, GetASBuildRangeInfos, GetPrimitiveCounts, GetGeometryCount.
  destruct (filters P vc !! k) as [f |]; cbn; [| reflexivity].
  destruct (Hl f eq_refl) as (H1 & H2). auto.
Qed.

(** X6: an accepted call hands the registry one record, for the frame, the
    unique id and the key of the primitive, whose local index is the number
    of geometries the bucket held before the call; at that index the bucket
    then holds the geometry just built (with [maxVertex] the vertex count),
    the build range with the triangle count and zero offsets, and the
    triangle count. *)
Theorem X6_local_index mgr (vc0 vc : VertexCollector P) s mgr' vc' :
  Platform_ok P ->
  constructed P vc0 ->
  reachable P vc0 vc ->
  submit P mgr vc s = Some (Accepted, mgr', vc') ->
  exists e g r,
    mgr' = mgr ++ [e]
    /\ e_frameIndex e = s_frameIndex s
    /\ e_uniqueID e = UniqueID_MakeForPrimitive P (s_parentMesh s) (s_info s)
    /\ e_flags e = key_of P s
    /\ gi_vertexCount (e_geomInfo e) = vertexCount (s_info s)
    /\ GetGeometryCount P vc (key_of P s) = Some (e_localIndex e)
    /\ GetASGeometries P vc' (key_of P s) ≫= (fun l => l !! Z.to_nat (e_localIndex e))
       = Some g
    /\ maxVertex g = vertexCount (s_info s)
    /\ GetASBuildRangeInfos P vc' (key_of P s)
         ≫= (fun l => l !! Z.to_nat (e_localIndex e))
       = Some r
    /\ r = mkRangeInfo (triangleCount P (s_info s)) 0 0 0
    /\ GetPrimitiveCounts P vc' (key_of P s)
         ≫= (fun l => l !! Z.to_nat (e_localIndex e))
       = Some (triangleCount P (s_info s)).
Proof.
  intros Hok Hc Hr Hs.
  pose proof (wf_reachable P vc0 vc Hok (wf_constructed P _ Hc) Hr) as Hwf.
  pose proof (reachable_lock_step vc0 vc Hc Hr) as Hls.
  apply accepted_inv in Hs as (f & Hk & _ & _ & Hcm).
  pose proof Hcm as Hd.
  apply commit_Some in Hcm as (f1 & geom & Hk1 & _ & _ & _ & Hm).
  apply commit_details in Hd as (f2 & Hk2 & Hf' & _).
  cbn in Hk1, Hk2. rewrite Hk in Hk1, Hk2.
  injection Hk1 as <-. injection Hk2 as <-.
  pose proof (proj2 (proj2 (proj2 (proj2 Hwf))) _ _ Hk) as Hb.
  pose proof (wf_bucket_count P _ _ Hok Hb) as Hcnt.
  unfold Filter.GetGeometryCount in Hcnt. fold (bucket_len f) in Hcnt.
  destruct (Hls _ _ Hk) as (Lr & Lp).
  eexists. eexists. eexists.
  split; [exact Hm |]. cbn [e_frameIndex e_uniqueID e_flags e_geomInfo e_localIndex].
  rewrite Hcnt. unfold bucket_len. rewrite Nat2Z.id.
  unfold GetGeometryCount, GetASGeometries, GetASBuildRangeInfos, GetPrimitiveCounts.
  rewrite Hk, Hf'. cbn.
  split_and!; try reflexivity.
  - unfold Filter.GetGeometryCount. fold (bucket_len f). rewrite Hcnt. reflexivity.
  - apply list_lookup_middle. reflexivity.
  - reflexivity.
  - apply list_lookup_middle. symmetry. exact Lr.
  - apply list_lookup_middle. symmetry. exact Lp.
Qed.

(** ** Buckets only grow between two Resets *)

Lemma submit_buckets_grow mgr (vc : VertexCollector P) s o mgr' vc' :
  submit P mgr vc s = Some (o, mgr', vc') ->
  mgr `prefix_of` mgr'
  /\ (forall k, k <> key_of P s -> filters P vc' !! k = filters P vc !! k)
  /\ forall k,
       match filters P vc !! k, filters P vc' !! k with
       | Some f, Some f' =>
           filter f' = filter f
           /\ asGeometries f `prefix_of` asGeometries f'
           /\ asBuildRangeInfos f `prefix_of` asBuildRangeInfos f'
           /\ primitiveCounts f `prefix_of` primitiveCounts f'
       | None, None => True
       | _, _ => False
       end.
Proof.
  intros H.
  assert (Hrefl : forall k,
             match filters P vc !! k, filters P vc !! k with
             | Some f, Some f' =>
                 filter f' = filter f
                 /\ asGeometries f `prefix_of` asGeometries f'
                 /\ asBuildRangeInfos f `prefix_of` asBuildRangeInfos f'
                 /\ primitiveCounts f `prefix_of` primitiveCounts f'
             | None, None => True
             | _, _ => False
             end).
  { intros k. destruct (filters P vc !! k); [split_and!; reflexivity | exact I]. }
  apply AddPrimitive_cases in H as (f0 & Hk & [H | [H | H]]).
  - destruct H as (_ & _ & -> & ->). split_and!; [reflexivity | auto | exact Hrefl].
  - destruct H as (_ & _ & _ & _ & -> & ->).
    split_and!; [reflexivity | auto | exact Hrefl].
  - destruct H as (_ & _ & _ & Hc).
    apply commit_Some in Hc as (f1 & geom & Hk1 & _ & Hfs & _ & Hm).
    cbn in Hk1. rewrite Hk in Hk1. injection Hk1 as <-.
    split_and!.
    + rewrite Hm. apply prefix_app_r. reflexivity.
    + intros k Hne. rewrite Hfs. cbn. apply lookup_insert_ne. congruence.
    + intros k. rewrite Hfs. cbn.
      destruct (decide (key_of P s = k)) as [<- | Hne].
      * rewrite lookup_insert_eq, Hk. unfold pushed. cbn.
        split_and!; [reflexivity | | |]; apply prefix_app_r; reflexivity.
      * rewrite lookup_insert_ne by assumption. apply Hrefl.
Qed.

(** X7: as long as only [AddPrimitive] is called, no bucket appears or
    disappears and each bucket only grows at its end: what a sequence held
    before is a prefix of what it holds after, so an index once handed out
    keeps naming the same geometry. *)
Theorem X7_buckets_only_grow (vc0 vc : VertexCollector P) (k : Z) :
  grows_to P vc0 vc ->
  match filters P vc0 !! k, filters P vc !! k with
  | Some f0, Some f =>
      filter f = filter f0
      /\ asGeometries f0 `prefix_of` asGeometries f
      /\ asBuildRangeInfos f0 `prefix_of` asBuildRangeInfos f
      /\ primitiveCounts f0 `prefix_of` primitiveCounts f
  | None, None => True
  | _, _ => False
  end.
Proof.
  induction 1 as [| mgr vc s o mgr' vc' _ IH Hs].
  - destruct (filters P vc0 !! k); [split_and!; reflexivity | exact I].
  - apply submit_buckets_grow in Hs as (_ & _ & Hs). specialize (Hs k).
    destruct (filters P vc0 !! k) as [f0 |], (filters P vc !! k) as [f |],
             (filters P vc' !! k) as [f' |]; try contradiction; try exact I.
    destruct IH as (E1 & G1 & R1 & P1), Hs as (E2 & G2 & R2 & P2).
    split_and!; [congruence | | |]; etrans; eassumption.
Qed.

(** ** Staging memory *)

Lemma store_lookup_lt {A} (src : list A) : forall (dst : gmap Z A) off j,
  j < off -> store dst off src !! j = dst !! j.
Proof.
  induction src as [| x rest IH]; intros dst off j Hj; cbn; [reflexivity |].
  rewrite IH by lia. apply lookup_insert_ne. lia.
Qed.

Lemma store_lookup_ge {A} (src : list A) : forall (dst : gmap Z A) off j,
  off + Z.of_nat (length src) <= j -> store dst off src !! j = dst !! j.
Proof.
  induction src as [| x rest IH]; intros dst off j Hj; cbn in *; [reflexivity |].
  rewrite IH by lia. apply lookup_insert_ne. lia.
Qed.

Lemma store_lookup_in {A} (src : list A) : forall (dst : gmap Z A) off i x,
  src !! i = Some x -> store dst off src !! (off + Z.of_nat i) = Some x.
Proof.
  induction src as [| y rest IH]; intros dst off i x Hi; [discriminate |].
  destruct i as [| i]; cbn in *.
  - injection Hi as ->. rewrite store_lookup_lt by lia.
    rewrite Z.add_0_r. apply lookup_insert_eq.
  - replace (off + Z.of_nat (S i)) with (off + 1 + Z.of_nat i) by lia.
    apply (IH _ (off + 1) i x Hi).
Qed.

Lemma accepted_staging mgr (vc : VertexCollector P) s mgr' vc' :
  submit P mgr vc s = Some (Accepted, mgr', vc') ->
  (forall i v,
      (i < Z.to_nat (vertexCount (s_info s)))%nat ->
      pVertices (s_info s) !! i = Some v ->
      mappedVertexData P vc' !! (vertIndex P vc + Z.of_nat i) = Some v)
  /\ (forall i x idx,
        (i < Z.to_nat (indexCount (s_info s)))%nat ->
        indexCount (s_info s) <> 0 ->
        pIndices (s_info s) = Some idx ->
        idx !! i = Some x ->
        mappedIndexData P vc' !! (indIndex P vc + Z.of_nat i) = Some x)
  /\ mappedTransformData P vc' !! transformIndex P vc = Some (transform (s_info s))
  /\ exists e,
       mgr' = mgr ++ [e]
       /\ baseVertexIndex (e_geomInfo e) = vertIndex P vc
       /\ (forall idx, indexCount (s_info s) <> 0 -> pIndices (s_info s) = Some idx ->
           baseIndexIndex (e_geomInfo e) = indIndex P vc).
Proof.
  intros Hs. apply accepted_inv in Hs as (f & Hk & _ & _ & Hcm).
  pose proof Hcm as Hd.
  apply commit_Some in Hcm as (f1 & geom & _ & _ & _ & _ & Hm).
  apply commit_stores in Hd as (Hv & Hi & Ht).
  cbn in Hv, Hi, Ht.
  assert (Hu : forall idx, indexCount (s_info s) <> 0 -> pIndices (s_info s) = Some idx ->
                           useIndices P (s_info s) = true).
  { intros idx Hz Hp. unfold useIndices. rewrite Hp.
    apply andb_true_iff. split; [apply negb_true_iff, Z.eqb_neq, Hz |].
    apply bool_decide_eq_true. eauto. }
  split_and!.
  - intros i v Hlt Hl. rewrite Hv.
    apply store_lookup_in. rewrite lookup_take_lt by exact Hlt. exact Hl.
  - intros i x idx Hlt Hz Hp Hl. rewrite Hi, (Hu idx Hz Hp), Hp. cbn [default].
    apply store_lookup_in. rewrite lookup_take_lt by exact Hlt. exact Hl.
  - rewrite Ht. apply lookup_insert_eq.
  - eexists. split; [exact Hm |]. cbn. split; [reflexivity |].
    intros idx Hz Hp. rewrite (Hu idx Hz Hp). reflexivity.
Qed.

(** X8: after an accepted call the staging buffers hold the primitive: its
    [i]-th vertex at [vertIndex + i] (the record's [baseVertexIndex]), for an
    indexed primitive its [i]-th index at [indIndex + i] (the record's
    [baseIndexIndex]), its transform at [transformIndex]. *)
Theorem X8_staged_data_reads_back mgr (vc : VertexCollector P) s mgr' vc' :
  submit P mgr vc s = Some (Accepted, mgr', vc') ->
  (forall i v,
      (i < Z.to_nat (vertexCount (s_info s)))%nat ->
      pVertices (s_info s) !! i = Some v ->
      mappedVertexData P vc' !! (vertIndex P vc + Z.of_nat i) = Some v)
  /\ (forall i x idx,
        (i < Z.to_nat (indexCount (s_info s)))%nat ->
        indexCount (s_info s) <> 0 ->
        pIndices (s_info s) = Some idx ->
        idx !! i = Some x ->
        mappedIndexData P vc' !! (indIndex P vc + Z.of_nat i) = Some x)
  /\ mappedTransformData P vc' !! transformIndex P vc = Some (transform (s_info s))
  /\ exists e,
       mgr' = mgr ++ [e]
       /\ baseVertexIndex (e_geomInfo e) = vertIndex P vc
       /\ (forall idx, indexCount (s_info s) <> 0 -> pIndices (s_info s) = Some idx ->
           baseIndexIndex (e_geomInfo e) = indIndex P vc).
Proof. apply accepted_staging. Qed.

(** ** Once over a maximum, always rejected *)

(** X10: once the vertex counter has reached the vertex maximum of a key,
    or the index counter the index maximum, every further call for that key
    returns false and leaves that counter at or above the maximum, as long as
    the counts do not wrap around 32 bits: only [Reset] ends the rejections. *)
Theorem X10_rejection_is_sticky mgr (vc : VertexCollector P) s o mgr' vc' :
  submit P mgr vc s = Some (o, mgr', vc') ->
  0 <= vertexCount (s_info s) ->
  0 <= indexCount (s_info s) ->
  0 <= curVertexCount P vc ->
  0 <= curIndexCount P vc ->
  curVertexCount P vc + 2 + vertexCount (s_info s) < 2 ^ 32 ->
  curIndexCount P vc + 2 + indexCount (s_info s) < 2 ^ 32 ->
  maxVertexCount P (key_of P s) <= curVertexCount P vc
  \/ MAX_INDEXED_PRIMITIVE_COUNT * 3 <= curIndexCount P vc ->
  returned o = false
  /\ (maxVertexCount P (key_of P s) <= curVertexCount P vc ->
      maxVertexCount P (key_of P s) <= curVertexCount P vc')
  /\ (MAX_INDEXED_PRIMITIVE_COUNT * 3 <= curIndexCount P vc ->
      MAX_INDEXED_PRIMITIVE_COUNT * 3 <= curIndexCount P vc').
Proof.
  intros Hs Nv Ni Cv Ci Wv Wi Hover.
  assert (Av : curVertexCount P vc <= AlignUpBy3 (curVertexCount P vc)
               <= curVertexCount P vc + 2).
  { pose proof (AlignUpBy3_bounds (curVertexCount P vc) ltac:(lia) ltac:(lia)). lia. }
  assert (Ai : curIndexCount P vc <= AlignUpBy3 (curIndexCount P vc)
               <= curIndexCount P vc + 2).
  { pose proof (AlignUpBy3_bounds (curIndexCount P vc) ltac:(lia) ltac:(lia)). lia. }
  assert (Iu : 0 <= indices_used P (s_info s) <= indexCount (s_info s)).
  { unfold indices_used. destruct (useIndices P (s_info s)); lia. }
  assert (Ev : new_vertex_count P vc s
               = AlignUpBy3 (curVertexCount P vc) + vertexCount (s_info s)).
  { unfold new_vertex_count, advance, vertIndex. cbn.
    apply u32_small. unfold is_u32. lia. }
  assert (Ei : new_index_count P vc s
               = AlignUpBy3 (curIndexCount P vc) + indices_used P (s_info s)).
  { unfold new_index_count, advance, indIndex. cbn.
    fold (indices_used P (s_info s)). apply u32_small. unfold is_u32. lia. }
  assert (Hl : within_limits P mgr vc s = false).
  { unfold within_limits.
    change (u32 (MAX_INDEXED_PRIMITIVE_COUNT * 3)) with (MAX_INDEXED_PRIMITIVE_COUNT * 3).
    destruct Hover as [H | H].
    - rewrite (proj2 (Z.ltb_ge (new_vertex_count P vc s) _)) by lia. reflexivity.
    - rewrite (proj2 (Z.ltb_ge (new_index_count P vc s) _)) by lia.
      rewrite andb_false_r. reflexivity. }
  apply AddPrimitive_cases in Hs as (f & Hk & [H | [H | H]]).
  - destruct H as (_ & -> & _ & ->). split_and!; [reflexivity | auto | auto].
  - destruct H as (_ & _ & Hr & _ & _ & ->). split; [exact Hr |].
    fold (new_vertex_count P vc s). fold (new_index_count P vc s).
    rewrite Ev, Ei. split; intros; lia.
  - destruct H as (_ & H & _). congruence.
Qed.

(** ** Counting all geometries *)

Lemma u32_add_u32_r a x : u32 (a + u32 x) = u32 (a + x).
Proof. unfold u32. apply Z.add_mod_idemp_r. lia. Qed.

Lemma u32_add_u32_l a x : u32 (u32 a + x) = u32 (a + x).
Proof. unfold u32. apply Z.add_mod_idemp_l. lia. Qed.

Lemma count_fold (l : list (Z * VertexCollectorFilter)) : forall a,
  fold_left (fun count kf => u32 (count + Filter.GetGeometryCount (snd kf))) l (u32 a)
  = u32 (a + foldr (fun kf acc => bucket_len (snd kf) + acc) 0 l).
Proof.
  induction l as [| kf rest IH]; intros a; cbn.
  - rewrite Z.add_0_r. reflexivity.
  - unfold Filter.GetGeometryCount at 2. fold (bucket_len (snd kf)).
    rewrite u32_add_u32_r, u32_add_u32_l, IH. f_equal. lia.
Qed.

Lemma GetAllGeometryCount_total (vc : VertexCollector P) :
  GetAllGeometryCount P vc = u32 (total_geometries (filters P vc)).
Proof.
  unfold GetAllGeometryCount, total_geometries.
  change 0 with (u32 0) at 1. rewrite count_fold. reflexivity.
Qed.

Lemma total_perm (l l' : list (Z * VertexCollectorFilter)) :
  l ≡ₚ l' ->
  foldr (fun kf acc => bucket_len (snd kf) + acc) 0 l
  = foldr (fun kf acc => bucket_len (snd kf) + acc) 0 l'.
Proof. induction 1; cbn; lia. Qed.

Lemma total_insert_fresh (m : gmap Z VertexCollectorFilter) k f :
  m !! k = None ->
  total_geometries (<[k := f]> m) = bucket_len f + total_geometries m.
Proof.
  intros H. unfold total_geometries.
  rewrite (total_perm _ _ (map_to_list_insert m k f H)). reflexivity.
Qed.

Lemma total_insert (m : gmap Z VertexCollectorFilter) k f f' :
  m !! k = Some f ->
  total_geometries (<[k := f']> m)
  = total_geometries m - bucket_len f + bucket_len f'.
Proof.
  intros H.
  rewrite <- (insert_delete_eq m k f').
  rewrite <- (insert_delete_id m k f H) at 2.
  rewrite !total_insert_fresh by apply lookup_delete_eq. lia.
Qed.

Lemma total_zero (m : gmap Z VertexCollectorFilter) :
  (forall k f, m !! k = Some f -> bucket_len f = 0) -> total_geometries m = 0.
Proof.
  intros H. unfold total_geometries.
  assert (Hall : Forall (fun kf => bucket_len (snd kf) = 0) (map_to_list m)).
  { apply Forall_forall. intros [k f] Hin. cbn.
    apply elem_of_map_to_list in Hin. eauto. }
  induction Hall as [| kf rest Hz _ IH]; cbn; lia.
Qed.

Lemma submit_total mgr (vc : VertexCollector P) s o mgr' vc' :
  submit P mgr vc s = Some (o, mgr', vc') ->
  total_geometries (filters P vc')
  = total_geometries (filters P vc) + (if returned o then 1 else 0).
Proof.
  intros H. apply AddPrimitive_cases in H as (f & Hk & [H | [H | H]]).
  - destruct H as (_ & -> & _ & ->). cbn. lia.
  - destruct H as (_ & _ & -> & _ & _ & ->). cbn. lia.
  - destruct H as (_ & _ & -> & Hc).
    apply commit_Some in Hc as (f1 & geom & Hk1 & _ & Hfs & _).
    cbn in Hk1. rewrite Hk in Hk1. injection Hk1 as <-.
    rewrite Hfs. cbn. rewrite (total_insert _ _ _ _ Hk), bucket_len_pushed. lia.
Qed.

Lemma run_total subs : forall mgr (vc : VertexCollector P) steps mgr' vc',
  run P mgr vc subs = Some (steps, mgr', vc') ->
  total_geometries (filters P vc')
  = total_geometries (filters P vc)
    + Z.of_nat (length (List.filter (fun st => returned (outcome st)) steps)).
Proof.
  induction subs as [| s rest IH]; intros mgr vc steps mgr' vc' Hrun.
  - cbn in Hrun. injection Hrun as <- _ <-. cbn. lia.
  - cbn [run] in Hrun.
    destruct (submit P mgr vc s) as [[[o m1] v1]|] eqn:Hs; [| discriminate].
    cbn [mbind option_bind] in Hrun.
    destruct (run P m1 v1 rest) as [[[st m2] v2]|] eqn:Hr; [| discriminate].
    cbn in Hrun. injection Hrun as <- <- <-.
    rewrite (IH _ _ _ _ _ Hr), (submit_total _ _ _ _ _ _ Hs). cbn.
    destruct (returned o); cbn [length]; lia.
Qed.

(** X11: starting from empty buckets, after any sequence of [AddPrimitive]
    calls [GetAllGeometryCount] is the number of calls that returned true
    (modulo 2^32). *)
Theorem X11_GetAllGeometryCount_counts_accepted
    mgr (vc0 : VertexCollector P) subs steps mgr' vc' :
  (forall k f, filters P vc0 !! k = Some f -> asGeometries f = []) ->
  run P mgr vc0 subs = Some (steps, mgr', vc') ->
  GetAllGeometryCount P vc'
  = u32 (Z.of_nat (length (List.filter (fun st => returned (outcome st)) steps))).
Proof.
  intros He Hrun. rewrite GetAllGeometryCount_total, (run_total _ _ _ _ _ _ Hrun).
  rewrite total_zero; [reflexivity |].
  intros k f Hk. unfold bucket_len. rewrite (He k f Hk). reflexivity.
Qed.

(** ** Reset *)

Lemma empty_loop (l : list (Z * VertexCollectorFilter)) mask :
  Forall (fun kf => asGeometries (snd kf) = []) l ->
  AreGeometriesEmpty_loop l mask = true.
Proof.
  induction 1 as [| kf rest Hz _ IH]; cbn; [reflexivity |].
  unfold Filter.GetGeometryCount. rewrite Hz. cbn.
  rewrite andb_false_r. exact IH.
Qed.

(** X12: [Reset] is idempotent; after it [AreGeometriesEmpty] is true for
    every mask, [GetAllGeometryCount] is 0, [CopyFromStaging] returns false
    and records nothing and [InsertVertexPreprocessFinishBarrier] records
    nothing; it keeps every bucket (emptied) under its key and leaves the
    device buffers and what the staging memory holds as they were. *)
Theorem X12_Reset (vc : VertexCollector P) :
  Reset P (Reset P vc) = Reset P vc
  /\ (forall mask, AreGeometriesEmpty P (Reset P vc) mask = true)
  /\ GetAllGeometryCount P (Reset P vc) = 0
  /\ (forall cmd, CopyFromStaging P (Reset P vc) cmd = (false, cmd))
  /\ (forall cmd, InsertVertexPreprocessFinishBarrier P (Reset P vc) cmd = cmd)
  /\ (forall k, filters P (Reset P vc) !! k
                = (fun f => mkFilter (filter f) [] [] []) <$> filters P vc !! k)
  /\ same_config P vc (Reset P vc)
  /\ mappedVertexData P (Reset P vc) = mappedVertexData P vc
  /\ mappedIndexData P (Reset P vc) = mappedIndexData P vc
  /\ mappedTransformData P (Reset P vc) = mappedTransformData P vc.
Proof.
  split_and!; try reflexivity.
  - unfold Reset at 1 3. cbn. rewrite Reset_Reset_buckets. reflexivity.
  - intros mask. unfold AreGeometriesEmpty. apply empty_loop.
    apply Forall_forall. intros [k f] Hin. cbn.
    apply elem_of_map_to_list in Hin. cbn in Hin. rewrite lookup_fmap in Hin.
    destruct (filters P vc !! k); [| discriminate]. cbn in Hin.
    injection Hin as <-. reflexivity.
  - rewrite GetAllGeometryCount_total, total_zero; [reflexivity |].
    intros k f Hk. cbn in Hk. rewrite lookup_fmap in Hk.
    destruct (filters P vc !! k); [| discriminate]. cbn in Hk.
    injection Hk as <-. reflexivity.
  - intros k. cbn. rewrite lookup_fmap. reflexivity.
  - unfold same_config. cbn. tauto.
Qed.

(** ** Commands *)

Ltac counters_cases vc :=
  destruct (Z.eqb_spec (curVertexCount P vc) 0) as [Ev | Ev];
  destruct (Z.eqb_spec (curIndexCount P vc) 0) as [Ei | Ei];
  destruct (Z.eqb_spec (curTransformCount P vc) 0) as [Et | Et].

(** X13: [CopyFromStaging] only appends commands, and every copy it records
    is followed by a buffer barrier on the copy's destination, from
    transfer-write access, over exactly the bytes copied.  It records at most
    two pipeline barriers, each with one or two buffer barriers, and each copy
    goes from a staging buffer to its own device buffer in one region. *)
Theorem X13_copies_are_guarded (vc : VertexCollector P) (cmd : VkCommandBuffer) :
  exists added,
    snd (CopyFromStaging P vc cmd) = cmd ++ added
    /\ copies_guarded added
    /\ (length (List.filter (fun c => negb (is_copy c)) added) <= 2)%nat
    /\ Forall (fun c => match c with
                        | vkCmdPipelineBarrier _ _ bs => (1 <= length bs <= 2)%nat
                        | vkCmdCopyBuffer src dst regions =>
                            length regions = 1%nat
                            /\ match src, dst with
                               | stagingVertBuffer, vertBuffer
                               | stagingIndexBuffer, indexBuffer
                               | stagingTransformsBuffer, transformsBuffer => True
                               | _, _ => False
                               end
                        end) added.
Proof.
  unfold CopyFromStaging, CopyVertexDataFromStaging, CopyIndexDataFromStaging,
    CopyTransformsFromStaging, transformsBarrier.
  counters_cases vc; cbn;
    repeat match goal with
           | |- context [0 <? Z.of_nat ?n] =>
               let b := eval vm_compute in (0 <? Z.of_nat n) in
               change (0 <? Z.of_nat n) with b
           end;
    cbn; rewrite <- ?app_assoc; cbn.
  all: try (exists []; rewrite app_nil_r; cbn;
            split_and!; [reflexivity | exact I | lia | constructor]).
  all: eexists; split; [reflexivity |]; cbn.
  all: split_and!; try lia; try (repeat constructor; cbn; lia).
  all: repeat match goal with
         | |- _ /\ _ => split
         | |- True => exact I
         | |- exists b, _ =>
             first
               [ eexists; split; [left; reflexivity | split_and!; reflexivity]
               | eexists; split; [right; left; reflexivity | split_and!; reflexivity]
               | eexists; split;
                 [right; right; left; reflexivity | split_and!; reflexivity] ]
         end.
Qed.

(** X14: [InsertVertexPreprocessFinishBarrier] records nothing exactly when
    the vertex and the index counter are both zero, and otherwise one
    pipeline barrier and never a copy.  Its buffer barriers continue those of
    [CopyFromStaging] on the vertex and index buffers: same buffers, in the
    same order, over the same bytes, each starting from the access the
    earlier barrier ended in. *)
Theorem X14_finish_barrier (vc : VertexCollector P) (cmd : VkCommandBuffer) :
  0 <= curVertexCount P vc ->
  0 <= curIndexCount P vc ->
  (curVertexCount P vc = 0 /\ curIndexCount P vc = 0 <->
   InsertVertexPreprocessFinishBarrier P vc cmd = cmd)
  /\ exists added,
       InsertVertexPreprocessFinishBarrier P vc cmd = cmd ++ added
       /\ (length added <= 1)%nat
       /\ List.filter is_copy added = []
       /\ map (fun b => (barrier_buffer b, barrier_offset b, barrier_size b,
                         srcAccessMask b))
            (buffer_barriers added)
          = map (fun b => (barrier_buffer b, barrier_offset b, barrier_size b,
                           dstAccessMask b))
              (List.filter
                 (fun b => match barrier_buffer b with
                           | transformsBuffer => false
                           | _ => true
                           end)
                 (buffer_barriers (snd (CopyFromStaging P vc [])))).
Proof.
  intros Nv Ni.
  unfold InsertVertexPreprocessFinishBarrier, CopyFromStaging,
    CopyVertexDataFromStaging, CopyIndexDataFromStaging,
    CopyTransformsFromStaging, transformsBarrier.
  counters_cases vc;
    try rewrite Ev; try rewrite Ei;
    try rewrite (proj2 (Z.ltb_lt 0 (curVertexCount P vc))) by lia;
    try rewrite (proj2 (Z.ltb_lt 0 (curIndexCount P vc))) by lia;
    cbn;
    repeat match goal with
           | |- context [0 <? Z.of_nat ?n] =>
               let b := eval vm_compute in (0 <? Z.of_nat n) in
               change (0 <? Z.of_nat n) with b
           | |- context [Z.of_nat ?n =? 0] =>
               let b := eval vm_compute in (Z.of_nat n =? 0) in
               change (Z.of_nat n =? 0) with b
           end;
    cbn.
  all: split;
    [ split;
      [ intros (? & ?); first [reflexivity | contradiction]
      | intros Hx; first [ split; reflexivity
                         | exfalso; apply (f_equal (@length Command)) in Hx;
                           rewrite length_app in Hx; cbn in Hx; lia ] ]
    | ].
  all: try (exists []; rewrite app_nil_r; cbn; split_and!; [reflexivity | lia | reflexivity | reflexivity]).
  all: eexists; split; [reflexivity |]; cbn; split_and!; [lia | reflexivity | reflexivity].
Qed.

(** X15: [CopyTransformsFromStaging] with its barrier records exactly the
    commands of [CopyFromStaging] that name the transforms buffer (the copy,
    then its barrier); without the barrier, only the copy among them.  Either
    way it returns whether the transform counter is not zero. *)
Theorem X15_transforms_alone (vc : VertexCollector P) (cmd : VkCommandBuffer) :
  snd (CopyTransformsFromStaging P vc cmd true)
  = cmd ++ List.filter on_transforms (snd (CopyFromStaging P vc []))
  /\ snd (CopyTransformsFromStaging P vc cmd false)
     = cmd ++ List.filter is_copy
                (List.filter on_transforms (snd (CopyFromStaging P vc [])))
  /\ fst (CopyTransformsFromStaging P vc cmd true)
     = negb (curTransformCount P vc =? 0)
  /\ fst (CopyTransformsFromStaging P vc cmd false)
     = negb (curTransformCount P vc =? 0).
Proof.
  unfold CopyFromStaging, CopyVertexDataFromStaging, CopyIndexDataFromStaging,
    CopyTransformsFromStaging, transformsBarrier.
  counters_cases vc; cbn;
    repeat match goal with
           | |- context [0 <? Z.of_nat ?n] =>
               let b := eval vm_compute in (0 <? Z.of_nat n) in
               change (0 <? Z.of_nat n) with b
           end;
    cbn; rewrite <- ?app_assoc, ?app_nil_r; split_and!; reflexivity.
Qed.

(** ** Staged data stays in place *)

Lemma accepted_step mgr (vc : VertexCollector P) s mgr' vc' :
  submit P mgr vc s = Some (Accepted, mgr', vc') ->
  modest P s ->
  0 <= curVertexCount P vc < 2 ^ 31 ->
  0 <= curIndexCount P vc < 2 ^ 31 ->
  0 <= curTransformCount P vc -> curTransformCount P vc + 1 < 2 ^ 32 ->
  (curVertexCount P vc <= vertIndex P vc
   /\ curVertexCount P vc' = vertIndex P vc + vertexCount (s_info s)
   /\ curVertexCount P vc' < 2 ^ 31)
  /\ (curIndexCount P vc <= indIndex P vc
      /\ curIndexCount P vc' = indIndex P vc + indices_used P (s_info s)
      /\ curIndexCount P vc' < 2 ^ 31)
  /\ curTransformCount P vc' = curTransformCount P vc + 1
  /\ (forall j, j < vertIndex P vc ->
                mappedVertexData P vc' !! j = mappedVertexData P vc !! j)
  /\ (forall j, j < indIndex P vc ->
                mappedIndexData P vc' !! j = mappedIndexData P vc !! j)
  /\ (forall j, j <> curTransformCount P vc ->
                mappedTransformData P vc' !! j = mappedTransformData P vc !! j).
Proof.
  intros Hs (Mv & Mi) Cv Ci Ct Wt.
  pose proof (accepted_counters P _ _ _ _ _ Hs) as (Hc & Lv & Li).
  apply accepted_inv in Hs as (f & _ & _ & _ & Hcm).
  apply commit_stores in Hcm as (Hmv & Hmi & Hmt).
  cbn in Hmv, Hmi, Hmt.
  pose proof (AlignUpBy3_bounds (curVertexCount P vc) ltac:(lia) ltac:(lia)) as Av.
  pose proof (AlignUpBy3_bounds (curIndexCount P vc) ltac:(lia) ltac:(lia)) as Ai.
  assert (Iu : 0 <= indices_used P (s_info s) <= indexCount (s_info s)).
  { unfold indices_used. destruct (useIndices P (s_info s)); lia. }
  unfold counters, advance in Hc. cbn in Hc. injection Hc as Hv Hi _ Ht.
  fold (indices_used P (s_info s)) in Hi.
  unfold vertIndex in *. unfold indIndex in *. unfold transformIndex in *.
  rewrite u32_small in Hv by (unfold is_u32; lia).
  rewrite u32_small in Hi by (unfold is_u32; lia).
  rewrite u32_small in Ht by (unfold is_u32; lia).
  unfold MAX_DYNAMIC_VERTEX_COUNT, MAX_INDEXED_PRIMITIVE_COUNT in *.
  split_and!; try lia.
  - intros j Hj. rewrite Hmv. apply store_lookup_lt. exact Hj.
  - intros j Hj. rewrite Hmi. destruct (useIndices P (s_info s)); [| reflexivity].
    apply store_lookup_lt. exact Hj.
  - intros j Hj. rewrite Hmt. apply lookup_insert_ne. congruence.
Qed.

Lemma accepted_run_keeps subs : forall mgr (vc : VertexCollector P) steps mgr' vc',
  run P mgr vc subs = Some (steps, mgr', vc') ->
  all_accepted steps ->
  Forall (modest P) subs ->
  0 <= curVertexCount P vc < 2 ^ 31 ->
  0 <= curIndexCount P vc < 2 ^ 31 ->
  0 <= curTransformCount P vc ->
  curTransformCount P vc + Z.of_nat (length subs) < 2 ^ 32 ->
  (forall j, j < curVertexCount P vc ->
             mappedVertexData P vc' !! j = mappedVertexData P vc !! j)
  /\ (forall j, j < curIndexCount P vc ->
                mappedIndexData P vc' !! j = mappedIndexData P vc !! j)
  /\ (forall j, j < curTransformCount P vc ->
                mappedTransformData P vc' !! j = mappedTransformData P vc !! j).
Proof.
  induction subs as [| s rest IH];
    intros mgr vc steps mgr' vc' Hrun Hacc Hmod Cv Ci Ct Wt.
  - cbn in Hrun. injection Hrun as _ _ <-. auto.
  - cbn [run] in Hrun.
    destruct (submit P mgr vc s) as [[[o m1] v1]|] eqn:Hs; [| discriminate].
    cbn [mbind option_bind] in Hrun.
    destruct (run P m1 v1 rest) as [[[st m2] v2]|] eqn:Hr; [| discriminate].
    cbn in Hrun. injection Hrun as <- <- <-.
    inversion Hacc as [| ? ? Ho Hacc']; subst. cbn in Ho. subst o.
    inversion Hmod as [| ? ? Hm Hmod']; subst.
    cbn [length] in Wt.
    destruct (accepted_step _ _ _ _ _ Hs Hm Cv Ci Ct ltac:(lia))
      as ((V1 & V2 & V3) & (I1 & I2 & I3) & T1 & Kv & Ki & Kt).
    assert (Nv : 0 <= vertexCount (s_info s)) by (destruct Hm; lia).
    assert (Ni : 0 <= indices_used P (s_info s)).
    { unfold indices_used. destruct Hm. destruct (useIndices P (s_info s)); lia. }
    destruct (IH _ _ _ _ _ Hr Hacc' Hmod' ltac:(lia) ltac:(lia) ltac:(lia) ltac:(lia))
      as (Rv & Ri & Rt).
    split_and!; intros j Hj.
    + rewrite Rv by lia. apply Kv. lia.
    + rewrite Ri by lia. apply Ki. lia.
    + rewrite Rt by lia. apply Kt. lia.
Qed.

(** X9: what an accepted call staged is still in place after any number of
    further accepted calls: later primitives are placed behind it.  This
    holds while the counters and the submitted counts stay far from the end of
    the 32-bit range. *)
Theorem X9_staged_data_survives
    mgr (vc : VertexCollector P) s mgr1 vc1 subs steps mgr2 vc2 :
  submit P mgr vc s = Some (Accepted, mgr1, vc1) ->
  run P mgr1 vc1 subs = Some (steps, mgr2, vc2) ->
  all_accepted steps ->
  modest P s -> Forall (modest P) subs ->
  0 <= curVertexCount P vc < 2 ^ 31 ->
  0 <= curIndexCount P vc < 2 ^ 31 ->
  0 <= curTransformCount P vc ->
  curTransformCount P vc + Z.of_nat (length subs) + 1 < 2 ^ 32 ->
  (forall i v,
      (i < Z.to_nat (vertexCount (s_info s)))%nat ->
      pVertices (s_info s) !! i = Some v ->
      mappedVertexData P vc2 !! (vertIndex P vc + Z.of_nat i) = Some v)
  /\ (forall i x idx,
        (i < Z.to_nat (indexCount (s_info s)))%nat ->
        indexCount (s_info s) <> 0 ->
        pIndices (s_info s) = Some idx ->
        idx !! i = Some x ->
        mappedIndexData P vc2 !! (indIndex P vc + Z.of_nat i) = Some x)
  /\ mappedTransformData P vc2 !! transformIndex P vc = Some (transform (s_info s)).
Proof.
  intros Hs Hrun Hacc Hm Hmod Cv Ci Ct Wt.
  destruct (accepted_step _ _ _ _ _ Hs Hm Cv Ci Ct ltac:(lia))
    as ((V1 & V2 & V3) & (I1 & I2 & I3) & T1 & _).
  assert (Nv : 0 <= vertexCount (s_info s)) by (destruct Hm; lia).
  assert (Ni : 0 <= indices_used P (s_info s)).
  { unfold indices_used. destruct Hm. destruct (useIndices P (s_info s)); lia. }
  destruct (accepted_run_keeps subs _ _ _ _ _ Hrun Hacc Hmod
              ltac:(lia) ltac:(lia) ltac:(lia) ltac:(lia)) as (Rv & Ri & Rt).
  destruct (accepted_staging _ _ _ _ _ Hs) as (Sv & Si & St & _).
  split_and!.
  - intros i v Hi Hl. rewrite Rv by lia. eapply Sv; eauto.
  - intros i x idx Hi Hz Hp Hl.
    assert (Hu : indices_used P (s_info s) = indexCount (s_info s)).
    { unfold indices_used, useIndices. rewrite Hp.
      rewrite (proj2 (Z.eqb_neq _ _) Hz). reflexivity. }
    rewrite Ri by lia. eapply Si; eauto.
  - unfold transformIndex. rewrite Rt by lia. exact St.
Qed.

End MoreProps.

(** * Texture overrides *)

Module TextureOverridesProps.

Import TextureOverrides.

(** X16: converting to sRGB and back to UNORM, or the other way round, loses
    nothing: [ToUnorm] after [ToSRGB] is [ToUnorm], [ToSRGB] after [ToUnorm]
    is [ToSRGB], each is idempotent, a format of the sRGB column comes back
    from [ToSRGB (ToUnorm _)] and one of the UNORM column from
    [ToUnorm (ToSRGB _)]; [ToUnorm] never yields a format of the sRGB column
    and [ToSRGB] never one of the UNORM column; [ToUnorm] leaves every format
    outside the sRGB column as it is and [ToSRGB] every format outside the
    UNORM column, so the formats outside the table are left unchanged by
    both. *)
Theorem X16_format_conversions (f : VkFormat) :
  ToUnorm (ToSRGB f) = ToUnorm f
  /\ ToSRGB (ToUnorm f) = ToSRGB f
  /\ ToUnorm (ToUnorm f) = ToUnorm f
  /\ ToSRGB (ToSRGB f) = ToSRGB f
  /\ ToSRGB (ToUnorm f) = (if is_srgb f then f else ToSRGB f)
  /\ ToUnorm (ToSRGB f) = (if is_unorm f then f else ToUnorm f)
  /\ is_srgb (ToUnorm f) = false
  /\ is_unorm (ToSRGB f) = false
  /\ is_srgb (ToSRGB f) = is_srgb f || is_unorm f
  /\ is_unorm (ToUnorm f) = is_srgb f || is_unorm f
  /\ (is_srgb f = false -> ToUnorm f = f)
  /\ (is_unorm f = false -> ToSRGB f = f)
  /\ (is_srgb f = false -> is_unorm f = false -> ToUnorm f = f /\ ToSRGB f = f)
  /\ (forall number,
        ToUnorm (VK_FORMAT_other number) = VK_FORMAT_other number
        /\ ToSRGB (VK_FORMAT_other number) = VK_FORMAT_other number).
Proof.
  destruct f; cbn; split_and!; try reflexivity; intros;
    try discriminate; try (split; reflexivity).
Qed.

Lemma conversion_columns (f : VkFormat) :
  is_srgb (ToUnorm f) = false /\ is_unorm (ToSRGB f) = false.
Proof. destruct f; split; reflexivity. Qed.

(** ** SafeCopy *)

Lemma c_str_nonzero a : Forall (fun c => c <> 0) (c_str a).
Proof.
  induction a as [| c rest IH]; cbn; [constructor |].
  destruct (Z.eqb_spec c 0); [constructor | constructor; assumption].
Qed.

Lemma c_str_app_zero (l r : list char) :
  Forall (fun c => c <> 0) l -> c_str (l ++ 0 :: r) = l.
Proof.
  induction 1 as [| c l Hc _ IH]; cbn; [reflexivity |].
  destruct (Z.eqb_spec c 0); [contradiction | ]. rewrite IH. reflexivity.
Qed.

Lemma c_str_drop_zero (src : list char) i :
  char_at src i = 0 -> c_str (drop i src) = [].
Proof.
  unfold char_at. revert i. induction src as [| c rest IH]; intros [| i] H; cbn in *.
  - reflexivity.
  - reflexivity.
  - subst c. reflexivity.
  - apply IH, H.
Qed.

Lemma c_str_drop_nonzero (src : list char) i :
  char_at src i <> 0 ->
  c_str (drop i src) = char_at src i :: c_str (drop (S i) src).
Proof.
  unfold char_at. revert i. induction src as [| c rest IH]; intros [| i] H; cbn in *.
  - contradiction.
  - contradiction.
  - destruct (Z.eqb_spec c 0); [contradiction |]. rewrite drop_0. reflexivity.
  - apply IH, H.
Qed.

Lemma SafeCopy_loop_spec (src : list char) : forall todo i pre k,
  length pre = i -> (todo < k)%nat ->
  SafeCopy_loop (pre ++ replicate k 0) src i todo
  = pre ++ take todo (c_str (drop i src))
      ++ replicate (k - length (take todo (c_str (drop i src)))) 0.
Proof.
  induction todo as [| todo IH]; intros i pre k Hi Hk; cbn [SafeCopy_loop].
  - rewrite take_0. cbn. rewrite Nat.sub_0_r. reflexivity.
  - destruct (Z.eqb_spec (char_at src i) 0) as [E | E].
    + rewrite (c_str_drop_zero src i E), take_nil. cbn.
      rewrite Nat.sub_0_r. reflexivity.
    + rewrite (c_str_drop_nonzero src i E).
      destruct k as [| k]; [lia |].
      replace (<[i := char_at src i]> (pre ++ replicate (S k) 0))
        with ((pre ++ [char_at src i]) ++ replicate k 0).
      2:{ rewrite <- Hi. cbn [replicate].
          rewrite insert_app_r_alt by lia. rewrite Nat.sub_diag. cbn.
          rewrite <- app_assoc. reflexivity. }
      rewrite (IH (S i) (pre ++ [char_at src i]) k)
        by (rewrite ?length_app; cbn; lia).
      rewrite <- app_assoc. cbn. reflexivity.
Qed.

Lemma SafeCopy_shape (N : nat) (src : option (list char)) :
  (0 < N)%nat ->
  SafeCopy N src
  = take (N - 1) (c_str (default [] src))
      ++ 0 :: replicate (N - 1 - length (take (N - 1) (c_str (default [] src)))) 0.
Proof.
  intros HN. destruct src as [s |]; unfold SafeCopy; cbn [default].
  - pose proof (SafeCopy_loop_spec s (N - 1) 0 [] N eq_refl ltac:(lia)) as H.
    cbn [app] in H. rewrite drop_0 in H. rewrite H.
    set (t := take (N - 1) (c_str s)).
    assert (Ht : (length t <= N - 1)%nat) by (subst t; rewrite length_take; lia).
    replace (N - length t)%nat with (S (N - 1 - length t)) by lia.
    reflexivity.
  - cbn [c_str]. rewrite take_nil. cbn. rewrite Nat.sub_0_r.
    destruct N; [lia |]. cbn. rewrite Nat.sub_0_r. reflexivity.
Qed.

(** X17: [SafeCopy] into an array of [N] chars fills exactly the array, always
    leaves it terminated (its last char is 0), and the string the array then
    holds is the source string cut to [N - 1] chars: the whole source string
    when that is shorter than [N], the empty string when the source pointer
    is null. *)
Theorem X17_SafeCopy (N : nat) (src : option (list char)) :
  (0 < N)%nat ->
  length (SafeCopy N src) = N
  /\ SafeCopy N src !! (N - 1)%nat = Some 0
  /\ c_str (SafeCopy N src) = take (N - 1) (c_str (default [] src))
  /\ ((length (c_str (default [] src)) < N)%nat ->
      c_str (SafeCopy N src) = c_str (default [] src))
  /\ (src = None -> c_str (SafeCopy N src) = []).
Proof.
  intros HN. rewrite (SafeCopy_shape N src HN).
  set (t := take (N - 1) (c_str (default [] src))).
  assert (Hlen : (length t <= N - 1)%nat) by (subst t; rewrite length_take; lia).
  assert (Hnz : Forall (fun c => c <> 0) t).
  { subst t. apply Forall_take, c_str_nonzero. }
  assert (Hc : c_str (t ++ 0 :: replicate (N - 1 - length t) 0) = t)
    by (apply c_str_app_zero, Hnz).
  split_and!.
  - rewrite length_app. cbn. rewrite length_replicate. lia.
  - change (0 :: replicate (N - 1 - length t) 0) with (replicate (S (N - 1 - length t)) 0).
    rewrite lookup_app_r by lia.
    apply lookup_replicate_2. lia.
  - exact Hc.
  - intros Hs. rewrite Hc. subst t. apply take_ge. lia.
  - intros ->. rewrite Hc. subst t. cbn. apply take_nil.
Qed.

Section OverridesProps.

Context {Data Path : Type}.
Context (COUNT : nat).
Context (Load : Loader -> Path -> option (ResultInfo Data)).
Context (build : list char -> list char -> list char -> Extension -> Path).
Context (NAME : nat).

Lemma results_lookup rel (dt : RgTextureSet) ds (oi : OverrideInfo) ld i :
  (i < COUNT)%nat ->
  results (TextureOverrides_new COUNT Load build NAME rel dt ds oi ld) !! i
  = Some (use_default dt ds oi i
            (if disableOverride oi then None
             else load_override Load build rel oi ld i)).
Proof.
  intros Hi. unfold TextureOverrides_new. cbn [results].
  rewrite list_lookup_imap.
  destruct (disableOverride oi); cbn [negb].
  - rewrite lookup_replicate_2 by lia. reflexivity.
  - rewrite list_lookup_imap, lookup_replicate_2 by lia. reflexivity.
Qed.

Lemma defaultDataSize_eq ds :
  defaultDataSize ds = (4 * width ds * height ds) mod 2 ^ 32.
Proof.
  unfold defaultDataSize, defaultBytesPerPixel, u32.
  rewrite Z.mul_mod_idemp_l by lia. reflexivity.
Qed.

(** X18: for every slot below [TEXTURES_PER_MATERIAL_COUNT], an override
    file that loads wins over the default data, its format rewritten by the
    slot's sRGB flag; when overriding is disabled, the texture has no name or
    the file does not load, the slot holds the default data (one level of
    4 * width * height bytes modulo 2^32, in the RGBA8 format the slot's
    original sRGB flag names) and, without default data, nothing. *)
Theorem X18_override_then_default rel (dt : RgTextureSet) ds (oi : OverrideInfo) ld i :
  (i < COUNT)%nat ->
  let t := TextureOverrides_new COUNT Load build NAME rel dt ds oi ld in
  (forall rp raw,
      disableOverride oi = false -> rel = Some rp ->
      Load ld (build (texturesPath oi) rp (postfixes oi i) (Loader_GetExtension ld))
      = Some raw ->
      GetResult COUNT t i
      = Some (Some (with_format raw
                      (if overridenIsSRGB oi i
                       then ToSRGB (format raw) else ToUnorm (format raw)))))
  /\ ((disableOverride oi = true \/ rel = None
       \/ exists rp, rel = Some rp
                     /\ Load ld (build (texturesPath oi) rp (postfixes oi i)
                                   (Loader_GetExtension ld)) = None) ->
      GetResult COUNT t i
      = Some (match defaultData dt i with
              | Some d =>
                  Some (mkResultInfo [0] [(4 * width ds * height ds) mod 2 ^ 32] 1
                          false d ((4 * width ds * height ds) mod 2 ^ 32) ds
                          (if originalIsSRGB oi i
                           then VK_FORMAT_R8G8B8A8_SRGB
                           else VK_FORMAT_R8G8B8A8_UNORM))
              | None => None
              end)).
Proof.
  intros Hi t. subst t. unfold GetResult.
  rewrite (proj2 (Nat.ltb_lt _ _) Hi), (results_lookup _ _ _ _ _ _ Hi).
  split.
  - intros rp raw Hd Hr Hl. rewrite Hd. unfold load_override, GetTexturePath.
    rewrite Hr, Hl. reflexivity.
  - intros H.
    assert (Hn : (if disableOverride oi then None
                  else load_override Load build rel oi ld i) = None).
    { destruct H as [-> | [-> | (rp & -> & Hl)]]; [reflexivity | |].
      - destruct (disableOverride oi); reflexivity.
      - destruct (disableOverride oi); [reflexivity |].
        unfold load_override, GetTexturePath. rewrite Hl. reflexivity. }
    rewrite Hn. unfold use_default. rewrite defaultDataSize_eq.
    destruct (defaultData dt i); reflexivity.
Qed.

(** X19: whichever way a slot was filled, its format follows the slot's
    flags: when neither flag says sRGB the format is not of the sRGB column,
    when both say sRGB it is not of the UNORM column. *)
Theorem X19_result_format rel (dt : RgTextureSet) ds (oi : OverrideInfo) ld i r :
  GetResult COUNT (TextureOverrides_new COUNT Load build NAME rel dt ds oi ld) i
  = Some (Some r) ->
  (overridenIsSRGB oi i = false -> originalIsSRGB oi i = false ->
   is_srgb (format r) = false)
  /\ (overridenIsSRGB oi i = true -> originalIsSRGB oi i = true ->
      is_unorm (format r) = false).
Proof.
  unfold GetResult. destruct (Nat.ltb_spec i COUNT) as [Hi | Hi]; [| discriminate].
  rewrite (results_lookup _ _ _ _ _ _ Hi). intros H. injection H as H.
  unfold use_default in H.
  destruct (if disableOverride oi then None else load_override Load build rel oi ld i)
    as [o |] eqn:Ho.
  - injection H as <-.
    destruct (disableOverride oi); [discriminate |].
    unfold load_override in Ho.
    destruct (GetTexturePath build _ _ _ _) as [p |]; [| discriminate].
    destruct (Load ld p) as [raw |]; [| discriminate].
    injection Ho as <-. cbn [format with_format].
    pose proof (conversion_columns (format raw)) as (Hs & Hu).
    split; intros -> _; assumption.
  - destruct (defaultData dt i); [| discriminate]. injection H as <-. cbn [format].
    split; intros _ ->; reflexivity.
Qed.
End OverridesProps.

(** X20: with overriding disabled, or for a texture without a name, what
    the loaders would return and how paths are built plays no part: the slots
    and the debug name are the same whatever they are. *)
Theorem X20_no_loading_when_disabled_or_unnamed {Data Path : Type}
    (COUNT : nat) (Load1 Load2 : Loader -> Path -> option (ResultInfo Data))
    (build1 build2 : list char -> list char -> list char -> Extension -> Path)
    (NAME : nat) rel (dt : RgTextureSet) ds (oi : OverrideInfo) ld1 ld2 :
  disableOverride oi = true \/ rel = None ->
  results (TextureOverrides_new COUNT Load1 build1 NAME rel dt ds oi ld1)
  = results (TextureOverrides_new COUNT Load2 build2 NAME rel dt ds oi ld2)
  /\ debugname (TextureOverrides_new COUNT Load1 build1 NAME rel dt ds oi ld1)
     = debugname (TextureOverrides_new COUNT Load2 build2 NAME rel dt ds oi ld2).
Proof.
  intros H. split; [| reflexivity].
  unfold TextureOverrides_new. cbn [results].
  destruct H as [-> | ->]; [reflexivity |].
  destruct (disableOverride oi); reflexivity.
Qed.

End TextureOverridesProps.

(** * The small instance: examples of the further properties *)

Lemma Small_grows : grows_to Small.platform Small.vc_fresh Small.vc_two.
Proof.
  eapply grows_add; [| exact Small_second].
  eapply grows_add; [| exact Small_first].
  apply grows_init.
Qed.

Lemma Small_fresh_empty k f :
  filters Small.platform Small.vc_fresh !! k = Some f -> asGeometries f = [].
Proof.
  intros H. destruct (constructed_inv _ _ Small_constructed) as (_ & Hc).
  rewrite (Hc k f H). reflexivity.
Qed.

Lemma X1_witness :
  is_u32 7 /\ 7 + 2 < 2 ^ 32 /\ AlignUpBy3 7 = 9
  /\ 7 <= AlignUpBy3 7 < 7 + 3.
Proof.
  assert (H : is_u32 7) by (unfold is_u32; lia).
  assert (H2 : 7 + 2 < 2 ^ 32) by lia.
  pose proof (X1_AlignUpBy3_least_multiple 7 H) as (Hl & _).
  split; [exact H |]. split; [exact H2 |]. split; [reflexivity |].
  exact (proj1 (Hl H2)).
Defined.

Lemma X3_witness :
  (constructed Small.platform Small.vc_fresh
   /\ reachable Small.platform Small.vc_fresh Small.vc_two)
  /\ exists v,
       VertexCollector_view Small.platform Small.vc_two = Some v
       /\ same_but_staging Small.platform v Small.vc_fresh
       /\ mappedVertexData Small.platform v = ∅.
Proof.
  destruct (X3_view_is_fresh Small.platform _ _ Small_constructed Small_two_reachable)
    as (v & Hv & Hs & _ & He & _).
  split; [split; [exact Small_constructed | exact Small_two_reachable] |].
  exists v. split_and!; assumption.
Defined.

Lemma X4_witness :
  (counters Small.platform Small.vc_one = (3, 0, 1, 1)
   /\ new_vertex_count Small.platform Small.vc_one SmallCases.wrapping_sub = 0
   /\ submit Small.platform Small.mgr_one Small.vc_one SmallCases.wrapping_sub = None)
  /\ (transformIndex Small.platform SmallCases.vc_no_slot
      = MAX_BOTTOM_LEVEL_GEOMETRIES_COUNT
      /\ submit Small.platform [] SmallCases.vc_no_slot Small.tri = None).
Proof.
  pose proof (proj2 (proj1 (X4_calls_without_result Small.platform Small.mgr_one
                              Small.vc_one SmallCases.wrapping_sub))) as W.
  pose proof (proj2 (proj1 (X4_calls_without_result Small.platform []
                              SmallCases.vc_no_slot Small.tri))) as T.
  split; [split_and!; [vm_compute; reflexivity | vm_compute; reflexivity |]
         | split; [vm_compute; reflexivity |]].
  - apply W. right. eexists.
    split; [vm_compute; reflexivity |].
    split; [vm_compute; reflexivity |].
    split; [vm_compute; reflexivity |].
    right. vm_compute. reflexivity.
  - apply T. right. eexists.
    split; [vm_compute; reflexivity |].
    split; [vm_compute; reflexivity |].
    split; [vm_compute; reflexivity |].
    right. vm_compute. reflexivity.
Defined.

Lemma X5_witness :
  (constructed Small.platform Small.vc_fresh
   /\ reachable Small.platform Small.vc_fresh Small.vc_two)
  /\ match GetASGeometries Small.platform Small.vc_two 73,
           GetASBuildRangeInfos Small.platform Small.vc_two 73,
           GetPrimitiveCounts Small.platform Small.vc_two 73 with
     | Some g, Some r, Some p =>
         length r = length g /\ length p = length g
         /\ GetGeometryCount Small.platform Small.vc_two 73
            = Some (u32 (Z.of_nat (length g)))
     | None, None, None => GetGeometryCount Small.platform Small.vc_two 73 = None
     | _, _, _ => False
     end.
Proof.
  split; [split; [exact Small_constructed | exact Small_two_reachable] |].
  exact (X5_sequences_in_lock_step Small.platform _ _ 73
           Small_constructed Small_two_reachable).
Defined.

Lemma X6_witness :
  (Platform_ok Small.platform
   /\ constructed Small.platform Small.vc_fresh
   /\ reachable Small.platform Small.vc_fresh Small.vc_one
   /\ submit Small.platform Small.mgr_one Small.vc_one Small.tri
      = Some (Accepted, Small.mgr_two, Small.vc_two))
  /\ exists e g,
       Small.mgr_two = Small.mgr_one ++ [e]
       /\ GetGeometryCount Small.platform Small.vc_one (key_of Small.platform Small.tri)
          = Some (e_localIndex e)
       /\ GetASGeometries Small.platform Small.vc_two (key_of Small.platform Small.tri)
            ≫= (fun l => l !! Z.to_nat (e_localIndex e))
          = Some g
       /\ maxVertex g = 3.
Proof.
  assert (Hr : reachable Small.platform Small.vc_fresh Small.vc_one).
  { eapply reach_add; [apply reach_init | exact Small_first]. }
  destruct (X6_local_index Small.platform _ _ _ _ _ _
              Small_platform_ok Small_constructed Hr Small_second)
    as (e & g & r & He & _ & _ & _ & _ & Hc & Hg & Hm & _).
  split; [split_and!;
            [exact Small_platform_ok | exact Small_constructed | exact Hr
            | exact Small_second] |].
  exists e, g. split_and!; assumption.
Defined.

Lemma X7_witness :
  grows_to Small.platform Small.vc_fresh Small.vc_two
  /\ match filters Small.platform Small.vc_fresh !! 73,
           filters Small.platform Small.vc_two !! 73 with
     | Some f0, Some f =>
         filter f = filter f0
         /\ asGeometries f0 `prefix_of` asGeometries f
         /\ asBuildRangeInfos f0 `prefix_of` asBuildRangeInfos f
         /\ primitiveCounts f0 `prefix_of` primitiveCounts f
     | None, None => True
     | _, _ => False
     end.
Proof.
  split; [exact Small_grows |].
  exact (X7_buckets_only_grow Small.platform _ _ 73 Small_grows).
Defined.

Lemma X8_witness :
  submit Small.platform [] Small.vc_fresh Small.tri
  = Some (Accepted, Small.mgr_one, Small.vc_one)
  /\ mappedVertexData Small.platform Small.vc_one
       !! (vertIndex Small.platform Small.vc_fresh + Z.of_nat 2) = Some 12
  /\ mappedTransformData Small.platform Small.vc_one
       !! transformIndex Small.platform Small.vc_fresh = Some 7.
Proof.
  destruct (X8_staged_data_reads_back Small.platform _ _ _ _ _ Small_first)
    as (Hv & _ & Ht & _).
  split; [exact Small_first |]. split; [| exact Ht].
  apply Hv; [vm_compute; lia | reflexivity].
Defined.

Lemma X9_witness :
  (submit Small.platform [] Small.vc_fresh Small.tri
   = Some (Accepted, Small.mgr_one, Small.vc_one)
   /\ run Small.platform Small.mgr_one Small.vc_one [Small.quad_sub]
      = Some ([mkStep Accepted (Some (3, 0, 1))],
              Small.registry_after [Small.tri; Small.quad_sub],
              Small.collector_after [Small.tri; Small.quad_sub])
   /\ all_accepted [mkStep Accepted (Some (3, 0, 1))]
   /\ modest Small.platform Small.tri
   /\ Forall (modest Small.platform) [Small.quad_sub])
  /\ mappedVertexData Small.platform
       (Small.collector_after [Small.tri; Small.quad_sub])
       !! (vertIndex Small.platform Small.vc_fresh + Z.of_nat 2) = Some 12
  /\ mappedTransformData Small.platform
       (Small.collector_after [Small.tri; Small.quad_sub])
       !! transformIndex Small.platform Small.vc_fresh = Some 7.
Proof.
  assert (H2 : run Small.platform Small.mgr_one Small.vc_one [Small.quad_sub]
               = Some ([mkStep Accepted (Some (3, 0, 1))],
                       Small.registry_after [Small.tri; Small.quad_sub],
                       Small.collector_after [Small.tri; Small.quad_sub]))
    by (vm_compute; reflexivity).
  assert (H3 : all_accepted [mkStep Accepted (Some (3, 0, 1))])
    by (repeat constructor).
  assert (H4 : modest Small.platform Small.tri) by (unfold modest; cbn; lia).
  assert (H5 : Forall (modest Small.platform) [Small.quad_sub])
    by (repeat constructor; cbn; lia).
  assert (H6 : 0 <= curVertexCount Small.platform Small.vc_fresh < 2 ^ 31)
    by (split; [vm_compute; discriminate | reflexivity]).
  assert (H7 : 0 <= curIndexCount Small.platform Small.vc_fresh < 2 ^ 31)
    by (split; [vm_compute; discriminate | reflexivity]).
  assert (H8 : 0 <= curTransformCount Small.platform Small.vc_fresh)
    by (vm_compute; discriminate).
  assert (H9 : curTransformCount Small.platform Small.vc_fresh
               + Z.of_nat (length [Small.quad_sub]) + 1 < 2 ^ 32)
    by reflexivity.
  pose proof (X9_staged_data_survives Small.platform _ _ _ _ _ _ _ _ _
              Small_first H2 H3 H4 H5 H6 H7 H8 H9) as T.
  destruct T as (Hv & _ & Ht).
  pose proof Small_first as H1.
  split; [split_and!; assumption |]. split; [| exact Ht].
  apply Hv; [vm_compute; lia | reflexivity].
Defined.

Lemma X10_witness :
  (submit Small.platform [] Small.vc_fresh SmallCases.big_sub
   = Some (Rejected (TooManyStaticVertices 1048576), [], SmallCases.vc_over)
   /\ submit Small.platform [] SmallCases.vc_over Small.tri
      = Some (Rejected (TooManyStaticVertices 1048576), [],
              advance Small.platform SmallCases.vc_over Small.triangle)
   /\ maxVertexCount Small.platform (key_of Small.platform Small.tri)
      <= curVertexCount Small.platform SmallCases.vc_over)
  /\ returned (Rejected (TooManyStaticVertices 1048576)) = false
  /\ maxVertexCount Small.platform (key_of Small.platform Small.tri)
     <= curVertexCount Small.platform
          (advance Small.platform SmallCases.vc_over Small.triangle).
Proof.
  assert (H0 : submit Small.platform [] Small.vc_fresh SmallCases.big_sub
               = Some (Rejected (TooManyStaticVertices 1048576), [],
                       SmallCases.vc_over)) by (vm_compute; reflexivity).
  assert (H1 : submit Small.platform [] SmallCases.vc_over Small.tri
               = Some (Rejected (TooManyStaticVertices 1048576), [],
                       advance Small.platform SmallCases.vc_over Small.triangle))
    by (vm_compute; reflexivity).
  assert (H2 : maxVertexCount Small.platform (key_of Small.platform Small.tri)
               <= curVertexCount Small.platform SmallCases.vc_over)
    by (vm_compute; discriminate).
  assert (N1 : 0 <= vertexCount (s_info Small.tri))
    by (vm_compute; discriminate).
  assert (N2 : 0 <= indexCount (s_info Small.tri))
    by (vm_compute; discriminate).
  assert (N3 : 0 <= curVertexCount Small.platform SmallCases.vc_over)
    by (vm_compute; discriminate).
  assert (N4 : 0 <= curIndexCount Small.platform SmallCases.vc_over)
    by (vm_compute; discriminate).
  assert (W1 : curVertexCount Small.platform SmallCases.vc_over + 2
               + vertexCount (s_info Small.tri) < 2 ^ 32)
    by (vm_compute; reflexivity).
  assert (W2 : curIndexCount Small.platform SmallCases.vc_over + 2
               + indexCount (s_info Small.tri) < 2 ^ 32)
    by (vm_compute; reflexivity).
  destruct (X10_rejection_is_sticky Small.platform _ _ _ _ _ _ H1
              N1 N2 N3 N4 W1 W2 (or_introl H2))
    as (Hr & Hv & _).
  split; [split_and!; assumption |]. split; [exact Hr | exact (Hv H2)].
Defined.

Lemma X11_witness :
  ((forall k f, filters Small.platform Small.vc_fresh !! k = Some f ->
                asGeometries f = [])
   /\ run Small.platform [] Small.vc_fresh [Small.tri; Small.tri; Small.tri]
      = Some (SmallCases.three_steps, Small.mgr_two, Small.vc_two))
  /\ GetAllGeometryCount Small.platform Small.vc_two = 2.
Proof.
  assert (H2 : run Small.platform [] Small.vc_fresh [Small.tri; Small.tri; Small.tri]
               = Some (SmallCases.three_steps, Small.mgr_two, Small.vc_two))
    by (vm_compute; reflexivity).
  split; [split; [exact Small_fresh_empty | exact H2] |].
  exact (X11_GetAllGeometryCount_counts_accepted Small.platform _ _ _ _ _ _
           Small_fresh_empty H2).
Defined.

Lemma X14_witness :
  (0 <= curVertexCount Small.platform Small.vc_one
   /\ 0 <= curIndexCount Small.platform Small.vc_one)
  /\ InsertVertexPreprocessFinishBarrier Small.platform Small.vc_one [] <> []
  /\ InsertVertexPreprocessFinishBarrier Small.platform Small.vc_fresh [] = [].
Proof.
  assert (H1 : 0 <= curVertexCount Small.platform Small.vc_one)
    by (vm_compute; discriminate).
  assert (H2 : 0 <= curIndexCount Small.platform Small.vc_one)
    by (vm_compute; discriminate).
  assert (F1 : 0 <= curVertexCount Small.platform Small.vc_fresh)
    by (vm_compute; discriminate).
  destruct (X14_finish_barrier Small.platform Small.vc_one [] H1 H2) as (Hi & _).
  destruct (X14_finish_barrier Small.platform Small.vc_fresh [] F1 F1) as (Hf & _).
  split; [split; assumption |]. split.
  - intros He. apply Hi in He as (Hv & _). vm_compute in Hv. discriminate.
  - apply Hf. split; reflexivity.
Defined.

Lemma X17_witness :
  (0 < 4)%nat
  /\ TextureOverrides.SafeCopy 4 (Some [119; 97; 108; 108; 115]) = [119; 97; 108; 0]
  /\ TextureOverrides.c_str
       (TextureOverrides.SafeCopy 4 (Some [119; 97; 108; 108; 115]))
     = take (4 - 1) (TextureOverrides.c_str [119; 97; 108; 108; 115]).
Proof.
  assert (H : (0 < 4)%nat) by lia.
  pose proof (TextureOverridesProps.X17_SafeCopy 4 (Some [119; 97; 108; 108; 115]) H)
    as (_ & _ & Hc & _).
  split; [exact H |]. split; [reflexivity | exact Hc].
Defined.

Lemma X18_witness :
  (0 < 3)%nat
  /\ TextureOverrides.GetResult 3 (SmallCases.overrides false) 0
     = Some (Some (TextureOverrides.with_format SmallCases.loaded_file
                     TextureOverrides.VK_FORMAT_BC7_UNORM_BLOCK))
  /\ TextureOverrides.GetResult 3 (SmallCases.overrides true) 0
     = Some (Some (TextureOverrides.mkResultInfo [0] [16] 1 false 100 16
                     (TextureOverrides.mkExtent 2 2)
                     TextureOverrides.VK_FORMAT_R8G8B8A8_UNORM)).
Proof.
  assert (H : (0 < 3)%nat) by lia.
  split; [exact H |]. split.
  - destruct (TextureOverridesProps.X18_override_then_default 3 SmallCases.on_disk
                SmallCases.path_of 8 (Some [119]) SmallCases.texture_set
                (TextureOverrides.mkExtent 2 2) (SmallCases.override_info false)
                TextureOverrides.Loader_ImageLoader 0%nat H) as (Ho & _).
    exact (Ho [119] SmallCases.loaded_file eq_refl eq_refl eq_refl).
  - destruct (TextureOverridesProps.X18_override_then_default 3 SmallCases.on_disk
                SmallCases.path_of 8 (Some [119]) SmallCases.texture_set
                (TextureOverrides.mkExtent 2 2) (SmallCases.override_info true)
                TextureOverrides.Loader_ImageLoader 0%nat H) as (_ & Hd).
    exact (Hd (or_introl eq_refl)).
Defined.

Lemma X19_witness :
  TextureOverrides.GetResult 3 (SmallCases.overrides false) 0
  = Some (Some (TextureOverrides.with_format SmallCases.loaded_file
                  TextureOverrides.VK_FORMAT_BC7_UNORM_BLOCK))
  /\ TextureOverrides.is_srgb (TextureOverrides.format SmallCases.loaded_file) = true
  /\ TextureOverrides.is_srgb
       (TextureOverrides.format
          (TextureOverrides.with_format SmallCases.loaded_file
             TextureOverrides.VK_FORMAT_BC7_UNORM_BLOCK)) = false.
Proof.
  assert (H : TextureOverrides.GetResult 3 (SmallCases.overrides false) 0
              = Some (Some (TextureOverrides.with_format SmallCases.loaded_file
                              TextureOverrides.VK_FORMAT_BC7_UNORM_BLOCK)))
    by reflexivity.
  destruct (TextureOverridesProps.X19_result_format 3 SmallCases.on_disk
              SmallCases.path_of 8 (Some [119]) SmallCases.texture_set
              (TextureOverrides.mkExtent 2 2) (SmallCases.override_info false)
              TextureOverrides.Loader_ImageLoader 0%nat _ H) as (Hs & _).
  split; [exact H |]. split; [reflexivity |]. exact (Hs eq_refl eq_refl).
Defined.

Lemma X20_witness :
  (TextureOverrides.disableOverride (SmallCases.override_info true) = true
   \/ Some [119] = None)
  /\ TextureOverrides.results (SmallCases.overrides true)
     = TextureOverrides.results
         (TextureOverrides.TextureOverrides_new 3 (fun _ _ => None)
            (fun _ _ _ _ => @nil Z) 8 (Some [119]) SmallCases.texture_set
            (TextureOverrides.mkExtent 2 2) (SmallCases.override_info true)
            TextureOverrides.Loader_ImageLoaderDev).
Proof.
  assert (H : TextureOverrides.disableOverride (SmallCases.override_info true) = true
              \/ Some [119] = @None (list Z)) by (left; reflexivity).
  split; [exact H |].
  exact (proj1 (TextureOverridesProps.X20_no_loading_when_disabled_or_unnamed 3
                  SmallCases.on_disk (fun _ _ => None)
                  SmallCases.path_of (fun _ _ _ _ => @nil Z) 8 (Some [119])
                  SmallCases.texture_set (TextureOverrides.mkExtent 2 2)
                  (SmallCases.override_info true)
                  TextureOverrides.Loader_ImageLoader
                  TextureOverrides.Loader_ImageLoaderDev H)).
Defined.
